(** * bitcoinlib.wallets: HD wallet, key tree and coin selection

    A shallow embedding of [bitcoinlib/wallets.py].

    - The three SQL tables are lists of rows in insertion (primary key)
      order; a query is a [filter] over such a list, [first()] its head,
      [scalar()] its only element, [order_by] a stable sort; a new row
      gets the next primary key.
    - Every method of [HDWallet] is a function in a state-and-exception
      monad over the wallet object, which carries the database behind its
      session; a Python exception is the [Raise] result, and the rows
      written before it stay.
    - What the module imports from keys.py, networks.py, services and
      transactions.py is the interface [Externals]; the operations and the
      general lemmas hold for every implementation of it, and the concrete
      wallets are computed with the small implementation [toy]. *)

From Stdlib Require Import ZArith List Bool Ascii String Lia Permutation.
From Stdlib Require Import Sorting.Sorted Numbers.DecimalString.
Import ListNotations.

Open Scope string_scope.
Open Scope Z_scope.

(* ================================================================== *)
(** ** Python strings *)

Module Py.

(** [s.split(sep)] for a one-character separator: never the empty list. *)
Fixpoint split (sep : ascii) (s : string) : list string :=
  match s with
  | EmptyString => [EmptyString]
  | String a s' =>
      if Ascii.eqb a sep then EmptyString :: split sep s'
      else match split sep s' with
           | [] => [String a EmptyString]
           | w :: ws => String a w :: ws
           end
  end.

(** [sep.join(l)] *)
Fixpoint join (sep : string) (l : list string) : string :=
  match l with
  | [] => EmptyString
  | [x] => x
  | x :: xs => x ++ sep ++ join sep xs
  end.

(** [s[-1]]: raises IndexError on the empty string, here [None]. *)
Fixpoint last_char (s : string) : option ascii :=
  match s with
  | EmptyString => None
  | String a EmptyString => Some a
  | String _ s' => last_char s'
  end.

(** [s[:-1]] *)
Fixpoint but_last (s : string) : string :=
  match s with
  | EmptyString => EmptyString
  | String _ EmptyString => EmptyString
  | String a s' => String a (but_last s')
  end.

(** [c in s] for a single character [c]. *)
Fixpoint char_in (c : ascii) (s : string) : bool :=
  match s with
  | EmptyString => false
  | String a s' => Ascii.eqb c a || char_in c s'
  end.

(** [l[:-1]] on lists *)
Definition list_but_last {A} (l : list A) : list A := removelast l.

(** [s.replace(old, new)] for a non-empty [old]: every non-overlapping
    occurrence, scanning from the left.  [skip] counts the characters of
    an occurrence just replaced that remain to be dropped. *)
Fixpoint replace_go (old new : string) (skip : nat) (s : string) : string :=
  match s with
  | EmptyString => EmptyString
  | String a s' =>
      match skip with
      | S k => replace_go old new k s'
      | O => if String.prefix old s
             then new ++ replace_go old new (Nat.pred (String.length old)) s'
             else String a (replace_go old new 0 s')
      end
  end.

Definition replace (old new s : string) : string := replace_go old new 0 s.

(** [str(n)] and ["%d" % n] for an int *)
Definition str (n : Z) : string := NilZero.string_of_int (Z.to_int n).

(** [s.isdigit()], on ASCII strings *)
Definition is_digit (a : ascii) : bool :=
  let n := nat_of_ascii a in (48 <=? n)%nat && (n <=? 57)%nat.

Fixpoint all_digits (s : string) : bool :=
  match s with
  | EmptyString => true
  | String a s' => is_digit a && all_digits s'
  end.

Definition isdigit (s : string) : bool :=
  match s with EmptyString => false | _ => all_digits s end.

(** value of a string of ASCII digits *)
Fixpoint digits_value (acc : Z) (s : string) : Z :=
  match s with
  | EmptyString => acc
  | String a s' => digits_value (10 * acc + (Z.of_nat (nat_of_ascii a) - 48)) s'
  end.

End Py.

(* ================================================================== *)
(** ** Exceptions *)

(** The messages with which the module raises [WalletError], one
    constructor per [raise] statement (two statements that raise for the
    same reason share one). *)
Inductive wallet_error : Type :=
| WalletNotFound           (* "Wallet '%s' not found" *)
| ForceDeleteRequired (key_id : Z)
                           (* "Key %d (%s) still has unspent outputs ..." *)
| InvalidPath              (* "Could not parse path. Index is empty." *)
| InvalidPathLength        (* "Not a valid BIP0044 path. ..." *)
| DepthMismatch            (* "Key depth of %d does not match path lenght ..." *)
| KeyIdNotFound            (* "Key with id %s cdnot found" *)
| DuplicateWalletName      (* "Wallet with name '%s' already exists" *)
| InvalidMasterKeyDepth    (* "Cannot create new wallet with main key of depth 5 or more" *)
| NoMasterKey              (* "No key found this wallet_id, network and purpose. ..." *)
| AccountExists            (* "Account with ID %d already exists for this wallet" *)
| MissingMasterKey         (* "No key found for this wallet_id, ... Can not create new account ..." *)
| PurposeMismatch          (* "Cannot create key with different purpose field ..." *)
| CointypeMismatch         (* "Multiple cointypes per wallet are not supported ..." *)
| UnhardenedPath           (* "Cointype, purpose and account must be hardened ..." *)
| InsufficientFunds        (* "Not enough unspent transaction outputs found" *)
| UnsupportedOperation     (* "This is not implemented yet" *)
| TransactionVerificationFailed
                           (* "Cannot verify transaction. Create transaction failed" *)
| BroadcastFailed.         (* "Could not send transaction: %s" *)

Inductive exn : Type :=
| WalletError (msg : wallet_error)
| KeyError                 (* raised by [HDWallet.key] *)
| AttributeError           (* attribute of [None] *)
| IndexError               (* [s[-1]] on an empty string *)
| ValueError               (* [int(s)] on a non-number *)
| TypeError                (* [None + 1], ["%d" % None] *)
| MultipleResultsFound     (* [Query.scalar()] on several rows *)
| ExternalError.           (* raised inside keys.py / networks.py / services *)

Inductive result (A : Type) : Type :=
| Ok (a : A)
| Raise (e : exn).
Arguments Ok {A} a.
Arguments Raise {A} e.

Definition is_ok {A} (r : result A) : bool :=
  match r with Ok _ => true | Raise _ => false end.

(* ================================================================== *)
(** ** Path algebra *)

Definition hardening_markers : string := "'HhPp".

(** The body of [for level in levels] of [normalize_path], with the
    accumulator [npath]. *)
Fixpoint normalize_loop (levels : list string) (npath : string) : result string :=
  match levels with
  | [] => Ok npath
  | level :: rest =>
      match Py.last_char level with
      | None => Raise (WalletError InvalidPath)            (* if not level *)
      | Some c =>
          let nlevel := if Py.char_in c hardening_markers
                        then Py.but_last level ++ "'"
                        else level in
          normalize_loop rest (npath ++ nlevel ++ "/")
      end
  end.

Definition normalize_path (path : string) : result string :=
  match normalize_loop (Py.split "/" path) "" with
  | Raise e => Raise e
  | Ok npath =>
      match Py.last_char npath with
      | None => Raise IndexError                           (* npath[-1] *)
      | Some c => Ok (if Ascii.eqb c "/" then Py.but_last npath else npath)
      end
  end.

Record pathdict : Type := {
  isprivate : bool;
  pd_purpose : string;
  pd_cointype : string;
  pd_account : string;
  pd_change : string;
  pd_address_index : string
}.

Definition parse_bip44_path (path : string) : result pathdict :=
  match normalize_path path with
  | Raise e => Raise e
  | Ok npath =>
      let pathl := Py.split "/" npath in
      let n := Z.of_nat (List.length pathl) in
      if negb ((0 <? n) && (n <=? 6)) then Raise (WalletError InvalidPathLength)
      else Ok {| isprivate := String.eqb (nth 0 pathl "") "m";
                 pd_purpose := if n <? 2 then "" else nth 1 pathl "";
                 pd_cointype := if n <? 3 then "" else nth 2 pathl "";
                 pd_account := if n <? 4 then "" else nth 3 pathl "";
                 pd_change := if n <? 5 then "" else nth 4 pathl "";
                 pd_address_index := if n <? 6 then "" else nth 5 pathl "" |}
  end.

(* ================================================================== *)
(** ** The database (bitcoinlib.db): three tables *)

(** A nullable integer column compared with [==]: NULL matches nothing. *)
Definition col_eq (c : option Z) (v : Z) : bool :=
  match c with Some x => x =? v | None => false end.

Module DbWallet.
Record row : Type := {
  id : Z;
  name : string;
  owner : string;
  network_name : string;
  purpose : Z;
  main_key_id : option Z;
  balance : Z
}.
Definition set_balance (b : Z) (w : row) : row :=
  {| id := id w; name := name w; owner := owner w;
     network_name := network_name w; purpose := purpose w;
     main_key_id := main_key_id w; balance := b |}.
Definition set_main_key_id (k : Z) (w : row) : row :=
  {| id := id w; name := name w; owner := owner w;
     network_name := network_name w; purpose := purpose w;
     main_key_id := Some k; balance := balance w |}.
End DbWallet.

Module DbKey.
Record row : Type := {
  id : Z;
  parent_id : Z;
  name : string;
  account_id : option Z;
  depth : Z;
  change : Z;
  address_index : Z;
  key : string;
  key_wif : string;
  address : string;
  purpose : Z;
  is_private : bool;
  path : string;
  wallet_id : Z;
  key_type : string;
  balance : Z
}.
Definition set_balance (b : Z) (k : row) : row :=
  {| id := id k; parent_id := parent_id k; name := name k;
     account_id := account_id k; depth := depth k; change := change k;
     address_index := address_index k; key := key k; key_wif := key_wif k;
     address := address k; purpose := purpose k; is_private := is_private k;
     path := path k; wallet_id := wallet_id k; key_type := key_type k;
     balance := b |}.
End DbKey.

Module DbTransaction.
Record row : Type := {
  id : Z;
  key_id : Z;
  tx_hash : string;
  confirmations : Z;
  output_n : Z;
  index : Z;
  value : Z;
  script : string;
  spend : option bool
}.
End DbTransaction.

Record Db : Type := {
  wallets : list DbWallet.row;
  keys_table : list DbKey.row;
  transactions : list DbTransaction.row
}.

Definition empty_db : Db :=
  {| wallets := []; keys_table := []; transactions := [] |}.

Definition set_wallets (ws : list DbWallet.row) (db : Db) : Db :=
  {| wallets := ws; keys_table := keys_table db; transactions := transactions db |}.
Definition set_keys (ks : list DbKey.row) (db : Db) : Db :=
  {| wallets := wallets db; keys_table := ks; transactions := transactions db |}.
Definition set_transactions (ts : list DbTransaction.row) (db : Db) : Db :=
  {| wallets := wallets db; keys_table := keys_table db; transactions := ts |}.

(** The primary key the engine gives a new row: one more than the largest
    one in the table, [1] in an empty table. *)
Definition next_id (ids : list Z) : Z := 1 + fold_right Z.max 0 ids.

(** [Query.first()]: the first row in table order, or [None]. *)
Definition first {A} (q : list A) : option A := hd_error q.

(** [Query.scalar()]: the only row, [None] when there is none, and
    [MultipleResultsFound] otherwise. *)
Definition scalar {A} (q : list A) : result (option A) :=
  match q with
  | [] => Ok None
  | [x] => Ok (Some x)
  | _ => Raise MultipleResultsFound
  end.

(** [Query.count()] *)
Definition count {A} (q : list A) : Z := Z.of_nat (List.length q).

(** [Query.order_by(...)]: insertion sort; [before x y] says that [x] may
    stand in front of [y], and rows that may stand either way keep their
    table order. *)
Fixpoint insert_by {A} (before : A -> A -> bool) (x : A) (l : list A) : list A :=
  match l with
  | [] => [x]
  | y :: l' => if before x y then x :: l else y :: insert_by before x l'
  end.

Fixpoint sort_by {A} (before : A -> A -> bool) (l : list A) : list A :=
  match l with
  | [] => []
  | x :: l' => insert_by before x (sort_by before l')
  end.

(** [order_by(col)] and [order_by(col.desc())] on an integer column *)
Definition order_by {A} (col : A -> Z) (l : list A) : list A :=
  sort_by (fun x y => col x <=? col y) l.
Definition order_by_desc {A} (col : A -> Z) (l : list A) : list A :=
  sort_by (fun x y => col x >=? col y) l.

(** [order_by(col.desc())] on a nullable integer column: NULL is the
    smallest value, so the NULL rows come last. *)
Definition null_geb (a b : option Z) : bool :=
  match a, b with
  | Some x, Some y => x >=? y
  | Some _, None => true
  | None, Some _ => false
  | None, None => true
  end.
Definition order_by_desc_nullable {A} (col : A -> option Z) (l : list A) : list A :=
  sort_by (fun x y => null_geb (col x) (col y)) l.

(* ------------------------------------------------------------------ *)
(** *** delete_wallet *)

(** The [wallet] argument: an int or a str. *)
Inductive wallet_ref : Type :=
| WalletId (n : Z)
| WalletName (s : string).

(** [filter_by(id=wallet)] or [filter_by(name=wallet)]: a string of digits
    is compared with the integer column by its value. *)
Definition wallet_matches (wallet : wallet_ref) (w : DbWallet.row) : bool :=
  match wallet with
  | WalletId n => DbWallet.id w =? n
  | WalletName s =>
      if Py.isdigit s then DbWallet.id w =? Py.digits_value 0 s
      else String.eqb (DbWallet.name w) s
  end.

(** [session.query(DbWallet).filter_by(...)] *)
Definition wallet_query (wallet : wallet_ref) (db : Db) : list DbWallet.row :=
  filter (wallet_matches wallet) (wallets db).

(** [for k in ks: if not force and k.balance: raise ...] *)
Fixpoint check_balances (force : bool) (ks : list DbKey.row) : result unit :=
  match ks with
  | [] => Ok tt
  | k :: ks' =>
      if negb force && negb (DbKey.balance k =? 0)
      then Raise (WalletError (ForceDeleteRequired (DbKey.id k)))
      else check_balances force ks'
  end.

(** Returns the number of wallet rows deleted and the database left. *)
Definition delete_wallet (wallet : wallet_ref) (force : bool) (db : Db) : result Z * Db :=
  let w := wallet_query wallet db in
  match first w with
  | None => (Raise (WalletError WalletNotFound), db)
  | Some w0 =>
      let in_ks := fun k => DbKey.wallet_id k =? DbWallet.id w0 in
      match check_balances force (filter in_ks (keys_table db)) with
      | Raise e => (Raise e, db)
      | Ok _ =>
          (* ks.delete() *)
          let db1 := set_keys (filter (fun k => negb (in_ks k)) (keys_table db)) db in
          (* res = w.delete() *)
          let db2 := set_wallets (filter (fun x => negb (wallet_matches wallet x))
                                         (wallets db1)) db1 in
          (Ok (count w), db2)
      end
  end.

(* ------------------------------------------------------------------ *)
(** *** _select_inputs *)

(** [DbTransaction.spend.op("IS")(False)] *)
Definition spend_IS_False (t : DbTransaction.row) : bool :=
  match DbTransaction.spend t with Some false => true | _ => false end.

(** [for utxo in lessers: if total_amount < amount: ...], returning
    [(selected_utxos, total_amount)]. *)
Fixpoint accumulate (amount : Z) (lessers : list DbTransaction.row)
         (selected_utxos : list DbTransaction.row) (total_amount : Z)
  : list DbTransaction.row * Z :=
  match lessers with
  | [] => (selected_utxos, total_amount)
  | utxo :: rest =>
      if total_amount <? amount
      then accumulate amount rest (selected_utxos ++ [utxo])
                      (total_amount + DbTransaction.value utxo)
      else accumulate amount rest selected_utxos total_amount
  end.

(** [utxo_query] is the list of rows the query object stands for, [None]
    for the default argument.  The empty list is the failure value. *)
Definition _select_inputs (amount : Z) (utxo_query : option (list DbTransaction.row))
  : list DbTransaction.row :=
  match utxo_query with
  | None => []
  | Some q =>
      let one_utxo :=
        first (order_by DbTransaction.value
                 (filter (fun t => spend_IS_False t && (DbTransaction.value t >=? amount)) q)) in
      match one_utxo with
      | Some u => [u]
      | None =>
          let lessers :=
            order_by_desc DbTransaction.value
              (filter (fun t => spend_IS_False t && (DbTransaction.value t <? amount)) q) in
          let '(selected_utxos, total_amount) := accumulate amount lessers [] 0 in
          if total_amount <? amount then [] else selected_utxos
      end
  end.

(* ================================================================== *)
(** ** State and exceptions *)

(** A computation on a state [S] that returns or raises; the state
    survives a raise (rows committed before the exception stay). *)
Definition SE (S A : Type) : Type := S -> result A * S.

Definition ret {S A} (a : A) : SE S A := fun s => (Ok a, s).
Definition raise {S A} (e : exn) : SE S A := fun s => (Raise e, s).
Definition bind {S A B} (m : SE S A) (k : A -> SE S B) : SE S B :=
  fun s => match m s with
           | (Ok a, s') => k a s'
           | (Raise e, s') => (Raise e, s')
           end.
Definition get {S} : SE S S := fun s => (Ok s, s).
Definition put {S} (s : S) : SE S unit := fun _ => (Ok tt, s).
Definition lift {S A} (r : result A) : SE S A := fun s => (r, s).

Declare Scope se_scope.
Delimit Scope se_scope with se.
Notation "x <- m ;; k" := (bind m (fun x => k))
  (at level 61, m at next level, right associativity) : se_scope.
Notation "m ;;; k" := (bind m (fun _ => k))
  (at level 61, right associativity) : se_scope.
Notation "' p <- m ;; k" := (bind m (fun x => match x with p => k end))
  (at level 61, p pattern, m at next level, right associativity) : se_scope.

(* ================================================================== *)
(** ** External collaborators *)

(** What wallets.py imports from keys.py, networks.py, services and
    transactions.py, and the builtin [int].  None of it is part of the
    module under study: every operation of the wallet is stated for an
    arbitrary implementation of this interface.  An operation that can
    fail returns [None] when it does. *)
Class Externals (HDKey : Type) : Type := {
  (* bitcoinlib.keys: the operations on its class HDKey *)
  hdkey_of_import : string -> option string -> option HDKey;
                                   (* HDKey(import_key=key, network=network) *)
  extended_wif : HDKey -> string;
  key_hex : HDKey -> string;
  depth : HDKey -> Z;
  child_index : HDKey -> Z;
  address : HDKey -> string;       (* k.key.address() *)
  key_type : HDKey -> string;
  public_byte : HDKey -> string;
  private_byte : HDKey -> string;
  derive_subkey : HDKey -> string -> option HDKey;       (* k.subkey_for_path(path) *)
  network_of_key : string -> option string -> option string;
                                   (* check_network_and_key(key, network) *)
  (* bitcoinlib.networks *)
  DEFAULT_NETWORK : string;
  bip44_cointype : string -> Z;    (* Network(name).bip44_cointype *)
  (* the builtin int(s) *)
  parse_int : string -> option Z;
  (* bitcoinlib.services: Service(network).getutxos(addresslist) *)
  service_utxos : string -> list string -> option (list (string * DbTransaction.row));
  (* bitcoinlib.transactions: Transaction.verify, on the outputs
     (amount, address), the inputs (tx_hash, output_n, public key) and the
     signing requests (private key, input id) *)
  verify : list (Z * string) -> list (string * Z * string) -> list (string * Z) -> bool
}.

(** An exception that leaves a collaborator. *)
Definition external {A} (r : option A) : result A :=
  match r with Some a => Ok a | None => Raise ExternalError end.

Section ExternalCalls.
Context {HDKey : Type} {ext : Externals HDKey}.

Definition HDKey_import (key : string) (network : option string) : result HDKey :=
  external (hdkey_of_import key network).

Definition subkey_for_path (k : HDKey) (path : string) : result HDKey :=
  external (derive_subkey k path).

Definition check_network_and_key (key : string) (network : option string) : result string :=
  external (network_of_key key network).

(** [int(s)] raises ValueError on what is no number. *)
Definition int (s : string) : result Z :=
  match parse_int s with Some n => Ok n | None => Raise ValueError end.

Definition getutxos (network : string) (addresslist : list string)
  : result (list (string * DbTransaction.row)) :=
  external (service_utxos network addresslist).

End ExternalCalls.

(** A row reported by the chain service is the pair of its [address] and
    of the fields [tx_hash], [confirmations], [output_n], [index], [value]
    and [script], carried in a [DbTransaction.row] whose [id], [key_id] and
    [spend] are not read. *)
Definition utxo : Type := (string * DbTransaction.row)%type.

(** The transaction object under construction. *)
Record Transaction : Type := {
  tx_network : string;
  tx_outputs : list (Z * string);
  tx_inputs : list (string * Z * string);
  tx_signed : list (string * Z)
}.

Section Wallets.
Context {HDKey : Type} {ext : Externals HDKey}.
Open Scope se_scope.

(* ------------------------------------------------------------------ *)
(** *** HDWalletKey *)

Record HDWalletKey : Type := {
  _dbkey : DbKey.row;               (* the row, and the attributes copied from it *)
  _hdkey_object : option HDKey;
  wk_network : string               (* self.network.network_name *)
}.

Definition key_id (k : HDWalletKey) : Z := DbKey.id (_dbkey k).

(** [HDWalletKey.__init__(key_id, session, hdkey_object)] *)
Definition HDWalletKey_init (key_id : Z) (hdkey_object : option HDKey) (db : Db)
  : result HDWalletKey :=
  match first (filter (fun r => DbKey.id r =? key_id) (keys_table db)) with
  | None => Raise (WalletError KeyIdNotFound)
  | Some wk =>
      (* wk.wallet.network_name *)
      match first (filter (fun w => DbWallet.id w =? DbKey.wallet_id wk) (wallets db)) with
      | None => Raise AttributeError
      | Some w => Ok {| _dbkey := wk; _hdkey_object := hdkey_object;
                        wk_network := DbWallet.network_name w |}
      end
  end.

(** [HDWalletKey.key()]: the object kept, or else the one built from the
    serialized key. *)
Definition hdkey (k : HDWalletKey) : result HDKey :=
  match _hdkey_object k with
  | Some o => Ok o
  | None => HDKey_import (DbKey.key_wif (_dbkey k)) (Some (wk_network k))
  end.

(** ["m/%d'/%s'/%d'" % (purpose, networkcode, account_id)] *)
Definition account_path (purpose networkcode : Z) (account_id : option Z) : result string :=
  match account_id with
  | None => Raise TypeError
  | Some a => Ok ("m/" ++ Py.str purpose ++ "'/" ++ Py.str networkcode ++ "'/"
                       ++ Py.str a ++ "'")
  end.

(** [HDWalletKey.from_key], on the session's database. *)
Definition from_key (name : string) (wallet_id : Z) (key : string)
           (hdkey_object : option HDKey) (account_id : option Z)
           (network : option string) (change purpose parent_id : Z) (path : string)
  : SE Db HDWalletKey :=
  let network :=
    match hdkey_object, network with
    | None, None => Some DEFAULT_NETWORK
    | _, _ => network
    end in
  k <- lift match hdkey_object with
            | None => HDKey_import key network
            | Some k => Ok k
            end ;;
  db <- get ;;
  match first (filter (fun r => String.eqb (DbKey.key_wif r) (extended_wif k))
                      (keys_table db)) with
  | Some keyexists => lift (HDWalletKey_init (DbKey.id keyexists) (Some k) db)
  | None =>
      path <- lift
        (if negb (depth k =? Z.of_nat (List.length (Py.split "/" path)) - 1)
         then if String.eqb path "m" && (depth k =? 3)
              then match network with
                   | None => Raise ExternalError               (* Network(None) *)
                   | Some nw => account_path purpose (bip44_cointype nw) account_id
                   end
              else Raise (WalletError DepthMismatch)
         else Ok path) ;;
      match first (filter (fun r => String.eqb (DbKey.key r) (key_hex k)
                                    || String.eqb (DbKey.key_wif r) (extended_wif k))
                          (keys_table db)) with
      | Some wk => lift (HDWalletKey_init (DbKey.id wk) (Some k) db)
      | None =>
          let nk := {| DbKey.id := next_id (map DbKey.id (keys_table db));
                       DbKey.parent_id := parent_id;
                       DbKey.name := name;
                       DbKey.account_id := account_id;
                       DbKey.depth := depth k;
                       DbKey.change := change;
                       DbKey.address_index := child_index k;
                       DbKey.key := key_hex k;
                       DbKey.key_wif := extended_wif k;
                       DbKey.address := address k;
                       DbKey.purpose := purpose;
                       DbKey.is_private := true;
                       DbKey.path := path;
                       DbKey.wallet_id := wallet_id;
                       DbKey.key_type := key_type k;
                       DbKey.balance := 0 |} in
          put (set_keys (keys_table db ++ [nk]) db) ;;;
          db' <- get ;;
          lift (HDWalletKey_init (DbKey.id nk) (Some k) db')
      end
  end.

(** [HDWalletKey.from_key_object]; that [hdkey_object] is an [HDKey] is
    in its type. *)
Definition from_key_object (hdkey_object : HDKey) (name : string) (wallet_id : Z)
           (account_id : option Z) (network : string) (change purpose parent_id : Z)
           (path : string) : SE Db HDWalletKey :=
  from_key name wallet_id "" (Some hdkey_object) account_id (Some network)
           change purpose parent_id path.

(* ------------------------------------------------------------------ *)
(** *** HDWallet *)

Record HDWallet : Type := {
  _session : Db;
  wallet_id : Z;
  _name : string;
  _owner : string;
  network : string;                 (* self.network.network_name *)
  purpose : Z;
  _balance : Z;
  main_key_id : option Z;
  main_key : HDWalletKey;
  default_account_id : Z;
  _key_objects : list (Z * HDWalletKey)
}.

Definition set_session (db : Db) (w : HDWallet) : HDWallet :=
  {| _session := db; wallet_id := wallet_id w; _name := _name w; _owner := _owner w;
     network := network w; purpose := purpose w; _balance := _balance w;
     main_key_id := main_key_id w; main_key := main_key w;
     default_account_id := default_account_id w; _key_objects := _key_objects w |}.

Definition set_key_objects (ko : list (Z * HDWalletKey)) (w : HDWallet) : HDWallet :=
  {| _session := _session w; wallet_id := wallet_id w; _name := _name w;
     _owner := _owner w; network := network w; purpose := purpose w;
     _balance := _balance w; main_key_id := main_key_id w; main_key := main_key w;
     default_account_id := default_account_id w; _key_objects := ko |}.

Definition set_wallet_balance (b : Z) (w : HDWallet) : HDWallet :=
  {| _session := _session w; wallet_id := wallet_id w; _name := _name w;
     _owner := _owner w; network := network w; purpose := purpose w;
     _balance := b; main_key_id := main_key_id w; main_key := main_key w;
     default_account_id := default_account_id w; _key_objects := _key_objects w |}.

(** A computation on the session's database, run on the wallet object. *)
Definition on_session {A} (m : SE Db A) : SE HDWallet A :=
  fun w => let '(r, db) := m (_session w) in (r, set_session db w).

(** [self._key_objects]: a dict, here the list of its items, the latest
    binding of a key first. *)
Fixpoint dict_get {V} (k : Z) (d : list (Z * V)) : option V :=
  match d with
  | [] => None
  | (k', v) :: d' => if k' =? k then Some v else dict_get k d'
  end.

(** [HDWallet.__init__(wallet, databasefile, main_key_object)] *)
Definition HDWallet_init (wallet : wallet_ref) (main_key_object : option HDKey) (db : Db)
  : result HDWallet :=
  match scalar (wallet_query wallet db) with
  | Raise e => Raise e
  | Ok None => Raise (WalletError WalletNotFound)
  | Ok (Some w) =>
      match match DbWallet.main_key_id w with
            | None => Raise (WalletError KeyIdNotFound)
            | Some k => HDWalletKey_init k main_key_object db
            end with
      | Raise e => Raise e
      | Ok mk =>
          Ok {| _session := db; wallet_id := DbWallet.id w; _name := DbWallet.name w;
                _owner := DbWallet.owner w; network := DbWallet.network_name w;
                purpose := DbWallet.purpose w; _balance := DbWallet.balance w;
                main_key_id := DbWallet.main_key_id w; main_key := mk;
                default_account_id := 0;
                _key_objects := match DbWallet.main_key_id w with
                                | Some k => [(k, mk)]
                                | None => []
                                end |}
      end
  end.

(** [HDWallet.keys(account_id, name, key_id, change, depth)], as rows. *)
Definition keys (self : HDWallet) (account_id : option Z) (name : option string)
           (key_id change depth : option Z) : list DbKey.row :=
  let qr := filter (fun k => (DbKey.wallet_id k =? wallet_id self)
                             && (DbKey.purpose k =? purpose self))
                   (keys_table (_session self)) in
  let qr := match account_id with
            | Some a => filter (fun k => DbKey.depth k >? 3)
                          (filter (fun k => col_eq (DbKey.account_id k) a) qr)
            | None => qr
            end in
  let qr := match change with
            | Some c => filter (fun k => DbKey.depth k >? 4)
                          (filter (fun k => DbKey.change k =? c) qr)
            | None => qr
            end in
  let qr := match depth with
            | Some d => filter (fun k => DbKey.depth k =? d) qr
            | None => qr
            end in
  let qr := match name with
            | Some n => filter (fun k => String.eqb (DbKey.name k) n) qr
            | None => qr
            end in
  let qr := match key_id with
            | Some i => filter (fun k => DbKey.id k =? i) qr
            | None => qr
            end in
  qr.

(** The search term of [HDWallet.key]: a number or a string. *)
Inductive term : Type :=
| TermNum (n : Z)
| TermStr (s : string).

(** A term as the engine compares it with a text column. *)
Definition term_text (t : term) : string :=
  match t with TermNum n => Py.str n | TermStr s => s end.

Definition or_else {A} (a : option A) (b : option A) : option A :=
  match a with Some _ => a | None => b end.

(** [HDWallet.key(term)] *)
Definition key (t : term) : SE HDWallet HDWalletKey :=
  self <- get ;;
  let ks := keys_table (_session self) in
  dbkey <- lift match t with
                | TermNum n => scalar (filter (fun r => DbKey.id r =? n) ks)
                | TermStr _ => Ok None
                end ;;
  let dbkey := or_else dbkey
                 (first (filter (fun r => String.eqb (DbKey.address r) (term_text t)) ks)) in
  let dbkey := or_else dbkey
                 (first (filter (fun r => String.eqb (DbKey.key_wif r) (term_text t)) ks)) in
  let dbkey := or_else dbkey
                 (first (filter (fun r => String.eqb (DbKey.name r) (term_text t)) ks)) in
  match dbkey with
  | Some d =>
      match dict_get (DbKey.id d) (_key_objects self) with
      | Some o => ret o
      | None => lift (HDWalletKey_init (DbKey.id d) None (_session self))
      end
  | None => raise KeyError
  end.

(** [filter_by(wallet_id=wallet_id, path=spath).first()] *)
Definition key_at_path (wid : Z) (spath : string) (db : Db) : option DbKey.row :=
  first (filter (fun r => (DbKey.wallet_id r =? wid) && String.eqb (DbKey.path r) spath)
                (keys_table db)).

(** The loop [while spath and not rkey: rkey = ...; spath =
    '/'.join(spath.split("/")[:-1])], on the reversed list of the segments
    of [spath]: dropping the head of that list is dropping the last
    segment, and joining what is left gives the next [spath]
    ([closest_ancestor_is_loop] below relates it to the loop on the
    string). *)
Fixpoint walk_up (wid : Z) (db : Db) (rsegs : list string) : option DbKey.row :=
  match rsegs with
  | [] => None
  | _ :: rest =>
      let spath := Py.join "/" (rev rsegs) in
      if String.eqb spath "" then None
      else match key_at_path wid spath db with
           | Some rkey => Some rkey
           | None => walk_up wid db rest
           end
  end.

Definition closest_ancestor (wid : Z) (spath : string) (db : Db) : option DbKey.row :=
  walk_up wid db (rev (Py.split "/" spath)).

(** The loop [for l in range(len(path))] of [_create_keys_from_path]:
    [done] is [path[:l]], [todo] is [path[l:]]. *)
Fixpoint create_keys_loop (wid : Z) (account_id : option Z) (network name basepath : string)
         (change purpose : Z) (done todo : list string)
         (parent_id : Z) (ck : HDKey) (nk : HDWalletKey) : SE HDWallet HDWalletKey :=
  match todo with
  | [] => ret nk
  | seg :: todo' =>
      let pp := Py.join "/" (done ++ [seg]) in
      let fullpath := basepath ++ pp in
      ck <- lift (subkey_for_path ck seg) ;;
      nk <- on_session (from_key_object ck name wid account_id network change purpose
                                        parent_id fullpath) ;;
      self <- get ;;
      put (set_key_objects ((key_id nk, nk) :: _key_objects self) self) ;;;
      create_keys_loop wid account_id network name basepath change purpose
                       (done ++ [seg]) todo' (key_id nk) ck nk
  end.

(** [HDWallet._create_keys_from_path]; that [path] is a list is in its
    type, and [session] is the wallet's own. *)
Definition _create_keys_from_path (parent : HDWalletKey) (path : list string) (wid : Z)
           (account_id : option Z) (network name basepath : string) (change purpose : Z)
  : SE HDWallet HDWalletKey :=
  let parent_id := 0 in
  let nk := parent in
  ck <- lift (hdkey nk) ;;
  let basepath :=
    match Py.last_char basepath with
    | Some c => if negb (Ascii.eqb c "/") then basepath ++ "/" else basepath
    | None => basepath
    end in
  (* Check for closest ancestor in wallet *)
  let spath := basepath ++ Py.join "/" path in
  self <- get ;;
  let rkey := closest_ancestor wid spath (_session self) in
  let reroot :=
    match rkey with
    | Some r => negb (String.eqb (DbKey.path r) basepath
                      || String.eqb (DbKey.path r) (Py.but_last basepath))
    | None => false
    end in
  '(path, basepath, nk, ck) <-
     match rkey with
     | Some r =>
         if reroot then
           nk <- key (TermNum (DbKey.id r)) ;;
           ck <- lift (hdkey nk) ;;
           ret (Py.split "/" (Py.replace (DbKey.path r ++ "/") ""
                                         (basepath ++ Py.join "/" path)),
                DbKey.path r ++ "/", nk, ck)
         else ret (path, basepath, nk, ck)
     | None => ret (path, basepath, nk, ck)
     end ;;
  (* Create new keys from path *)
  create_keys_loop wid account_id network name basepath change purpose
                   [] path parent_id ck nk.

(** ['Account #%d' % account_id] *)
Definition account_name (account_id : Z) : string := "Account #" ++ Py.str account_id.

(** [HDWallet.new_account(name, account_id)] *)
Definition new_account (name : string) (account_id : option Z) : SE HDWallet HDWalletKey :=
  self <- get ;;
  (* Determine account_id and name *)
  account_id <-
    match account_id with
    | None =>
        match first (order_by_desc_nullable DbKey.account_id
                       (filter (fun k => (DbKey.wallet_id k =? wallet_id self)
                                         && (DbKey.purpose k =? purpose self))
                               (keys_table (_session self)))) with
        | None => raise AttributeError                     (* None.account_id *)
        | Some last =>
            match DbKey.account_id last with
            | None => raise TypeError                      (* None + 1 *)
            | Some last_id => ret (last_id + 1)
            end
        end
    | Some a => ret a
    end ;;
  let name := if String.eqb name "" then account_name account_id else name in
  match keys self (Some account_id) None None None (Some 3) with
  | _ :: _ => raise (WalletError AccountExists)
  | [] =>
      (* Get root key of new account *)
      accrootkey <- lift (scalar (filter (fun k => (DbKey.wallet_id k =? wallet_id self)
                                                   && (DbKey.purpose k =? purpose self)
                                                   && (DbKey.depth k =? 2))
                                         (keys_table (_session self)))) ;;
      match accrootkey with
      | None => raise (WalletError MissingMasterKey)
      | Some accrootkey =>
          accrootkey_obj <- key (TermNum (DbKey.id accrootkey)) ;;
          (* Create new account addresses and return main account key *)
          let newpath := [Py.str account_id ++ "'"] in
          acckey <- _create_keys_from_path accrootkey_obj newpath (wallet_id self)
                      (Some account_id) (network self) name
                      (DbKey.path (_dbkey accrootkey_obj)) 0 (purpose self) ;;
          _create_keys_from_path acckey ["0"] (wallet_id self) (Some account_id)
            (network self) (DbKey.name (_dbkey acckey) ++ " Payments")
            (DbKey.path (_dbkey acckey)) 0 (purpose self) ;;;
          _create_keys_from_path acckey ["1"] (wallet_id self) (Some account_id)
            (network self) (DbKey.name (_dbkey acckey) ++ " Change")
            (DbKey.path (_dbkey acckey)) 0 (purpose self) ;;;
          ret acckey
      end
  end.

(** [HDWallet.new_key(name, account_id, change, max_depth)] *)
Definition new_key (name : string) (account_id : option Z) (change max_depth : Z)
  : SE HDWallet HDWalletKey :=
  self <- get ;;
  let account_id := match account_id with
                    | None => default_account_id self
                    | Some a => a
                    end in
  (* Get account key, create one if it doesn't exist *)
  acckey <- lift (scalar (filter (fun k => (DbKey.wallet_id k =? wallet_id self)
                                           && (DbKey.purpose k =? purpose self)
                                           && col_eq (DbKey.account_id k) account_id
                                           && (DbKey.depth k =? 3))
                                 (keys_table (_session self)))) ;;
  (* [new_account] returns a key or raises, so the [raise] of the second
     [if not acckey] is never reached *)
  acckey <- match acckey with
            | Some r => ret r
            | None => hk <- new_account "" (Some account_id) ;; ret (_dbkey hk)
            end ;;
  main_acc_key <- key (TermNum (DbKey.id acckey)) ;;
  (* Determine new key ID *)
  self <- get ;;
  let prevkey :=
    first (order_by_desc DbKey.address_index
             (filter (fun k => (DbKey.wallet_id k =? wallet_id self)
                               && (DbKey.purpose k =? purpose self)
                               && col_eq (DbKey.account_id k) account_id
                               && (DbKey.change k =? change)
                               && (DbKey.depth k =? max_depth))
                     (keys_table (_session self)))) in
  let address_index := match prevkey with
                       | Some p => DbKey.address_index p + 1
                       | None => 0
                       end in
  (* Compose key path and create new key *)
  let newpath := [Py.str change; Py.str address_index] in
  let bpath := DbKey.path (_dbkey main_acc_key) ++ "/" in
  let name := if String.eqb name "" then "Key " ++ Py.str address_index else name in
  _create_keys_from_path main_acc_key newpath (wallet_id self) (Some account_id)
    (network self) name bpath change (purpose self).

Definition new_key_change (name : string) (account_id : Z) : SE HDWallet HDWalletKey :=
  new_key name (Some account_id) 1 5.

(** [0 if not s else int(s.replace("'", ""))] *)
Definition path_field_int (s : string) : result Z :=
  if String.eqb s "" then Ok 0 else int (Py.replace "'" "" s).

(** [s[-1] != "'"], which raises IndexError on the empty string *)
Definition not_hardened (s : string) : result bool :=
  match Py.last_char s with
  | None => Raise IndexError
  | Some c => Ok (negb (Ascii.eqb c "'"))
  end.

(** The block [if not disable_check: ...] of [key_for_path]. *)
Definition validate_key_path (self : HDWallet) (path : string) : result unit :=
  match parse_bip44_path path with
  | Raise e => Raise e
  | Ok pathdict =>
      match path_field_int (pd_purpose pathdict) with
      | Raise e => Raise e
      | Ok p =>
          if negb (p =? purpose self) then Raise (WalletError PurposeMismatch)
          else
            match path_field_int (pd_cointype pathdict) with
            | Raise e => Raise e
            | Ok c =>
                if negb (c =? bip44_cointype (network self))
                then Raise (WalletError CointypeMismatch)
                else
                  (* a or b or c, evaluated from the left *)
                  match not_hardened (pd_cointype pathdict) with
                  | Raise e => Raise e
                  | Ok true => Raise (WalletError UnhardenedPath)
                  | Ok false =>
                      match not_hardened (pd_purpose pathdict) with
                      | Raise e => Raise e
                      | Ok true => Raise (WalletError UnhardenedPath)
                      | Ok false =>
                          match not_hardened (pd_account pathdict) with
                          | Raise e => Raise e
                          | Ok true => Raise (WalletError UnhardenedPath)
                          | Ok false => Ok tt
                          end
                      end
                  end
            end
      end
  end.

(** [HDWallet.key_for_path(path, name, account_id, change, disable_check)] *)
Definition key_for_path (path name : string) (account_id change : Z) (disable_check : bool)
  : SE HDWallet HDWalletKey :=
  self <- get ;;
  (* Validate key path *)
  (if negb disable_check then lift (validate_key_path self path) else ret tt) ;;;
  let name := if String.eqb name "" then _name self else name in
  (* Check for closest ancestor in wallet *)
  spath <- lift (normalize_path path) ;;
  match closest_ancestor (wallet_id self) spath (_session self) with
  | None => raise AttributeError                           (* rkey.path *)
  | Some rkey =>
      (* Key already found in db, return key *)
      if String.eqb (DbKey.path rkey) path then key (TermNum (DbKey.id rkey))
      else
        npath <- lift (normalize_path path) ;;
        let subpath := Py.replace (DbKey.path rkey ++ "/") "" npath in
        let basepath := DbKey.path rkey in
        parent_key <-
          (if negb (String.eqb (DbKey.key_wif (_dbkey (main_key self))) (DbKey.key_wif rkey))
           then key (TermNum (DbKey.id rkey))
           else ret (main_key self)) ;;
        _create_keys_from_path parent_key (Py.split "/" subpath) (wallet_id self)
          (Some account_id) (network self) name basepath change (purpose self)
  end.


(** [HDWallet.create(name, key, owner, network, account_id, purpose)], on
    the database of [databasefile]: the wallet object or the exception,
    and the database left. *)
Definition create (name key owner : string) (network : option string)
           (account_id purpose : Z) (db : Db) : result HDWallet * Db :=
  if negb (count (filter (fun w => String.eqb (DbWallet.name w) name) (wallets db)) =? 0)
  then (Raise (WalletError DuplicateWalletName), db)
  else
    match (if negb (String.eqb key "") then check_network_and_key key network
           else match network with
                | None => Ok DEFAULT_NETWORK
                | Some n => Ok n
                end) with
    | Raise e => (Raise e, db)
    | Ok network =>
        let new_wallet :=
          {| DbWallet.id := next_id (map DbWallet.id (wallets db));
             DbWallet.name := name; DbWallet.owner := owner;
             DbWallet.network_name := network; DbWallet.purpose := purpose;
             DbWallet.main_key_id := None; DbWallet.balance := 0 |} in
        let new_wallet_id := DbWallet.id new_wallet in
        let db := set_wallets (wallets db ++ [new_wallet]) db in
        match from_key name new_wallet_id key None (Some account_id) (Some network)
                       0 purpose 0 "m" db with
        | (Raise e, db) => (Raise e, db)
        | (Ok mk, db) =>
            if DbKey.depth (_dbkey mk) >? 4
            then (Raise (WalletError InvalidMasterKeyDepth), db)
            else
              let db := set_wallets
                          (map (fun w => if DbWallet.id w =? new_wallet_id
                                         then DbWallet.set_main_key_id (key_id mk) w
                                         else w) (wallets db)) db in
              match hdkey mk with
              | Raise e => (Raise e, db)
              | Ok mko =>
                  match HDWallet_init (WalletId new_wallet_id) (Some mko) db with
                  | Raise e => (Raise e, db)
                  | Ok w =>
                      if DbKey.depth (_dbkey mk) =? 0 then
                        let networkcode := bip44_cointype network in
                        let path := [Py.str purpose ++ "'"; Py.str networkcode ++ "'"] in
                        match (_create_keys_from_path mk path new_wallet_id
                                 (Some account_id) network name "m" 0 purpose ;;;
                               new_account "" (Some account_id)) w with
                        | (Raise e, w) => (Raise e, _session w)
                        | (Ok _, w) => (Ok w, _session w)
                        end
                      else (Ok w, db)
                  end
              end
        end
    end.

(** [HDWallet.addresslist(account_id, key_id)] *)
Definition addresslist (self : HDWallet) (account_id key_id : option Z) : list string :=
  map DbKey.address (keys self account_id None key_id None None).

(** [key_balances[k] += v], or [key_balances[k] = v] for a new key: a
    dict as the list of its items in insertion order. *)
Fixpoint dict_add (k v : Z) (d : list (Z * Z)) : list (Z * Z) :=
  match d with
  | [] => [(k, v)]
  | (k', v') :: d' => if k' =? k then (k', v' + v) :: d'
                      else (k', v') :: dict_add k v d'
  end.

(** The loop [for utxo in utxos] of [updateutxos]; the rows added to the
    session are seen by the queries that follow. *)
Fixpoint utxos_loop (utxos : list utxo) (key_balances : list (Z * Z)) (count_utxos : Z)
  : SE HDWallet (list (Z * Z) * Z) :=
  match utxos with
  | [] => ret (key_balances, count_utxos)
  | (utxo_address, u) :: rest =>
      self <- get ;;
      let db := _session self in
      key <- lift (scalar (filter (fun k => String.eqb (DbKey.address k) utxo_address)
                                  (keys_table db))) ;;
      match key with
      | None => raise AttributeError                       (* key.id *)
      | Some key =>
          let key_balances := dict_add (DbKey.id key) (DbTransaction.value u) key_balances in
          (* Skip if utxo was already imported *)
          if negb (count (filter (fun t => String.eqb (DbTransaction.tx_hash t)
                                                      (DbTransaction.tx_hash u))
                                 (transactions db)) =? 0)
          then utxos_loop rest key_balances count_utxos
          else
            let new_utxo :=
              {| DbTransaction.id := next_id (map DbTransaction.id (transactions db));
                 DbTransaction.key_id := DbKey.id key;
                 DbTransaction.tx_hash := DbTransaction.tx_hash u;
                 DbTransaction.confirmations := DbTransaction.confirmations u;
                 DbTransaction.output_n := DbTransaction.output_n u;
                 DbTransaction.index := DbTransaction.index u;
                 DbTransaction.value := DbTransaction.value u;
                 DbTransaction.script := DbTransaction.script u;
                 DbTransaction.spend := Some false |} in
            put (set_session (set_transactions (transactions db ++ [new_utxo]) db) self) ;;;
            utxos_loop rest key_balances (count_utxos + 1)
      end
  end.

(** The loop [for kb in key_balances] of [updateutxos]. *)
Fixpoint balances_loop (key_balances : list (Z * Z)) (total_balance : Z) : SE HDWallet Z :=
  match key_balances with
  | [] => ret total_balance
  | (kb, b) :: rest =>
      self <- get ;;
      let db := _session self in
      getkey <- lift (scalar (filter (fun k => DbKey.id k =? kb) (keys_table db))) ;;
      match getkey with
      | None => raise AttributeError
      | Some _ =>
          put (set_session
                 (set_keys (map (fun k => if DbKey.id k =? kb then DbKey.set_balance b k else k)
                                (keys_table db)) db) self) ;;;
          balances_loop rest (total_balance + b)
      end
  end.

(** [DbKey.account_id == account_id], which is [IS NULL] for [None] *)
Definition account_is (account_id : option Z) (k : DbKey.row) : bool :=
  match account_id with
  | Some a => col_eq (DbKey.account_id k) a
  | None => match DbKey.account_id k with None => true | Some _ => false end
  end.

(** [DbTransaction.spend is False]: the identity test of Python on the
    column object and the constant, evaluated before the query is built. *)
Definition spend_is_False : bool := false.

(** [HDWallet.updateutxos(account_id, key_id)] *)
Definition updateutxos (account_id key_id : option Z) : SE HDWallet unit :=
  self <- get ;;
  let db := _session self in
  (* Delete all utxo's for this account *)
  let qr := filter (fun t => spend_is_False
                             && existsb (fun k => (DbKey.id k =? DbTransaction.key_id t)
                                                  && account_is account_id k)
                                        (keys_table db))
                   (transactions db) in
  (* [qr.filter(DbTransaction.key_id == key_id)]: the query it returns is dropped *)
  let db := set_transactions
              (filter (fun t => negb (existsb (fun o => DbTransaction.id o =? DbTransaction.id t) qr))
                      (transactions db)) db in
  put (set_session db self) ;;;
  self <- get ;;
  utxos <- lift (getutxos (network self) (addresslist self account_id key_id)) ;;
  '(key_balances, count_utxos) <- utxos_loop utxos [] 0 ;;
  total_balance <- balances_loop key_balances 0 ;;
  self <- get ;;
  let db := _session self in
  put (set_wallet_balance total_balance
         (set_session
            (set_wallets (map (fun w => if DbWallet.id w =? wallet_id self
                                        then DbWallet.set_balance total_balance w
                                        else w) (wallets db)) db) self)).

(** [int(0.0003 * pow(10, 8))]: the product of the two floats is
    29999.999999999996. *)
Definition fallback_fee : Z := 29999.

(** The loop [for inp in input_arr] of [create_transaction]. *)
Fixpoint add_inputs (db : Db) (input_arr : list (string * Z * Z)) (t : Transaction)
  : result Transaction :=
  match input_arr with
  | [] => Ok t
  | (tx_hash, output_n, kid) :: rest =>
      match scalar (filter (fun k => DbKey.id k =? kid) (keys_table db)) with
      | Raise e => Raise e
      | Ok None => Raise AttributeError                    (* key.key_wif *)
      | Ok (Some key) =>
          match HDKey_import (DbKey.key_wif key) None with
          | Raise e => Raise e
          | Ok k =>
              let id := Z.of_nat (List.length (tx_inputs t)) in
              add_inputs db rest
                {| tx_network := tx_network t; tx_outputs := tx_outputs t;
                   tx_inputs := tx_inputs t ++ [(tx_hash, output_n, public_byte k)];
                   tx_signed := tx_signed t ++ [(private_byte k, id)] |}
          end
      end
  end.

(** [HDWallet.create_transaction(output_arr, input_arr, account_id, fee,
    min_confirms)]: [Ok None] is the [return None]. *)
Definition create_transaction (output_arr : list (string * Z))
           (input_arr : option (list (string * Z * Z))) (account_id fee : option Z)
           (min_confirms : Z) : SE HDWallet (option Transaction) :=
  self <- get ;;
  let amount_total_output := fold_left (fun a o => a + snd o) output_arr 0 in
  let t := {| tx_network := network self;
              tx_outputs := map (fun o => (snd o, fst o)) output_arr;
              tx_inputs := []; tx_signed := [] |} in
  let account_id := match account_id with
                    | None => default_account_id self
                    | Some a => a
                    end in
  let db := _session self in
  let qr := transactions db in
  (* [qr.join(DbTransaction.key).filter(...)] and
     [qr.filter(DbTransaction.confirmations >= min_confirms)]: the queries
     they return are dropped, [qr] is the whole table *)
  let _ := filter (fun u => spend_IS_False u
                            && existsb (fun k => (DbKey.id k =? DbTransaction.key_id u)
                                                 && col_eq (DbKey.account_id k) account_id)
                                       (keys_table db)) qr in
  let _ := filter (fun u => DbTransaction.confirmations u >=? min_confirms) qr in
  let utxos := qr in
  match utxos with
  | [] => ret None
  | _ :: _ =>
      let fee := match fee with None => fallback_fee | Some f => f end in
      match input_arr with
      | Some _ => raise (WalletError UnsupportedOperation)
      | None =>
          let selected_utxos := _select_inputs (amount_total_output + fee) (Some qr) in
          match selected_utxos with
          | [] => raise (WalletError InsufficientFunds)
          | _ :: _ =>
              let amount_total_input :=
                fold_left (fun a u => a + DbTransaction.value u) selected_utxos 0 in
              let input_arr :=
                map (fun u => (DbTransaction.tx_hash u, DbTransaction.output_n u,
                               DbTransaction.key_id u)) selected_utxos in
              let amount_change := amount_total_input - (amount_total_output + fee) in
              (* Add inputs *)
              t <- lift (add_inputs db input_arr t) ;;
              (* Add change output *)
              t <- (if negb (amount_change =? 0) then
                      ck <- new_key_change "Change" account_id ;;
                      ret {| tx_network := tx_network t;
                             tx_outputs := tx_outputs t
                                             ++ [(amount_change, DbKey.address (_dbkey ck))];
                             tx_inputs := tx_inputs t; tx_signed := tx_signed t |}
                    else ret t) ;;
              (* Sign inputs, verify transaction *)
              if negb (verify (tx_outputs t) (tx_inputs t) (tx_signed t))
              then raise (WalletError TransactionVerificationFailed)
              else ret (Some t)
          end
      end
  end.

End Wallets.

Arguments HDWalletKey : clear implicits.
Arguments HDWallet : clear implicits.

(* ------------------------------------------------------------------ *)
(** *** list_wallets, wallet_exists *)

(** One dictionary of the list that [list_wallets] returns. *)
Record wallet_item : Type := {
  wi_id : Z;
  wi_name : string;
  wi_owner : string;
  wi_network : string;
  wi_purpose : Z;
  wi_balance : Z
}.

Definition list_wallets (db : Db) : list wallet_item :=
  map (fun w => {| wi_id := DbWallet.id w; wi_name := DbWallet.name w;
                   wi_owner := DbWallet.owner w; wi_network := DbWallet.network_name w;
                   wi_purpose := DbWallet.purpose w; wi_balance := DbWallet.balance w |})
      (wallets db).

(** [wallet in [...]]: an int is equal to no name, a str to no id. *)
Definition wallet_exists (wallet : wallet_ref) (db : Db) : bool :=
  if match wallet with
     | WalletName s => existsb (fun x => String.eqb s (wi_name x)) (list_wallets db)
     | WalletId _ => false
     end
  then true
  else
    if match wallet with
       | WalletId n => existsb (fun x => n =? wi_id x) (list_wallets db)   (* isinstance(wallet, int) and ... *)
       | WalletName _ => false
       end
    then true
    else false.

(** [l[:n]] on a list: a negative [n] counts from the end. *)
Definition list_up_to {A} (n : Z) (l : list A) : list A :=
  if n <? 0 then firstn (Z.to_nat (Z.of_nat (List.length l) + n)) l
  else firstn (Z.to_nat n) l.

(** [str(x)] for a nullable integer column *)
Definition str_nullable (x : option Z) : string :=
  match x with Some n => Py.str n | None => "None" end.


Section WalletMethods.
Context {HDKey : Type} {ext : Externals HDKey}.
Open Scope se_scope.


(** [HDWalletKey.parent(session)] *)
Definition parent (self : HDWalletKey HDKey) (session : Db) : result (HDWalletKey HDKey) :=
  match hdkey self with
  | Raise e => Raise e
  | Ok k => HDWalletKey_init (DbKey.parent_id (_dbkey self)) (Some k) session
  end.

(** [HDWallet.import_key(key, account_id)] *)
Definition import_key (key : string) (account_id : option Z)
  : SE (HDWallet HDKey) (HDWalletKey HDKey) :=
  self <- get ;;
  on_session (from_key (_name self) (wallet_id self) key None account_id
                       (Some (network self)) 0 (purpose self) 0 "m").

(** [HDWallet.import_hdkey_object(hdkey_object, account_id)] *)
Definition import_hdkey_object (hdkey_object : HDKey) (account_id : option Z)
  : SE (HDWallet HDKey) (HDWalletKey HDKey) :=
  self <- get ;;
  on_session (from_key_object hdkey_object (_name self) (wallet_id self) account_id
                              (network self) 0 (purpose self) 0 "m").

(** [HDWallet.accounts], [keys_addresses], [keys_address_payment] and
    [keys_address_change], as rows. *)
Definition accounts (self : HDWallet HDKey) (account_id : Z) : list DbKey.row :=
  keys self (Some account_id) None None None (Some 3).
Definition keys_addresses (self : HDWallet HDKey) (account_id : Z) : list DbKey.row :=
  keys self (Some account_id) None None None (Some 5).
Definition keys_address_payment (self : HDWallet HDKey) (account_id : Z) : list DbKey.row :=
  keys self (Some account_id) None None (Some 0) (Some 5).
Definition keys_address_change (self : HDWallet HDKey) (account_id : Z) : list DbKey.row :=
  keys self (Some account_id) None None (Some 1) (Some 5).

(** [HDWallet.send(to_address, amount, account_id, fee)].  [service] is
    what [Service(network='testnet')] gives, an exception or the service
    object, here its method [sendrawtransaction] on the transaction (the
    serialization [to_hexstring(t.raw())] is part of it): the method
    raises or returns the transaction id, and the empty string stands for
    every value that [if not txid] takes for false. *)
Definition send (service : result (Transaction -> result string))
           (to_address : string) (amount : Z) (account_id fee : option Z)
  : SE (HDWallet HDKey) string :=
  let outputs := [(to_address, amount)] in
  t <- create_transaction outputs None account_id fee 4 ;;
  srv <- lift service ;;
  match t with
  | None => raise AttributeError                           (* t.raw() *)
  | Some t =>
      txid <- lift (srv t) ;;
      if String.eqb txid "" then raise (WalletError BroadcastFailed)
      else ret txid
  end.

(** [HDWalletKey.fullpath(change, address_index, max_depth)] *)
Definition fullpath (self : HDWalletKey HDKey) (change address_index : option Z)
           (max_depth : Z) : list string :=
  let change := match change with
                | None => DbKey.change (_dbkey self)
                | Some c => c
                end in
  let address_index := match address_index with
                       | None => DbKey.address_index (_dbkey self)
                       | Some i => i
                       end in
  let p := if negb (String.eqb (DbKey.key (_dbkey self)) "") then ["m"] else ["M"] in
  let p := (p ++ [(Py.str (DbKey.purpose (_dbkey self)) ++ "'")%string])%list in
  let p := (p ++ [(Py.str (bip44_cointype (wk_network self)) ++ "'")%string])%list in
  let p := (p ++ [(str_nullable (DbKey.account_id (_dbkey self)) ++ "'")%string])%list in
  let p := (p ++ [Py.str change])%list in
  let p := (p ++ [Py.str address_index])%list in
  list_up_to max_depth p.


End WalletMethods.


(* ================================================================== *)
(** ** A small implementation of the external interface *)

Module Toy.

(** A key is the seed of its master key and the chain of path segments
    that leads from the master key to it. *)
Record toykey : Type := { seed : string; chain : list string }.

Definition serial (k : toykey) : string := Py.join "/" (seed k :: chain k).

(** The decimal value of a string of digits, nothing else is a number. *)
Definition int (s : string) : option Z :=
  if Py.isdigit s then Some (Py.digits_value 0 s) else None.

Definition hardened (level : string) : bool :=
  match Py.last_char level with
  | Some c => Py.char_in c hardening_markers
  | None => false
  end.

(** One derivation step.  A leading [m] or [M] stands for the key itself,
    as in the path format [m / purpose' / coin_type' / ...]; a level is an
    index with an optional hardening marker. *)
Definition subkey_for_path (k : toykey) (path : string) : option toykey :=
  if String.eqb path "m" || String.eqb path "M" then Some k
  else
    let digits := if hardened path then Py.but_last path else path in
    match int digits with
    | None => None
    | Some _ => Some {| seed := seed k;
                        chain := chain k ++ [if hardened path then digits ++ "'" else digits] |}
    end.

Definition child_index (k : toykey) : Z :=
  match rev (chain k) with
  | [] => 0
  | level :: _ =>
      let digits := if hardened level then Py.but_last level else level in
      Py.digits_value 0 digits + (if hardened level then 2147483648 else 0)
  end.

Definition import (key : string) (network : option string) : option toykey :=
  match Py.split "/" key with
  | [] => None
  | s :: c => Some {| seed := s; chain := c |}
  end.

Definition cointype (network : string) : Z :=
  if String.eqb network "bitcoin" then 0
  else if String.eqb network "testnet" then 1
  else if String.eqb network "litecoin" then 2
  else 1.

End Toy.

(** Modelled from the spec: the KeyDerivation, ChainService and TxCodec
    capabilities of its section 6 and the network table, whose modules
    (bitcoinlib.keys, services, transactions, networks) are not among the
    sources.  Keys are serialized injectively, a child differs from its
    parent, the coin type of "bitcoin" is 0 and of "testnet" is 1; the
    chain service answers [reply] to every request and every assembled
    transaction verifies. *)
Definition toy (reply : list utxo) : Externals Toy.toykey :=
  {| hdkey_of_import := Toy.import;
     extended_wif := Toy.serial;
     key_hex := fun k => "hex:" ++ Toy.serial k;
     depth := fun k => Z.of_nat (List.length (Toy.chain k));
     child_index := Toy.child_index;
     address := fun k => "addr:" ++ Toy.serial k;
     key_type := fun _ => "bip32";
     public_byte := fun k => "pub:" ++ Toy.serial k;
     private_byte := fun k => "prv:" ++ Toy.serial k;
     derive_subkey := Toy.subkey_for_path;
     network_of_key :=
       fun _ network => Some match network with Some n => n | None => "bitcoin" end;
     DEFAULT_NETWORK := "bitcoin";
     bip44_cointype := Toy.cointype;
     parse_int := Toy.int;
     service_utxos := fun _ _ => Some reply;
     verify := fun _ _ _ => true |}.

(* ================================================================== *)
(** ** Vocabulary of the statements *)

(** A string without the path separator. *)
Definition sep_free (s : string) : Prop := Py.char_in "/" s = false.

(** What [normalize_path] does to one level. *)
Definition normalize_level (level : string) : string :=
  match Py.last_char level with
  | Some c => if Py.char_in c hardening_markers then Py.but_last level ++ "'" else level
  | None => level
  end.

(** [x1/x2/.../xn/] *)
Fixpoint slashed (l : list string) : string :=
  match l with
  | [] => ""
  | x :: l' => x ++ "/" ++ slashed l'
  end.

(** The sum of the values of a list of unspent records. *)
Definition total_value (l : list DbTransaction.row) : Z :=
  fold_right Z.add 0 (map DbTransaction.value l).

(** Largest value first. *)
Definition descending (l : list DbTransaction.row) : Prop :=
  StronglySorted (fun a b => DbTransaction.value a >= DbTransaction.value b) l.

(* ------------------------------------------------------------------ *)
(** ** Concrete wallets *)

Module Examples.

(** The external interface, with a chain service that reports [reply]. *)
Definition E (reply : list utxo) : Externals Toy.toykey := toy reply.

Definition blank_key : DbKey.row :=
  {| DbKey.id := 0; DbKey.parent_id := 0; DbKey.name := ""; DbKey.account_id := None;
     DbKey.depth := 0; DbKey.change := 0; DbKey.address_index := 0; DbKey.key := "";
     DbKey.key_wif := ""; DbKey.address := ""; DbKey.purpose := 0;
     DbKey.is_private := false; DbKey.path := ""; DbKey.wallet_id := 0;
     DbKey.key_type := ""; DbKey.balance := 0 |}.

Definition blank_wallet : HDWallet Toy.toykey :=
  {| _session := empty_db; wallet_id := 0; _name := ""; _owner := ""; network := "";
     purpose := 0; _balance := 0; main_key_id := None;
     main_key := {| _dbkey := blank_key; _hdkey_object := None; wk_network := "" |};
     default_account_id := 0; _key_objects := [] |}.

(** [HDWallet.create('W', key='seed')] on an empty database: the wallet
    of the master key [seed], network bitcoin, purpose 44, account 0. *)
Definition created : result (HDWallet Toy.toykey) * Db :=
  create (ext := E []) "W" "seed" "" None 0 44 empty_db.

(** The wallet object that [created] returns, evaluated. *)
Definition wallet : HDWallet Toy.toykey :=
  Eval vm_compute in
    match fst created with
    | Ok w => w
    | Raise _ => blank_wallet
    end.

(** The wallet object after a call, whatever the call returned. *)
Definition after {A} (m : SE (HDWallet Toy.toykey) A) (w : HDWallet Toy.toykey)
  : HDWallet Toy.toykey := snd (m w).

(** The columns [id], [parent_id], [path], [account_id] and [depth] of
    the keys table of a wallet. *)
Definition key_rows (w : HDWallet Toy.toykey)
  : list (Z * Z * string * option Z * Z) :=
  map (fun k => (DbKey.id k, DbKey.parent_id k, DbKey.path k,
                 DbKey.account_id k, DbKey.depth k))
      (keys_table (_session w)).

(** An unspent record of key [kid], with 6 confirmations. *)
Definition unspent_record (id kid : Z) (tx_hash : string) (output_n value : Z)
  : DbTransaction.row :=
  {| DbTransaction.id := id; DbTransaction.key_id := kid;
     DbTransaction.tx_hash := tx_hash; DbTransaction.confirmations := 6;
     DbTransaction.output_n := output_n; DbTransaction.index := 0;
     DbTransaction.value := value; DbTransaction.script := "";
     DbTransaction.spend := Some false |}.

(** A wallet object on the same database with the ledger [ts]. *)
Definition with_ledger (ts : list DbTransaction.row) (w : HDWallet Toy.toykey)
  : HDWallet Toy.toykey :=
  set_session (set_transactions ts (_session w)) w.

Definition u3 : DbTransaction.row := unspent_record 1 5 "aa" 0 3.
Definition u5 : DbTransaction.row := unspent_record 2 5 "bb" 0 5.
Definition u12 : DbTransaction.row := unspent_record 3 5 "cc" 0 12.
Definition u4 : DbTransaction.row := unspent_record 3 5 "dd" 0 4.

End Examples.

(** The scope that [create_transaction] describes with its two filters:
    the unspent records of the keys of the account that have at least
    [min_confirms] confirmations. *)
Definition utxo_scope (db : Db) (account_id min_confirms : Z) : list DbTransaction.row :=
  filter (fun u => spend_IS_False u
                   && existsb (fun k => (DbKey.id k =? DbTransaction.key_id u)
                                        && col_eq (DbKey.account_id k) account_id)
                              (keys_table db)
                   && (DbTransaction.confirmations u >=? min_confirms))
         (transactions db).

Module Funded.
Import Examples.

(** What the chain service reports: two outputs of one transaction, paid
    to the first payment address of the wallet. *)
Definition reply : list utxo :=
  [ ("addr:seed/44'/0'/0'/0/0", unspent_record 0 0 "aa" 0 150000);
    ("addr:seed/44'/0'/0'/0/0", unspent_record 0 0 "aa" 1 7) ].

(** [w = HDWallet.create('W', key='seed'); w.new_key()], evaluated *)
Definition before_sync : HDWallet Toy.toykey :=
  Eval vm_compute in after (new_key (ext := E reply) "" None 0 5) wallet.

(** [w.updateutxos()], evaluated *)
Definition funded : HDWallet Toy.toykey :=
  Eval vm_compute in after (updateutxos (ext := E reply) None None) before_sync.

End Funded.

(** The id of the key that owns an address, as the loop of [updateutxos]
    finds it: the one key row with that address. *)
Definition owner_id (ks : list DbKey.row) (addr : string) : option Z :=
  match scalar (filter (fun k => String.eqb (DbKey.address k) addr) ks) with
  | Ok (Some k) => Some (DbKey.id k)
  | _ => None
  end.

(** The sum of the values of all the reported outputs whose address the
    key [i] owns. *)
Fixpoint reported_for (ks : list DbKey.row) (i : Z) (utxos : list utxo) : Z :=
  match utxos with
  | [] => 0
  | (addr, u) :: rest =>
      (match owner_id ks addr with
       | Some j => if j =? i then DbTransaction.value u else 0
       | None => 0
       end) + reported_for ks i rest
  end.

(** The sum of the values of all the reported outputs. *)
Definition reported_total (utxos : list utxo) : Z :=
  fold_right Z.add 0 (map (fun au => DbTransaction.value (snd au)) utxos).

(** [key_balances] after the outputs [utxos], from [d]. *)
Fixpoint credit (ks : list DbKey.row) (d : list (Z * Z)) (utxos : list utxo) : list (Z * Z) :=
  match utxos with
  | [] => d
  | (addr, u) :: rest =>
      credit ks (match owner_id ks addr with
                 | Some i => dict_add i (DbTransaction.value u) d
                 | None => d
                 end) rest
  end.

(** The keys table after the balances [d] are written. *)
Fixpoint write_balances (d : list (Z * Z)) (ks : list DbKey.row) : list DbKey.row :=
  match d with
  | [] => ks
  | (i, b) :: d' =>
      write_balances d' (map (fun k => if DbKey.id k =? i then DbKey.set_balance b k else k) ks)
  end.

(** The record that the loop of [updateutxos] adds for a reported output. *)
Definition new_record (db : Db) (kid : Z) (u : DbTransaction.row) : DbTransaction.row :=
  {| DbTransaction.id := next_id (map DbTransaction.id (transactions db));
     DbTransaction.key_id := kid;
     DbTransaction.tx_hash := DbTransaction.tx_hash u;
     DbTransaction.confirmations := DbTransaction.confirmations u;
     DbTransaction.output_n := DbTransaction.output_n u;
     DbTransaction.index := DbTransaction.index u;
     DbTransaction.value := DbTransaction.value u;
     DbTransaction.script := DbTransaction.script u;
     DbTransaction.spend := Some false |}.

(** The sum of the balances of a [key_balances] dict. *)
Definition dict_total (d : list (Z * Z)) : Z := fold_right Z.add 0 (map snd d).

Module Orphan.
Import Examples.

(** [HDWallet.create('W2', key='seed')] on the database of [wallet],
    where the key [seed] is registered already. *)
Definition created2 : result (HDWallet Toy.toykey) * Db :=
  create (ext := E []) "W2" "seed" "" None 0 44 (_session wallet).

(** [HDWallet('W2')] on the database that [created2] leaves, evaluated. *)
Definition orphan : HDWallet Toy.toykey :=
  Eval vm_compute in
    match HDWallet_init (HDKey := Toy.toykey) (WalletName "W2") None (snd created2) with
    | Ok w => w
    | Raise _ => blank_wallet
    end.

End Orphan.

Module Derived.
Import Examples.

(** The id of the key that a call returns. *)
Definition returned_id (r : result (HDWalletKey Toy.toykey) * HDWallet Toy.toykey)
  : result Z :=
  match fst r with
  | Ok k => Ok (key_id k)
  | Raise e => Raise e
  end.

(** [w.key_for_path("m/44h/0h/0h/0/0")] on the wallet [wallet], evaluated *)
Definition with_leaf : HDWallet Toy.toykey :=
  Eval vm_compute in after (key_for_path (ext := E []) "m/44h/0h/0h/0/0" "" 0 0 false) wallet.

(** The coin-type node [m/44'/0'] of [wallet], as [w.key(3)] returns it. *)
Definition coin_key : HDWalletKey Toy.toykey :=
  Eval vm_compute in
    match fst (key (TermNum 3) wallet) with
    | Ok k => k
    | Raise _ => main_key wallet
    end.

(** [w._create_keys_from_path(coin_key, ["1'"], ..., basepath="m/44'/0'")]:
    the derive-and-register chain for the path [m/44'/0'/1']. *)
Definition chain : SE (HDWallet Toy.toykey) (HDWalletKey Toy.toykey) :=
  _create_keys_from_path (ext := E []) coin_key ["1'"] 1 (Some 1) "bitcoin" "Account #1"
                         "m/44'/0'" 0 44.

Definition with_account : HDWallet Toy.toykey :=
  Eval vm_compute in after chain wallet.

End Derived.

(** The path under which [from_key] registers the key [k] that comes
    with [path]: [path] when it has as many levels as the key is deep, the
    path of the account when an account key comes with the path [m]. *)
Definition registered_path {HDKey} {ext : Externals HDKey} (k : HDKey)
           (account_id : option Z) (network : option string) (purpose : Z) (path : string)
  : result string :=
  if negb (depth k =? Z.of_nat (List.length (Py.split "/" path)) - 1)
  then if String.eqb path "m" && (depth k =? 3)
       then match network with
            | None => Raise ExternalError
            | Some nw => account_path purpose (bip44_cointype nw) account_id
            end
       else Raise (WalletError DepthMismatch)
  else Ok path.

(** The row that [from_key] adds for the key [k]. *)
Definition key_row {HDKey} {ext : Externals HDKey} (k : HDKey) (name : string)
           (wallet_id : Z) (account_id : option Z) (change purpose parent_id : Z)
           (path : string) (db : Db) : DbKey.row :=
  {| DbKey.id := next_id (map DbKey.id (keys_table db));
     DbKey.parent_id := parent_id;
     DbKey.name := name;
     DbKey.account_id := account_id;
     DbKey.depth := depth k;
     DbKey.change := change;
     DbKey.address_index := child_index k;
     DbKey.key := key_hex k;
     DbKey.key_wif := extended_wif k;
     DbKey.address := address k;
     DbKey.purpose := purpose;
     DbKey.is_private := true;
     DbKey.path := path;
     DbKey.wallet_id := wallet_id;
     DbKey.key_type := key_type k;
     DbKey.balance := 0 |}.

(** [basepath] as [_create_keys_from_path] uses it, closed by a slash. *)
Definition with_slash (basepath : string) : string :=
  match Py.last_char basepath with
  | Some c => if negb (Ascii.eqb c "/") then basepath ++ "/" else basepath
  | None => basepath
  end.

(** A computation that does not end in the AccountExists error, from
    whatever state it starts. *)
Definition no_AccountExists {S A} (m : SE S A) : Prop :=
  forall s, fst (m s) <> Raise (WalletError AccountExists).


(** The loop [while spath and not rkey] as it is written, on the string
    [spath], with a bound on the number of its rounds. *)
Fixpoint ancestor_loop (rounds : nat) (wid : Z) (db : Db) (spath : string)
  : option DbKey.row :=
  match rounds with
  | O => None
  | S n =>
      if String.eqb spath "" then None
      else match key_at_path wid spath db with
           | Some rkey => Some rkey
           | None => ancestor_loop n wid db
                       (Py.join "/" (Py.list_but_last (Py.split "/" spath)))
           end
  end.

(* ------------------------------------------------------------------ *)
(** ** Vocabulary of the invariants *)

(** The calls of a wallet that register keys. *)
Inductive key_call (HDKey : Type) : Type :=
| CallNewAccount (name : string) (account_id : option Z)
| CallNewKey (name : string) (account_id : option Z) (change max_depth : Z)
| CallNewKeyChange (name : string) (account_id : Z)
| CallKeyForPath (path name : string) (account_id change : Z) (disable_check : bool)
| CallImportKey (key : string) (account_id : option Z)
| CallImportObject (hdkey_object : HDKey) (account_id : option Z)
| CallCreateKeys (parent : HDWalletKey HDKey) (path : list string) (wid : Z)
                 (account_id : option Z) (network name basepath : string)
                 (change purpose : Z).
Arguments CallNewAccount {HDKey}.
Arguments CallNewKey {HDKey}.
Arguments CallNewKeyChange {HDKey}.
Arguments CallKeyForPath {HDKey}.
Arguments CallImportKey {HDKey}.
Arguments CallImportObject {HDKey}.
Arguments CallCreateKeys {HDKey}.

Definition run_call {HDKey} {ext : Externals HDKey} (c : key_call HDKey)
  : SE (HDWallet HDKey) (HDWalletKey HDKey) :=
  match c with
  | CallNewAccount name account_id => new_account name account_id
  | CallNewKey name account_id change max_depth => new_key name account_id change max_depth
  | CallNewKeyChange name account_id => new_key_change name account_id
  | CallKeyForPath path name account_id change disable_check =>
      key_for_path path name account_id change disable_check
  | CallImportKey key account_id => import_key key account_id
  | CallImportObject hdkey_object account_id => import_hdkey_object hdkey_object account_id
  | CallCreateKeys parent path wid account_id network name basepath change purpose =>
      _create_keys_from_path parent path wid account_id network name basepath change purpose
  end.

(** A property of the wallet object that a computation keeps, whether it
    returns or raises. *)
Definition keeps {HDKey A} (P : HDWallet HDKey -> Prop) (m : SE (HDWallet HDKey) A) : Prop :=
  forall self, P self -> P (snd (m self)).

(** The database [db'] is [db] with key rows added at the end. *)
Definition grows (db db' : Db) : Prop :=
  wallets db' = wallets db /\ transactions db' = transactions db /\
  exists new, keys_table db' = (keys_table db ++ new)%list.

(** The attributes of the wallet object other than the session and the
    cache of key objects. *)
Definition same_wallet {HDKey} (w w' : HDWallet HDKey) : Prop :=
  wallet_id w' = wallet_id w /\ _name w' = _name w /\ _owner w' = _owner w /\
  network w' = network w /\ purpose w' = purpose w /\ _balance w' = _balance w /\
  main_key_id w' = main_key_id w /\ main_key w' = main_key w /\
  default_account_id w' = default_account_id w.


(** Every entry of the cache of key objects is filed under the id of its
    key. *)
Definition cache_ok {HDKey} (w : HDWallet HDKey) : Prop :=
  forall i o, In (i, o) (_key_objects w) -> key_id o = i.

(** The wallet row that [create] adds, before its main key is known. *)
Definition new_wallet_row (name owner network : string) (purpose : Z) (db : Db) : DbWallet.row :=
  {| DbWallet.id := next_id (map DbWallet.id (wallets db));
     DbWallet.name := name; DbWallet.owner := owner;
     DbWallet.network_name := network; DbWallet.purpose := purpose;
     DbWallet.main_key_id := None; DbWallet.balance := 0 |}.

(** A key row that [HDWallet.key] takes for the term: by its id when the
    term is a number, by its address, its serialized key or its name. *)
Definition term_matches (t : term) (r : DbKey.row) : bool :=
  match t with TermNum n => DbKey.id r =? n | TermStr _ => false end
  || String.eqb (DbKey.address r) (term_text t)
  || String.eqb (DbKey.key_wif r) (term_text t)
  || String.eqb (DbKey.name r) (term_text t).

(** The sum of the amounts of the outputs of a transaction. *)
Definition outputs_total (t : Transaction) : Z :=
  fold_right Z.add 0 (map fst (tx_outputs t)).

(** The total that [create_transaction] asks [_select_inputs] for: the
    amounts of [output_arr] and the fee, the fallback fee when none is
    given. *)
Definition amount_with_fee (output_arr : list (string * Z)) (fee : option Z) : Z :=
  fold_right Z.add 0 (map snd output_arr)
  + match fee with None => fallback_fee | Some f => f end.

Module MoreExamples.
Import Examples Funded.

(** The database after [HDWallet.create('7', key='seed')] on an empty
    database: one wallet, of id 1 and name '7'. *)
Definition digits_db : Db :=
  Eval vm_compute in snd (create (ext := E []) "7" "seed" "" None 0 44 empty_db).


(** [w.create_transaction([('to', 100000)], account_id=0, fee=30000)] on
    the wallet [funded], evaluated: the transaction and the wallet object
    left. *)
Definition payment : Transaction :=
  Eval vm_compute in
    match fst (create_transaction (ext := E reply) [("to", 100000)] None (Some 0)
                                  (Some 30000) 4 funded) with
    | Ok (Some t) => t
    | _ => {| tx_network := ""; tx_outputs := []; tx_inputs := []; tx_signed := [] |}
    end.
Definition after_payment : HDWallet Toy.toykey :=
  Eval vm_compute in
    after (create_transaction (ext := E reply) [("to", 100000)] None (Some 0)
                              (Some 30000) 4) funded.

(** The child [other/1] of a master key that is not in the wallet. *)
Definition stray_key : Toy.toykey := {| Toy.seed := "other"; Toy.chain := ["1"] |}.

End MoreExamples.

(* ================================================================== *)
(** * Properties *)

(** ** Strings *)

Section StringFacts.

Lemma append_assoc (s1 s2 s3 : string) : (s1 ++ s2) ++ s3 = s1 ++ s2 ++ s3.
Proof. induction s1 as [|a s1 IH]; simpl; [reflexivity | now rewrite IH]. Qed.

Lemma append_empty_r (s : string) : s ++ "" = s.
Proof. induction s as [|a s IH]; simpl; [reflexivity | now rewrite IH]. Qed.

Lemma last_char_snoc (s : string) (c : ascii) :
  Py.last_char (s ++ String c "") = Some c.
Proof.
  induction s as [|a s IH]; simpl; [reflexivity|].
  rewrite IH. destruct s; reflexivity.
Qed.

Lemma but_last_snoc (s : string) (c : ascii) : Py.but_last (s ++ String c "") = s.
Proof.
  induction s as [|a s IH]; simpl; [reflexivity|].
  rewrite IH. destruct s; reflexivity.
Qed.

(** A non-empty string is its [s[:-1]] followed by its [s[-1]]. *)
Lemma last_char_decompose (s : string) (c : ascii) :
  Py.last_char s = Some c -> s = Py.but_last s ++ String c "".
Proof.
  induction s as [|a s IH]; simpl; [discriminate|].
  destruct s as [|b s].
  - now intros [= ->].
  - intros H. specialize (IH H). simpl in *. now rewrite <- IH.
Qed.

Lemma last_char_None (s : string) : Py.last_char s = None -> s = "".
Proof.
  induction s as [|a s IH]; [reflexivity|]. simpl.
  destruct s; [discriminate|]. intros H. now specialize (IH H).
Qed.

Lemma sep_free_cons (a : ascii) (s : string) :
  sep_free (String a s) <-> Ascii.eqb a "/" = false /\ sep_free s.
Proof.
  unfold sep_free.
  change (Py.char_in "/" (String a s)) with (Ascii.eqb "/" a || Py.char_in "/" s).
  rewrite orb_false_iff, (Ascii.eqb_sym "/" a). tauto.
Qed.

Lemma sep_free_app (s1 s2 : string) :
  sep_free (s1 ++ s2) <-> sep_free s1 /\ sep_free s2.
Proof.
  induction s1 as [|a s1 IH].
  - simpl. unfold sep_free at 2. simpl. tauto.
  - change (String a s1 ++ s2) with (String a (s1 ++ s2)).
    rewrite !sep_free_cons, IH. tauto.
Qed.

Lemma split_not_nil (c : ascii) (s : string) : Py.split c s <> [].
Proof.
  induction s as [|a s IH]; simpl; [discriminate|].
  destruct (Ascii.eqb a c); [discriminate|].
  destruct (Py.split c s); discriminate.
Qed.

Lemma split_sep_free (s : string) : Forall sep_free (Py.split "/" s).
Proof.
  induction s as [|a s IH]; simpl.
  - now repeat constructor.
  - destruct (Ascii.eqb a "/") eqn:E.
    + constructor; [reflexivity | exact IH].
    + destruct (Py.split "/" s) as [|w ws].
      { constructor; [|constructor]. apply sep_free_cons. now split. }
      inversion IH; subst. constructor; [|assumption].
      apply sep_free_cons. now split.
Qed.

Lemma join_split (s : string) : Py.join "/" (Py.split "/" s) = s.
Proof.
  induction s as [|a s IH]; simpl; [reflexivity|].
  destruct (Ascii.eqb a "/") eqn:E.
  - apply Ascii.eqb_eq in E. subst a.
    pose proof (split_not_nil "/" s) as Hn.
    destruct (Py.split "/" s) as [|w ws]; [congruence|].
    change (Py.join "/" ("" :: w :: ws)) with ("" ++ "/" ++ Py.join "/" (w :: ws)).
    now rewrite IH.
  - pose proof (split_not_nil "/" s) as Hn.
    destruct (Py.split "/" s) as [|w ws]; [congruence|].
    destruct ws as [|w' ws]; simpl in *; now rewrite IH.
Qed.

Lemma split_sep_free_word (w : string) : sep_free w -> Py.split "/" w = [w].
Proof.
  induction w as [|a w IH]; [reflexivity|].
  intros [Ha Hw]%sep_free_cons.
  cbn [Py.split]. rewrite Ha. now rewrite (IH Hw).
Qed.

Lemma split_word_sep (w s : string) :
  sep_free w -> Py.split "/" (w ++ "/" ++ s) = w :: Py.split "/" s.
Proof.
  induction w as [|a w IH]; [reflexivity|].
  intros [Ha Hw]%sep_free_cons.
  change (String a w ++ "/" ++ s) with (String a (w ++ "/" ++ s)).
  cbn [Py.split]. rewrite Ha. now rewrite (IH Hw).
Qed.

(** Splitting undoes joining, for '/'-free segments. *)
Lemma split_join (l : list string) :
  l <> [] -> Forall sep_free l -> Py.split "/" (Py.join "/" l) = l.
Proof.
  induction l as [|w l IH]; [congruence|]. intros _ Hf.
  inversion Hf; subst.
  destruct l as [|w' l].
  - simpl. now apply split_sep_free_word.
  - change (Py.join "/" (w :: w' :: l)) with (w ++ "/" ++ Py.join "/" (w' :: l)).
    rewrite split_word_sep by assumption.
    f_equal. apply IH; [discriminate | assumption].
Qed.

End StringFacts.

(* ------------------------------------------------------------------ *)
(** ** Path algebra *)

Section PathFacts.

Lemma slashed_join (l : list string) : l <> [] -> slashed l = Py.join "/" l ++ "/".
Proof.
  induction l as [|x l IH]; [congruence|]. intros _.
  destruct l as [|y l].
  - simpl. reflexivity.
  - change (Py.join "/" (x :: y :: l)) with (x ++ "/" ++ Py.join "/" (y :: l)).
    change (slashed (x :: y :: l)) with (x ++ "/" ++ slashed (y :: l)).
    rewrite IH by discriminate.
    now rewrite !append_assoc.
Qed.

Lemma normalize_loop_ok (levels : list string) (npath : string) :
  Forall (fun s => s <> "") levels ->
  normalize_loop levels npath = Ok (npath ++ slashed (map normalize_level levels)).
Proof.
  revert npath. induction levels as [|level rest IH]; intros npath Hf; simpl.
  - now rewrite append_empty_r.
  - inversion Hf; subst. unfold normalize_level at 1.
    destruct (Py.last_char level) as [c|] eqn:E.
    + rewrite IH by assumption. now rewrite !append_assoc.
    + apply last_char_None in E. contradiction.
Qed.

Lemma normalize_loop_raises (levels : list string) (npath : string) :
  ~ Forall (fun s => s <> "") levels ->
  normalize_loop levels npath = Raise (WalletError InvalidPath).
Proof.
  revert npath. induction levels as [|level rest IH]; intros npath Hf; simpl.
  - exfalso. apply Hf. constructor.
  - destruct (Py.last_char level) as [c|] eqn:E; [|reflexivity].
    apply IH. intros Hr. apply Hf. constructor; [|assumption].
    intros ->. discriminate.
Qed.

(** On a path without empty level, [normalize_path] rewrites each level
    and joins them again. *)
Lemma normalize_path_ok (path : string) :
  Forall (fun s => s <> "") (Py.split "/" path) ->
  normalize_path path = Ok (Py.join "/" (map normalize_level (Py.split "/" path))).
Proof.
  intros Hf. unfold normalize_path.
  rewrite normalize_loop_ok by assumption. simpl.
  assert (Hn : map normalize_level (Py.split "/" path) <> []).
  { pose proof (split_not_nil "/" path). destruct (Py.split "/" path); [congruence | discriminate]. }
  rewrite slashed_join by assumption.
  now rewrite last_char_snoc, but_last_snoc.
Qed.

Lemma normalize_level_nonempty (level : string) :
  level <> "" -> normalize_level level <> "".
Proof.
  intros Hl. unfold normalize_level.
  destruct (Py.last_char level) as [c|] eqn:E; [|assumption].
  destruct (Py.char_in c hardening_markers); [|assumption].
  destruct (Py.but_last level); discriminate.
Qed.

Lemma normalize_level_sep_free (level : string) :
  sep_free level -> sep_free (normalize_level level).
Proof.
  intros Hl. unfold normalize_level.
  destruct (Py.last_char level) as [c|] eqn:E; [|assumption].
  destruct (Py.char_in c hardening_markers); [|assumption].
  apply last_char_decompose in E. rewrite E in Hl.
  apply sep_free_app in Hl. apply sep_free_app. split; [tauto | reflexivity].
Qed.

Lemma normalize_level_idem (level : string) :
  normalize_level (normalize_level level) = normalize_level level.
Proof.
  unfold normalize_level at 2 3.
  destruct (Py.last_char level) as [c|] eqn:E; [|unfold normalize_level; now rewrite E].
  destruct (Py.char_in c hardening_markers) eqn:Hc.
  - unfold normalize_level. rewrite last_char_snoc. simpl.
    now rewrite but_last_snoc.
  - unfold normalize_level. now rewrite E, Hc.
Qed.

(** C9. [normalize_path] is idempotent: on every path whose levels
    (the pieces between the '/') are all non-empty it returns a path, and
    normalizing that path again returns it unchanged. *)
Theorem normalize_path_idempotent (p : string) :
  Forall (fun s => s <> "") (Py.split "/" p) ->
  exists n, normalize_path p = Ok n /\ normalize_path n = Ok n.
Proof.
  intros Hf. exists (Py.join "/" (map normalize_level (Py.split "/" p))).
  split; [now apply normalize_path_ok|].
  assert (Hn : map normalize_level (Py.split "/" p) <> []).
  { pose proof (split_not_nil "/" p). destruct (Py.split "/" p); [congruence | discriminate]. }
  assert (Hs : Forall sep_free (map normalize_level (Py.split "/" p))).
  { apply Forall_map. eapply Forall_impl; [|apply split_sep_free].
    intros a. apply normalize_level_sep_free. }
  rewrite normalize_path_ok; rewrite split_join by assumption.
  - f_equal. f_equal. rewrite map_map. apply map_ext. intros a. apply normalize_level_idem.
  - apply Forall_map. eapply Forall_impl; [|exact Hf].
    intros a. apply normalize_level_nonempty.
Qed.

Lemma normalize_path_idempotent_witness :
  Forall (fun s => s <> "") (Py.split "/" "m/44h/1'/0p/2000/1") /\
  exists n, normalize_path "m/44h/1'/0p/2000/1" = Ok n /\ normalize_path n = Ok n.
Proof.
  assert (H : Forall (fun s => s <> "") (Py.split "/" "m/44h/1'/0p/2000/1")).
  { simpl. repeat constructor; discriminate. }
  split; [exact H | exact (normalize_path_idempotent _ H)].
Defined.

End PathFacts.

(* ------------------------------------------------------------------ *)
(** ** Queries *)

Section QueryFacts.
Context {A : Type}.

Lemma insert_by_perm (before : A -> A -> bool) (x : A) (l : list A) :
  Permutation (insert_by before x l) (x :: l).
Proof.
  induction l as [|y l IH]; simpl; [reflexivity|].
  destruct (before x y); [reflexivity|].
  rewrite IH. apply perm_swap.
Qed.

Lemma sort_by_perm (before : A -> A -> bool) (l : list A) :
  Permutation (sort_by before l) l.
Proof.
  induction l as [|x l IH]; simpl; [reflexivity|].
  rewrite insert_by_perm. now constructor.
Qed.

Lemma sort_by_nil (before : A -> A -> bool) (l : list A) :
  sort_by before l = [] -> l = [].
Proof.
  intros H. pose proof (sort_by_perm before l) as P. rewrite H in P.
  now apply Permutation_nil in P.
Qed.

(** The head of the sorted list stands in front of every row, when
    [before] is a total preorder. *)
Lemma first_sort_by (before : A -> A -> bool) (l : list A) (u : A) :
  (forall x y, before x y = false -> before y x = true) ->
  (forall x y z, before x y = true -> before y z = true -> before x z = true) ->
  first (sort_by before l) = Some u ->
  In u l /\ forall x, In x l -> before u x = true.
Proof.
  intros Htot Htr.
  assert (Hrefl : forall z, before z z = true).
  { intros z. destruct (before z z) eqn:Hz; [reflexivity|].
    pose proof (Htot _ _ Hz). congruence. }
  revert u. induction l as [|x l IH]; intros u; simpl; [discriminate|].
  destruct (sort_by before l) as [|y t] eqn:E.
  - apply sort_by_nil in E. subst l. simpl. intros [= <-].
    split; [now left|]. intros z [<-|[]]. apply Hrefl.
  - destruct (IH y eq_refl) as [Hy Hmin]. simpl.
    destruct (before x y) eqn:Hxy; simpl; intros [= <-].
    + split; [now left|]. intros z [<-|Hz].
      * apply Hrefl.
      * eapply Htr; [exact Hxy | now apply Hmin].
    + split; [now right|]. intros z [<-|Hz]; [now apply Htot | now apply Hmin].
Qed.

Lemma insert_by_sorted (before : A -> A -> bool) (x : A) (l : list A) :
  (forall x y, before x y = false -> before y x = true) ->
  (forall x y z, before x y = true -> before y z = true -> before x z = true) ->
  StronglySorted (fun a b => before a b = true) l ->
  StronglySorted (fun a b => before a b = true) (insert_by before x l).
Proof.
  intros Htot Htr. induction l as [|y l IH]; intros Hs; simpl.
  - constructor; constructor.
  - inversion Hs as [|? ? Hl Hy]; subst.
    destruct (before x y) eqn:Hxy.
    + constructor; [assumption|]. constructor; [assumption|].
      eapply Forall_impl; [|exact Hy]. intros z Hz. now apply (Htr x y z).
    + constructor; [now apply IH|].
      eapply Permutation_Forall; [symmetry; apply insert_by_perm|].
      constructor; [now apply Htot | assumption].
Qed.

Lemma sort_by_sorted (before : A -> A -> bool) (l : list A) :
  (forall x y, before x y = false -> before y x = true) ->
  (forall x y z, before x y = true -> before y z = true -> before x z = true) ->
  StronglySorted (fun a b => before a b = true) (sort_by before l).
Proof.
  intros Htot Htr. induction l as [|x l IH]; simpl; [constructor|].
  now apply insert_by_sorted.
Qed.

End QueryFacts.

(* ------------------------------------------------------------------ *)
(** ** Coin selection *)

Section SelectInputs.
Local Open Scope list_scope.

Lemma total_value_app (l1 l2 : list DbTransaction.row) :
  total_value (l1 ++ l2)%list = total_value l1 + total_value l2.
Proof.
  unfold total_value. induction l1 as [|x l1 IH]; simpl; [reflexivity|].
  rewrite IH. lia.
Qed.

Lemma total_value_perm (l1 l2 : list DbTransaction.row) :
  Permutation l1 l2 -> total_value l1 = total_value l2.
Proof.
  unfold total_value. induction 1; simpl; lia.
Qed.

Lemma total_value_fold (l : list DbTransaction.row) (a : Z) :
  fold_left (fun a u => a + DbTransaction.value u) l a = a + total_value l.
Proof.
  unfold total_value. revert a. induction l as [|x l IH]; intros a; simpl; [lia|].
  rewrite IH. lia.
Qed.

(** Once the running total has reached the amount nothing more is taken. *)
Lemma accumulate_done (amount : Z) (lessers sel : list DbTransaction.row) (tot : Z) :
  amount <= tot -> accumulate amount lessers sel tot = (sel, tot).
Proof.
  intros H. induction lessers as [|u rest IH]; simpl; [reflexivity|].
  destruct (tot <? amount) eqn:E; [apply Z.ltb_lt in E; lia | exact IH].
Qed.

(** The loop takes the shortest prefix of [lessers] that brings the
    running total to the amount, and all of [lessers] when none does. *)
Lemma accumulate_prefix (amount : Z) (lessers sel : list DbTransaction.row) (tot : Z) :
  exists k : nat,
    (k <= List.length lessers)%nat /\
    accumulate amount lessers sel tot
      = ((sel ++ firstn k lessers)%list, tot + total_value (firstn k lessers)) /\
    (forall j : nat, (j < k)%nat -> tot + total_value (firstn j lessers) < amount) /\
    ((k < List.length lessers)%nat -> amount <= tot + total_value (firstn k lessers)).
Proof.
  revert sel tot. induction lessers as [|u rest IH]; intros sel tot.
  - exists 0%nat. simpl. rewrite app_nil_r. unfold total_value. simpl.
    repeat split; try lia. f_equal. lia.
  - simpl. destruct (tot <? amount) eqn:E.
    + apply Z.ltb_lt in E.
      destruct (IH (sel ++ [u]) (tot + DbTransaction.value u)) as (k & Hk & Heq & Hlt & Hge).
      exists (S k). simpl. repeat split.
      * lia.
      * rewrite Heq. rewrite <- app_assoc. simpl. f_equal.
        unfold total_value. simpl. fold (total_value (firstn k rest)). lia.
      * intros [|j] Hj; simpl.
        { unfold total_value. simpl. lia. }
        { specialize (Hlt j ltac:(lia)). unfold total_value in *. simpl. lia. }
      * intros Hk'. specialize (Hge ltac:(lia)). unfold total_value in *. simpl. lia.
    + apply Z.ltb_ge in E. exists 0%nat. simpl.
      rewrite accumulate_done by assumption. rewrite app_nil_r.
      unfold total_value. simpl. repeat split; try lia. f_equal. lia.
Qed.

Lemma total_value_cons (x : DbTransaction.row) (l : list DbTransaction.row) :
  total_value (x :: l) = DbTransaction.value x + total_value l.
Proof. reflexivity. Qed.

Lemma total_value_nonneg (l : list DbTransaction.row) :
  (forall r, In r l -> 0 <= DbTransaction.value r) -> 0 <= total_value l.
Proof.
  induction l as [|x l IH]; intros Hpos; [unfold total_value; simpl; lia|].
  rewrite total_value_cons.
  assert (0 <= DbTransaction.value x) by (apply Hpos; now left).
  assert (0 <= total_value l) by (apply IH; intros; apply Hpos; now right).
  lia.
Qed.

Lemma total_value_firstn_le (l : list DbTransaction.row) (k : nat) :
  (forall r, In r l -> 0 <= DbTransaction.value r) ->
  total_value (firstn k l) <= total_value l.
Proof.
  intros Hpos. rewrite <- (firstn_skipn k l) at 2. rewrite total_value_app.
  assert (0 <= total_value (skipn k l)); [|lia].
  apply total_value_nonneg. intros r Hr. apply Hpos.
  rewrite <- (firstn_skipn k l). apply in_or_app. now right.
Qed.

Lemma filter_and_same {A} (f g : A -> bool) (l : list A) :
  (forall x, In x (filter f l) -> g x = true) ->
  filter (fun x => f x && g x) l = filter f l.
Proof.
  induction l as [|x l IH]; intros H; simpl in *; [reflexivity|].
  destruct (f x) eqn:Hf; simpl.
  - rewrite (H x (or_introl eq_refl)). f_equal. apply IH. intros y Hy. apply H. now right.
  - now apply IH.
Qed.

Lemma filter_and_none {A} (f g : A -> bool) (l : list A) :
  (forall x, In x (filter f l) -> g x = false) ->
  filter (fun x => f x && g x) l = [].
Proof.
  induction l as [|x l IH]; intros H; simpl in *; [reflexivity|].
  destruct (f x) eqn:Hf; simpl.
  - rewrite (H x (or_introl eq_refl)). apply IH. intros y Hy. apply H. now right.
  - now apply IH.
Qed.

Lemma order_by_desc_descending (l : list DbTransaction.row) :
  descending (order_by_desc DbTransaction.value l).
Proof.
  unfold descending, order_by_desc.
  assert (H : StronglySorted
                (fun a b => (DbTransaction.value a >=? DbTransaction.value b) = true)
                (sort_by (fun x y => DbTransaction.value x >=? DbTransaction.value y) l)).
  { apply (sort_by_sorted (fun x y => DbTransaction.value x >=? DbTransaction.value y)).
    - intros x y H. apply Z.geb_le. rewrite Z.geb_leb in H. apply Z.leb_gt in H. lia.
    - intros x y z H1 H2. rewrite Z.geb_le in *. lia. }
  induction H as [|a t Ht IH Hall]; constructor; [assumption|].
  eapply Forall_impl; [|exact Hall]. intros b Hb. apply Z.geb_le in Hb. lia.
Qed.

Context {HDKey : Type} {ext : Externals HDKey}.

(** C1. Coin selection is exact.  Among the unspent records of the
    query: (1) when one has a value >= the amount, the selection is one
    record, of the smallest such value; (2) otherwise the candidates are
    all the unspent records, taken largest value first, and the selection
    is the shortest prefix of that list whose total reaches the amount
    (there is one when the total of all candidates reaches it), (3) or the
    empty list when no prefix does, which is the case when the total of
    all candidates (amounts are not negative) is below the amount; (4) the
    empty list is the failure: [create_transaction] answers it by raising
    InsufficientFunds, and never sees a partial selection. *)
Theorem select_inputs_exact (amount : Z) (q : list DbTransaction.row) :
  let unspent := filter spend_IS_False q in
  let selected := _select_inputs amount (Some q) in
  ((exists r, In r unspent /\ amount <= DbTransaction.value r) ->
   exists u, selected = [u] /\ In u unspent /\ amount <= DbTransaction.value u /\
             forall r, In r unspent -> amount <= DbTransaction.value r ->
                       DbTransaction.value u <= DbTransaction.value r)
  /\
  ((forall r, In r unspent -> DbTransaction.value r < amount) ->
   let lessers := order_by_desc DbTransaction.value unspent in
     Permutation lessers unspent /\ descending lessers /\
     (forall k : nat,
         amount <= total_value (firstn k lessers) ->
         (forall j : nat, (j < k)%nat -> total_value (firstn j lessers) < amount) ->
         selected = firstn k lessers) /\
     ((forall k : nat, total_value (firstn k lessers) < amount) -> selected = []) /\
     ((forall r, In r unspent -> 0 <= DbTransaction.value r) ->
      total_value unspent < amount -> selected = []) /\
     (amount <= total_value unspent ->
      exists k : nat,
        selected = firstn k lessers /\ amount <= total_value selected /\
        forall j : nat, (j < k)%nat -> total_value (firstn j lessers) < amount))
  /\
  (forall (self : HDWallet HDKey) output_arr account_id fee min_confirms,
      transactions (_session self) = q -> q <> [] ->
      fold_left (fun a o => a + snd o) output_arr 0
        + match fee with None => fallback_fee | Some f => f end = amount ->
      selected = [] ->
      create_transaction output_arr None account_id fee min_confirms self
        = (Raise (WalletError InsufficientFunds), self)).
Proof.
  intros unspent selected. split; [|split].
  - (* one record is enough *)
    intros (r & Hr & Hge).
    subst selected. unfold _select_inputs, order_by.
    set (big := filter (fun t => spend_IS_False t && (DbTransaction.value t >=? amount)) q).
    assert (Hbig : forall x, In x big <-> In x unspent /\ amount <= DbTransaction.value x).
    { intros x. unfold big, unspent. rewrite !filter_In, andb_true_iff, Z.geb_le. tauto. }
    destruct (first (sort_by (fun x y => DbTransaction.value x <=? DbTransaction.value y) big))
      as [u|] eqn:E.
    + apply first_sort_by in E.
      * destruct E as [Hu Hmin]. apply Hbig in Hu. exists u.
        repeat split; try tauto.
        intros r' Hr' Hge'. apply Z.leb_le. apply Hmin. apply Hbig. tauto.
      * intros x y H. apply Z.leb_gt in H. apply Z.leb_le. lia.
      * intros x y z H1 H2. rewrite Z.leb_le in *. lia.
    + exfalso. unfold first in E.
      destruct (sort_by _ big) as [|y t] eqn:Es; [|discriminate].
      apply sort_by_nil in Es. assert (In r big) by (apply Hbig; tauto).
      rewrite Es in *. contradiction.
  - (* several smaller records *)
    intros Hsmall. cbv zeta.
    assert (Hperm : Permutation (order_by_desc DbTransaction.value unspent) unspent)
      by apply sort_by_perm.
    assert (Hsel : exists k : nat,
               (forall j : nat, (j < k)%nat ->
                   total_value (firstn j (order_by_desc DbTransaction.value unspent)) < amount) /\
               ((k < List.length (order_by_desc DbTransaction.value unspent))%nat ->
                   amount <= total_value (firstn k (order_by_desc DbTransaction.value unspent))) /\
               selected =
                 if total_value (firstn k (order_by_desc DbTransaction.value unspent)) <? amount
                 then [] else firstn k (order_by_desc DbTransaction.value unspent)).
    { subst selected. unfold _select_inputs.
      rewrite (filter_and_none spend_IS_False (fun t => DbTransaction.value t >=? amount)).
      2:{ intros x Hx. specialize (Hsmall x Hx). rewrite Z.geb_leb. apply Z.leb_gt. lia. }
      rewrite (filter_and_same spend_IS_False (fun t => DbTransaction.value t <? amount)).
      2:{ intros x Hx. apply Z.ltb_lt. now apply Hsmall. }
      fold unspent. cbn [order_by sort_by first hd_error].
      destruct (accumulate_prefix amount (order_by_desc DbTransaction.value unspent) [] 0)
        as (k & _ & Heq & Hlt & Hge).
      rewrite Heq. cbn [app]. exists k. repeat split.
      - intros j Hj. specialize (Hlt j Hj). lia.
      - intros Hk. specialize (Hge Hk). lia. }
    destruct Hsel as (k0 & Hlt & Hge & Hsel).
    assert (Hall : (forall k : nat,
                       total_value (firstn k (order_by_desc DbTransaction.value unspent)) < amount) ->
                   selected = []).
    { intros Hno. rewrite Hsel. specialize (Hno k0). apply Z.ltb_lt in Hno. now rewrite Hno. }
    repeat split.
    + exact Hperm.
    + apply order_by_desc_descending.
    + intros k Hk Hmin.
      assert (k = k0 \/
              firstn k (order_by_desc DbTransaction.value unspent)
                = firstn k0 (order_by_desc DbTransaction.value unspent)) as Hk0.
      { destruct (Nat.lt_trichotomy k k0) as [Hc|[Hc|Hc]].
        - specialize (Hlt k Hc). lia.
        - now left.
        - right. specialize (Hmin k0 Hc).
          assert (~ (k0 < List.length (order_by_desc DbTransaction.value unspent))%nat)
            by (intros Hl; specialize (Hge Hl); lia).
          rewrite !firstn_all2 by lia. reflexivity. }
      assert (Heq : firstn k (order_by_desc DbTransaction.value unspent)
                    = firstn k0 (order_by_desc DbTransaction.value unspent))
        by (destruct Hk0 as [->|Hk0]; [reflexivity | exact Hk0]).
      rewrite Hsel, <- Heq.
      destruct (total_value (firstn k (order_by_desc DbTransaction.value unspent)) <? amount)
        eqn:E; [apply Z.ltb_lt in E; lia | reflexivity].
    + exact Hall.
    + intros Hpos Htot. apply Hall. intros k.
      assert (total_value (firstn k (order_by_desc DbTransaction.value unspent))
              <= total_value (order_by_desc DbTransaction.value unspent)).
      { apply total_value_firstn_le. intros r Hr. apply Hpos.
        eapply Permutation_in; [exact Hperm | exact Hr]. }
      rewrite (total_value_perm _ _ Hperm) in H. lia.
    + intros Htot. exists k0.
      assert (Hreach : amount <= total_value
                                   (firstn k0 (order_by_desc DbTransaction.value unspent))).
      { destruct (Nat.lt_ge_cases k0
                    (List.length (order_by_desc DbTransaction.value unspent))) as [Hk|Hk].
        - now apply Hge.
        - rewrite firstn_all2 by lia. now rewrite (total_value_perm _ _ Hperm). }
      assert (Hk0 : selected = firstn k0 (order_by_desc DbTransaction.value unspent)).
      { rewrite Hsel.
        destruct (total_value (firstn k0 (order_by_desc DbTransaction.value unspent))
                  <? amount) eqn:E; [apply Z.ltb_lt in E; lia | reflexivity]. }
      rewrite Hk0. repeat split; assumption.
  - (* the caller *)
    intros self output_arr account_id fee min_confirms Hq Hne Hamount Hsel.
    unfold create_transaction, bind, get. cbn beta iota.
    rewrite Hq. destruct q as [|u0 q']; [congruence|].
    rewrite Hamount. fold selected. rewrite Hsel. reflexivity.
Qed.

End SelectInputs.

Section SelectInputsExamples.
Import Examples.

Lemma select_inputs_exact_witness :
  (exists u, _select_inputs 10 (Some [u3; u5; u12]) = [u] /\ DbTransaction.value u = 12) /\
  _select_inputs 10 (Some [u3; u5; u4]) = [u5; u4; u3] /\
  _select_inputs 10 (Some [u3; u5]) = [] /\
  create_transaction (ext := E []) [("to", 10)] None None (Some 0) 4
                     (with_ledger [u3; u5] wallet)
    = (Raise (WalletError InsufficientFunds), with_ledger [u3; u5] wallet).
Proof.
  pose proof (select_inputs_exact (ext := E []) 10 [u3; u5; u12]) as (H1 & _ & _).
  pose proof (select_inputs_exact (ext := E []) 10 [u3; u5; u4]) as (_ & H2 & _).
  pose proof (select_inputs_exact (ext := E []) 10 [u3; u5]) as (_ & H3 & H4).
  assert (S3 : _select_inputs 10 (Some [u3; u5]) = []).
  { destruct H3 as (_ & _ & _ & _ & Hfail & _).
    - intros r [<-|[<-|[]]]; vm_compute; reflexivity.
    - apply Hfail.
      + intros r [<-|[<-|[]]]; vm_compute; discriminate.
      + vm_compute. reflexivity. }
  split; [|split; [|split]].
  - destruct H1 as (u & Hu & Hin & Hge & _).
    { exists u12. split; [simpl; tauto | vm_compute; discriminate]. }
    exists u. split; [exact Hu|].
    destruct Hin as [<-|[<-|[<-|[]]]]; [exfalso; revert Hge; vm_compute; tauto ..
                                       | reflexivity].
  - destruct H2 as (_ & _ & Hgreedy & _).
    + intros r [<-|[<-|[<-|[]]]]; vm_compute; reflexivity.
    + rewrite (Hgreedy 3%nat).
      * reflexivity.
      * vm_compute. discriminate.
      * intros [|[|[|j]]] Hj; [vm_compute; reflexivity .. | lia].
  - exact S3.
  - apply H4; [reflexivity | discriminate | reflexivity | exact S3].
Defined.

End SelectInputsExamples.

(* ------------------------------------------------------------------ *)
(** ** Deleting a wallet *)

Section DeleteWallet.

Lemma check_balances_force (ks : list DbKey.row) : check_balances true ks = Ok tt.
Proof. induction ks as [|k ks IH]; simpl; [reflexivity | exact IH]. Qed.

Lemma check_balances_blocked (ks : list DbKey.row) :
  (exists k, In k ks /\ DbKey.balance k <> 0) ->
  exists kid, check_balances false ks = Raise (WalletError (ForceDeleteRequired kid)).
Proof.
  induction ks as [|k ks IH]; intros (k0 & Hin & Hb); [destruct Hin|].
  simpl. destruct (DbKey.balance k =? 0) eqn:E; simpl.
  - apply IH. exists k0. split; [|assumption].
    destruct Hin as [<-|Hin]; [|assumption]. apply Z.eqb_eq in E. contradiction.
  - now exists (DbKey.id k).
Qed.

(** C7, as the code has it.  For a wallet that is found: without the
    force flag, a key of the wallet with a nonzero cached balance makes
    [delete_wallet] raise ForceDeleteRequired and leave the database as it
    was; with the force flag the call returns, the key rows of the wallet
    and the wallet rows that the query selects are removed, every other
    row of these tables is kept, and the ledger (the transactions table)
    is not touched. *)
Theorem delete_wallet_force_rule (wallet : wallet_ref) (db : Db) (w0 : DbWallet.row) :
  first (wallet_query wallet db) = Some w0 ->
  ((exists k, In k (keys_table db) /\ DbKey.wallet_id k = DbWallet.id w0
              /\ DbKey.balance k <> 0) ->
   exists kid, delete_wallet wallet false db
               = (Raise (WalletError (ForceDeleteRequired kid)), db))
  /\
  (fst (delete_wallet wallet true db) = Ok (count (wallet_query wallet db)) /\
   (forall k, In k (keys_table (snd (delete_wallet wallet true db)))
              <-> In k (keys_table db) /\ DbKey.wallet_id k <> DbWallet.id w0) /\
   (forall w, In w (wallets (snd (delete_wallet wallet true db)))
              <-> In w (wallets db) /\ ~ In w (wallet_query wallet db)) /\
   ~ In w0 (wallets (snd (delete_wallet wallet true db))) /\
   transactions (snd (delete_wallet wallet true db)) = transactions db).
Proof.
  intros Hw. split.
  - intros (k & Hin & Hwid & Hb). unfold delete_wallet. rewrite Hw.
    destruct (check_balances_blocked
                (filter (fun k => DbKey.wallet_id k =? DbWallet.id w0) (keys_table db)))
      as (kid & Hk).
    { exists k. split; [|assumption]. apply filter_In. split; [assumption|].
      now apply Z.eqb_eq. }
    exists kid. now rewrite Hk.
  - assert (Hrows : forall w, In w (wallets (snd (delete_wallet wallet true db)))
                               <-> In w (wallets db) /\ ~ In w (wallet_query wallet db)).
    { intros w. unfold delete_wallet. rewrite Hw, check_balances_force.
      cbn [snd wallets set_wallets set_keys]. unfold wallet_query.
      rewrite !filter_In, negb_true_iff.
      destruct (wallet_matches wallet w); intuition congruence. }
    unfold delete_wallet in *. rewrite Hw, check_balances_force in *.
    cbn [fst snd keys_table transactions set_wallets set_keys] in *.
    split; [reflexivity|]. split; [|split; [exact Hrows|split; [|reflexivity]]].
    + intros k. rewrite filter_In, negb_true_iff, Z.eqb_neq. tauto.
    + intros Hin. apply Hrows in Hin. destruct Hin as [_ Hn]. apply Hn.
      unfold first in Hw. destruct (wallet_query wallet db); [discriminate|].
      injection Hw as ->. now left.
Qed.

End DeleteWallet.

Section DeleteWalletExamples.
Import Examples Funded.

Lemma delete_wallet_force_rule_witness :
  (exists kid, delete_wallet (WalletName "W") false (_session funded)
               = (Raise (WalletError (ForceDeleteRequired kid)), _session funded)) /\
  keys_table (snd (delete_wallet (WalletName "W") true (_session funded))) = [] /\
  transactions (snd (delete_wallet (WalletName "W") true (_session funded)))
    = transactions (_session funded).
Proof.
  assert (Hw : exists w0, first (wallet_query (WalletName "W") (_session funded)) = Some w0
                          /\ DbWallet.id w0 = 1).
  { eexists. split; [vm_compute; reflexivity | reflexivity]. }
  destruct Hw as (w0 & Hw & Hid).
  destruct (delete_wallet_force_rule (WalletName "W") (_session funded) w0 Hw)
    as (Hblocked & _ & _ & _ & _ & Hledger).
  split; [|split].
  - apply Hblocked.
    exists (nth 6 (keys_table (_session funded)) blank_key).
    rewrite Hid. split; [vm_compute; tauto | split; [reflexivity | vm_compute; discriminate]].
  - vm_compute. reflexivity.
  - exact Hledger.
Defined.

(** The claim of C7 on the cascade fails on the code: the wallet W owns
    key 7, whose cached balance is not zero and which owns the one record
    of the ledger; the forced deletion removes the wallet and all its
    keys, and that record is still in the ledger. *)
Lemma delete_wallet_keeps_ledger :
  let db := _session funded in
  let db' := snd (delete_wallet (WalletId 1) true db) in
  map DbWallet.id (wallets db) = [1] /\
  (exists k, In k (keys_table db) /\ DbKey.id k = 7 /\ DbKey.wallet_id k = 1
             /\ DbKey.balance k = 150007) /\
  map DbTransaction.key_id (transactions db) = [7] /\
  fst (delete_wallet (WalletId 1) true db) = Ok 1 /\
  wallets db' = [] /\ keys_table db' = [] /\
  map DbTransaction.key_id (transactions db') = [7].
Proof.
  cbv zeta. split; [reflexivity|]. split.
  - exists (nth 6 (keys_table (_session funded)) blank_key).
    split; [vm_compute; tauto | repeat split].
  - repeat split.
Qed.

End DeleteWalletExamples.

(* ------------------------------------------------------------------ *)
(** ** The scope of create_transaction *)

Section CreateTransaction.
Context {HDKey : Type} {ext : Externals HDKey}.

(** C5, as the code has it.  When the ledger holds no record (so that
    the scope of every account and confirmation threshold is empty),
    [create_transaction] returns None, which is not an exception, and
    leaves the wallet as it was. *)
Theorem create_transaction_no_outputs (self : HDWallet HDKey) (output_arr : list (string * Z))
        (input_arr : option (list (string * Z * Z))) (account_id fee : option Z)
        (min_confirms : Z) :
  transactions (_session self) = [] ->
  (forall a, utxo_scope (_session self) a min_confirms = []) /\
  create_transaction output_arr input_arr account_id fee min_confirms self
    = (Ok None, self).
Proof.
  intros H. split.
  - intros a. unfold utxo_scope. now rewrite H.
  - unfold create_transaction, bind, get. cbn beta iota. now rewrite H.
Qed.

(** The records that [create_transaction] hands to the selection are
    those of the whole table: the two filtered queries are not used. *)
Lemma create_transaction_reads_whole_table (self : HDWallet HDKey) (output_arr : list (string * Z))
      (account_id fee : option Z) (min_confirms : Z) (u : DbTransaction.row) :
  In u (transactions (_session self)) ->
  _select_inputs (fold_left (fun a o => a + snd o) output_arr 0
                  + match fee with None => fallback_fee | Some f => f end)
                 (Some (transactions (_session self))) = [] ->
  create_transaction output_arr None account_id fee min_confirms self
    = (Raise (WalletError InsufficientFunds), self).
Proof.
  intros Hin Hsel. unfold create_transaction, bind, get. cbn beta iota.
  destruct (transactions (_session self)) as [|u0 ts]; [destruct Hin|].
  now rewrite Hsel.
Qed.

End CreateTransaction.

Section CreateTransactionExamples.
Import Examples Funded.

Lemma create_transaction_no_outputs_witness :
  create_transaction (ext := E []) [("to", 100000)] None (Some 0) (Some 30000) 4 wallet
    = (Ok None, wallet).
Proof.
  apply (create_transaction_no_outputs (ext := E []) wallet). reflexivity.
Defined.

(** The claim of C5 fails on the code: the wallet has no unspent record,
    the scope of account 0 at 4 confirmations is empty, and the call
    returns None without raising. *)
Lemma create_transaction_returns_None :
  utxo_scope (_session wallet) 0 4 = [] /\
  fst (create_transaction (ext := E []) [("to", 100000)] None (Some 0) (Some 30000) 4
                          wallet)
    = Ok None /\
  is_ok (fst (create_transaction (ext := E []) [("to", 100000)] None (Some 0) (Some 30000) 4
                                 wallet))
    = true.
Proof. repeat split. Qed.

(** The wallet of [Funded] has one record, of account 0 and with 6
    confirmations.  For account 7 and 400 confirmations the scope is
    empty; the call spends that record all the same. *)
Example create_transaction_out_of_scope :
  utxo_scope (_session funded) 7 400 = [] /\
  exists t, fst (create_transaction (ext := E reply) [("to", 100000)] None (Some 7)
                                    (Some 30000) 400 funded)
            = Ok (Some t)
            /\ map (fun i => fst (fst i)) (tx_inputs t) = ["aa"].
Proof. split; [reflexivity|]. eexists. split; [vm_compute; reflexivity | reflexivity]. Qed.

End CreateTransactionExamples.

(* ------------------------------------------------------------------ *)
(** ** Ledger synchronization *)

Section UpdateUtxos.
Context {HDKey : Type} {ext : Externals HDKey}.
Local Open Scope list_scope.

Lemma utxos_loop_cons (a : string) (u : DbTransaction.row) (rest : list utxo)
      (kb : list (Z * Z)) (cnt : Z) (self : HDWallet HDKey) :
  utxos_loop ((a, u) :: rest) kb cnt self =
  match scalar (filter (fun k => String.eqb (DbKey.address k) a)
                       (keys_table (_session self))) with
  | Raise e => (Raise e, self)
  | Ok None => (Raise AttributeError, self)
  | Ok (Some key) =>
      if negb (count (filter (fun t => String.eqb (DbTransaction.tx_hash t)
                                                  (DbTransaction.tx_hash u))
                             (transactions (_session self))) =? 0)
      then utxos_loop rest (dict_add (DbKey.id key) (DbTransaction.value u) kb) cnt self
      else utxos_loop rest (dict_add (DbKey.id key) (DbTransaction.value u) kb) (cnt + 1)
             (set_session (set_transactions
                             (transactions (_session self)
                                ++ [new_record (_session self) (DbKey.id key) u])
                             (_session self)) self)
  end.
Proof.
  cbn [utxos_loop]. unfold bind at 1, get. unfold bind at 1, lift.
  destruct (scalar _) as [[key|]|e]; try reflexivity.
  destruct (negb _); reflexivity.
Qed.

(** A reported output whose transaction hash is already stored is
    skipped, whatever its output index: the ledger stays as it is, the
    count of new records too, and the value is credited to the key. *)
Lemma utxos_loop_skip (a : string) (u t : DbTransaction.row) (rest : list utxo)
      (kb : list (Z * Z)) (cnt : Z) (self : HDWallet HDKey) (key : DbKey.row) :
  scalar (filter (fun k => String.eqb (DbKey.address k) a) (keys_table (_session self)))
    = Ok (Some key) ->
  In t (transactions (_session self)) ->
  DbTransaction.tx_hash t = DbTransaction.tx_hash u ->
  utxos_loop ((a, u) :: rest) kb cnt self
    = utxos_loop rest (dict_add (DbKey.id key) (DbTransaction.value u) kb) cnt self.
Proof.
  intros Hkey Hin Hhash. rewrite utxos_loop_cons, Hkey.
  destruct (filter (fun t0 => String.eqb (DbTransaction.tx_hash t0) (DbTransaction.tx_hash u))
                   (transactions (_session self))) as [|x l] eqn:E.
  - exfalso. assert (In t []) as []. rewrite <- E. apply filter_In. split; [assumption|].
    now apply String.eqb_eq.
  - unfold count. cbn [List.length]. rewrite Nat2Z.inj_succ.
    destruct (Z.succ (Z.of_nat (List.length l)) =? 0) eqn:Z0; [apply Z.eqb_eq in Z0; lia|].
    reflexivity.
Qed.

(** What a run of the loop that returns has done. *)
Lemma utxos_loop_returns (utxos : list utxo) :
  forall (kb : list (Z * Z)) (cnt : Z) (self self' : HDWallet HDKey) (kb' : list (Z * Z)) (cnt' : Z),
  utxos_loop utxos kb cnt self = (Ok (kb', cnt'), self') ->
  keys_table (_session self') = keys_table (_session self) /\
  wallets (_session self') = wallets (_session self) /\
  wallet_id self' = wallet_id self /\
  kb' = credit (keys_table (_session self)) kb utxos /\
  Forall (fun au => owner_id (keys_table (_session self)) (fst au) <> None) utxos /\
  exists new,
    transactions (_session self') = transactions (_session self) ++ new /\
    NoDup (map DbTransaction.tx_hash new) /\
    (forall t, In t new ->
       ~ In (DbTransaction.tx_hash t) (map DbTransaction.tx_hash (transactions (_session self)))) /\
    (forall t, In t new ->
       exists a u, In (a, u) utxos /\ DbTransaction.tx_hash t = DbTransaction.tx_hash u
                   /\ DbTransaction.output_n t = DbTransaction.output_n u
                   /\ DbTransaction.value t = DbTransaction.value u).
Proof.
  induction utxos as [|[a u] rest IH]; intros kb cnt self self' kb' cnt' H.
  - cbn in H. injection H as <- <- <-. repeat split; try reflexivity; [constructor|].
    exists []. rewrite app_nil_r. repeat split; [constructor | intros t [] | intros t []].
  - rewrite utxos_loop_cons in H. cbn [credit]. unfold owner_id at 1 2. cbn [fst].
    destruct (scalar _) as [[key|]|e] eqn:Hscalar; try discriminate.
    assert (Hown : owner_id (keys_table (_session self)) a <> None)
      by (unfold owner_id; rewrite Hscalar; discriminate).
    destruct (negb _) eqn:Hpresent.
    + (* skipped *)
      destruct (IH _ _ _ _ _ _ H)
        as (Hk & Hw & Hi & Hkb & Hall & new & Hts & Hnd & Hfresh & Hsrc).
      repeat split; try assumption; [now constructor|].
      exists new. repeat split; try assumption.
      intros t Ht. destruct (Hsrc t Ht) as (a' & u' & Hin & Heq). exists a', u'.
      split; [now right | exact Heq].
    + (* recorded *)
      apply negb_false_iff, Z.eqb_eq in Hpresent.
      destruct (IH _ _ _ _ _ _ H)
        as (Hk & Hw & Hi & Hkb & Hall & new & Hts & Hnd & Hfresh & Hsrc).
      cbn in Hk, Hw, Hi, Hkb, Hall, Hts, Hfresh.
      repeat split; try assumption; [now constructor|].
      exists (new_record (_session self) (DbKey.id key) u :: new).
      rewrite Hts, <- app_assoc. cbn [app]. split; [reflexivity|].
      assert (Hnew : ~ In (DbTransaction.tx_hash u)
                       (map DbTransaction.tx_hash (transactions (_session self)))).
      { intros Hin. apply in_map_iff in Hin. destruct Hin as (t & Ht & Hint).
        unfold count in Hpresent.
        destruct (filter (fun t0 => String.eqb (DbTransaction.tx_hash t0) (DbTransaction.tx_hash u))
                         (transactions (_session self))) as [|x l] eqn:E.
        - assert (In t []) as []. rewrite <- E. apply filter_In. split; [assumption|].
          now apply String.eqb_eq.
        - cbn [List.length] in Hpresent. lia. }
      split; [|split].
      * cbn [map]. constructor; [|assumption].
        intros Hin. apply in_map_iff in Hin. destruct Hin as (t & Ht & Hint).
        apply (Hfresh t Hint). rewrite map_app. apply in_or_app. right. left.
        cbn. now rewrite Ht.
      * intros t [<-|Ht]; [exact Hnew|].
        intros Hin. apply (Hfresh t Ht). rewrite map_app. apply in_or_app. now left.
      * intros t [<-|Ht].
        { exists a, u. split; [now left | repeat split]. }
        { destruct (Hsrc t Ht) as (a' & u' & Hin & Heq). exists a', u'.
          split; [now right | exact Heq]. }
Qed.

(** *** The dict of balances *)

Lemma dict_add_keys (k v : Z) (d : list (Z * Z)) :
  map fst (dict_add k v d) = if existsb (Z.eqb k) (map fst d) then map fst d
                             else map fst d ++ [k].
Proof.
  induction d as [|[k' v'] d IH]; cbn; [reflexivity|].
  rewrite (Z.eqb_sym k k'). destruct (k' =? k) eqn:E; cbn; [reflexivity|].
  rewrite IH. now destruct (existsb (Z.eqb k) (map fst d)).
Qed.

Lemma dict_add_NoDup (k v : Z) (d : list (Z * Z)) :
  NoDup (map fst d) -> NoDup (map fst (dict_add k v d)).
Proof.
  intros H. rewrite dict_add_keys.
  destruct (existsb (Z.eqb k) (map fst d)) eqn:E; [assumption|].
  apply NoDup_app; [assumption | constructor; [intros [] | constructor] |].
  intros x Hx [Hk|[]]. subst x.
  assert (existsb (Z.eqb k) (map fst d) = true); [|congruence].
  apply existsb_exists. exists k. split; [assumption | apply Z.eqb_refl].
Qed.

Lemma dict_get_add (k v i : Z) (d : list (Z * Z)) :
  dict_get i (dict_add k v d) =
  if k =? i then Some (match dict_get i d with Some x => x + v | None => v end)
  else dict_get i d.
Proof.
  induction d as [|[k' v'] d IH]; cbn.
  - now destruct (k =? i).
  - destruct (k' =? k) eqn:E; cbn.
    + apply Z.eqb_eq in E. subst k'. now destruct (k =? i).
    + rewrite IH. destruct (k' =? i) eqn:E'; [|reflexivity].
      apply Z.eqb_eq in E'. subst k'. rewrite Z.eqb_sym, E. reflexivity.
Qed.

Lemma dict_get_In (i b : Z) (d : list (Z * Z)) : dict_get i d = Some b -> In (i, b) d.
Proof.
  induction d as [|[k v] d IH]; cbn; [discriminate|].
  destruct (k =? i) eqn:E.
  - apply Z.eqb_eq in E. intros [= ->]. left. now subst.
  - intros H. right. now apply IH.
Qed.

Lemma dict_total_add (k v : Z) (d : list (Z * Z)) :
  dict_total (dict_add k v d) = dict_total d + v.
Proof.
  unfold dict_total. induction d as [|[k' v'] d IH]; cbn; [lia|].
  destruct (k' =? k); cbn; lia.
Qed.

Lemma credit_NoDup (ks : list DbKey.row) (utxos : list utxo) (d : list (Z * Z)) :
  NoDup (map fst d) -> NoDup (map fst (credit ks d utxos)).
Proof.
  revert d. induction utxos as [|[a u] rest IH]; intros d H; cbn; [assumption|].
  apply IH. destruct (owner_id ks a); [now apply dict_add_NoDup | assumption].
Qed.

Lemma credit_get (ks : list DbKey.row) (i : Z) (utxos : list utxo) (d : list (Z * Z)) :
  (exists a u, In (a, u) utxos /\ owner_id ks a = Some i) ->
  dict_get i (credit ks d utxos)
  = Some (match dict_get i d with Some x => x | None => 0 end + reported_for ks i utxos).
Proof.
  assert (Hgen : forall utxos d,
             dict_get i (credit ks d utxos)
             = match dict_get i d with
               | Some x => Some (x + reported_for ks i utxos)
               | None => if existsb (fun au => match owner_id ks (fst au) with
                                               | Some j => j =? i
                                               | None => false
                                               end) utxos
                         then Some (reported_for ks i utxos)
                         else None
               end).
  { clear. intros utxos. induction utxos as [|[a u] rest IH]; intros d; cbn.
    - destruct (dict_get i d); [f_equal; lia | reflexivity].
    - rewrite IH. destruct (owner_id ks a) as [j|].
      + rewrite dict_get_add. destruct (j =? i) eqn:E.
        * destruct (dict_get i d); cbn; f_equal; lia.
        * destruct (dict_get i d); cbn; [f_equal; lia | reflexivity].
      + destruct (dict_get i d); cbn; [f_equal; lia | reflexivity]. }
  intros (a & u & Hin & Hown). rewrite Hgen.
  destruct (dict_get i d); [reflexivity|].
  assert (existsb (fun au => match owner_id ks (fst au) with
                             | Some j => j =? i
                             | None => false
                             end) utxos = true) as ->.
  { apply existsb_exists. exists (a, u). split; [assumption|]. cbn. rewrite Hown.
    apply Z.eqb_refl. }
  f_equal.
Qed.

Lemma credit_total (ks : list DbKey.row) (utxos : list utxo) (d : list (Z * Z)) :
  Forall (fun au => owner_id ks (fst au) <> None) utxos ->
  dict_total (credit ks d utxos) = dict_total d + reported_total utxos.
Proof.
  revert d. induction utxos as [|[a u] rest IH]; intros d H; cbn [credit].
  - unfold reported_total. cbn [map fold_right]. lia.
  - inversion H as [|? ? Ha Hrest]; subst. cbn [fst] in Ha.
    rewrite IH by assumption. destruct (owner_id ks a); [|congruence].
    rewrite dict_total_add. unfold reported_total. cbn [map fold_right snd]. lia.
Qed.

(** *** Writing the balances *)

Lemma write_balances_other (i : Z) (d : list (Z * Z)) (ks : list DbKey.row) (k' : DbKey.row) :
  ~ In i (map fst d) -> In k' (write_balances d ks) -> DbKey.id k' = i -> In k' ks.
Proof.
  revert ks. induction d as [|[j c] d IH]; intros ks Hni Hin Hid; cbn in *; [assumption|].
  apply IH in Hin; [|tauto|assumption].
  apply in_map_iff in Hin. destruct Hin as (k & Hk & Hin).
  destruct (DbKey.id k =? j) eqn:E.
  - exfalso. apply Z.eqb_eq in E. subst k'. cbn in Hid. apply Hni. left. congruence.
  - now subst.
Qed.

Lemma write_balances_balance (i b : Z) (d : list (Z * Z)) (ks : list DbKey.row) (k' : DbKey.row) :
  NoDup (map fst d) -> In (i, b) d ->
  In k' (write_balances d ks) -> DbKey.id k' = i -> DbKey.balance k' = b.
Proof.
  revert ks. induction d as [|[j c] d IH]; intros ks Hnd Hd Hin Hid; [destruct Hd|].
  cbn in Hnd. apply NoDup_cons_iff in Hnd. destruct Hnd as [Hj Hnd']. cbn in Hin.
  destruct Hd as [[= -> ->]|Hd].
  - apply write_balances_other with (i := i) in Hin; [|assumption|assumption].
    apply in_map_iff in Hin. destruct Hin as (k & Hk & Hin).
    destruct (DbKey.id k =? i) eqn:E.
    + now subst k'.
    + subst k'. apply Z.eqb_neq in E. contradiction.
  - eapply IH; eassumption.
Qed.

Lemma balances_loop_cons (i b : Z) (rest : list (Z * Z)) (tot : Z) (self : HDWallet HDKey) :
  balances_loop ((i, b) :: rest) tot self =
  match scalar (filter (fun k => DbKey.id k =? i) (keys_table (_session self))) with
  | Raise e => (Raise e, self)
  | Ok None => (Raise AttributeError, self)
  | Ok (Some _) =>
      balances_loop rest (tot + b)
        (set_session (set_keys (map (fun k => if DbKey.id k =? i then DbKey.set_balance b k
                                              else k) (keys_table (_session self)))
                               (_session self)) self)
  end.
Proof.
  cbn [balances_loop]. unfold bind at 1, get. unfold bind at 1, lift.
  destruct (scalar _) as [[key|]|e]; reflexivity.
Qed.

Lemma balances_loop_returns (d : list (Z * Z)) :
  forall (tot : Z) (self self' : HDWallet HDKey) (tot' : Z),
  balances_loop d tot self = (Ok tot', self') ->
  tot' = tot + dict_total d /\
  keys_table (_session self') = write_balances d (keys_table (_session self)) /\
  transactions (_session self') = transactions (_session self) /\
  wallet_id self' = wallet_id self.
Proof.
  induction d as [|[i b] d IH]; intros tot self self' tot' H.
  - cbn in H. injection H as <- <-. unfold dict_total. cbn. repeat split. lia.
  - rewrite balances_loop_cons in H.
    destruct (scalar _) as [[key|]|e]; try discriminate.
    destruct (IH _ _ _ _ H) as (Ht & Hk & Htr & Hw). cbn in Hk, Htr, Hw.
    repeat split; try assumption. unfold dict_total in *. cbn. lia.
Qed.

(** *** The whole synchronization *)

Lemma set_transactions_same (db : Db) : set_transactions (transactions db) db = db.
Proof. now destruct db. Qed.

Lemma set_session_same (self : HDWallet HDKey) : set_session (_session self) self = self.
Proof. now destruct self. Qed.

(** The deletion that opens [updateutxos] selects no record. *)
Lemma updateutxos_deletes_nothing (account_id : option Z) (db : Db) :
  filter (fun t => spend_is_False
                   && existsb (fun k => (DbKey.id k =? DbTransaction.key_id t)
                                        && account_is account_id k) (keys_table db))
         (transactions db) = [].
Proof. induction (transactions db) as [|t ts IH]; [reflexivity | exact IH]. Qed.

Lemma updateutxos_unfold (account_id key_id : option Z) (self : HDWallet HDKey) :
  updateutxos account_id key_id self =
  match getutxos (network self) (addresslist self account_id key_id) with
  | Raise e => (Raise e, self)
  | Ok utxos =>
      match utxos_loop utxos [] 0 self with
      | (Raise e, s1) => (Raise e, s1)
      | (Ok (kb, _), s1) =>
          match balances_loop kb 0 s1 with
          | (Raise e, s2) => (Raise e, s2)
          | (Ok total, s2) =>
              (Ok tt,
               set_wallet_balance total
                 (set_session
                    (set_wallets (map (fun w => if DbWallet.id w =? wallet_id s2
                                                then DbWallet.set_balance total w
                                                else w) (wallets (_session s2)))
                                 (_session s2)) s2))
          end
      end
  end.
Proof.
  unfold updateutxos. unfold bind at 1, get. cbv zeta.
  rewrite updateutxos_deletes_nothing. cbn [existsb negb].
  rewrite filter_true, set_transactions_same.
  unfold bind at 1, put. rewrite set_session_same.
  unfold bind at 1. unfold bind at 1, lift.
  destruct (getutxos _ _) as [utxos|e]; [|reflexivity].
  unfold bind at 1. destruct (utxos_loop utxos [] 0 self) as [[[kb cnt]|e] s1]; [|reflexivity].
  unfold bind at 1. destruct (balances_loop kb 0 s1) as [[total|e] s2]; [|reflexivity].
  reflexivity.
Qed.

(** *** The synchronization returns *)

Lemma owner_id_scalar (ks : list DbKey.row) (a : string) (i : Z) :
  owner_id ks a = Some i ->
  exists k, scalar (filter (fun k => String.eqb (DbKey.address k) a) ks) = Ok (Some k)
            /\ DbKey.id k = i /\ In k ks.
Proof.
  unfold owner_id, scalar.
  destruct (filter _ ks) as [|k [|k' l]] eqn:E; try discriminate.
  intros [= <-]. exists k. repeat split.
  assert (In k [k]) as Hin by now left. rewrite <- E in Hin.
  apply filter_In in Hin. tauto.
Qed.

Lemma utxos_loop_total (utxos : list utxo) :
  forall (kb : list (Z * Z)) (cnt : Z) (self : HDWallet HDKey),
  Forall (fun au => owner_id (keys_table (_session self)) (fst au) <> None) utxos ->
  exists kb' cnt' self', utxos_loop utxos kb cnt self = (Ok (kb', cnt'), self').
Proof.
  induction utxos as [|[a u] rest IH]; intros kb cnt self Hall.
  - now exists kb, cnt, self.
  - inversion Hall as [|? ? Ha Hrest]; subst. cbn [fst] in Ha.
    destruct (owner_id (keys_table (_session self)) a) as [i|] eqn:Ho; [|congruence].
    destruct (owner_id_scalar _ _ _ Ho) as (k & Hk & _ & _).
    rewrite utxos_loop_cons, Hk. destruct (negb _); apply IH; assumption.
Qed.

Lemma filter_unique_id (ks : list DbKey.row) (k : DbKey.row) :
  NoDup (map DbKey.id ks) -> In k ks ->
  filter (fun r => DbKey.id r =? DbKey.id k) ks = [k].
Proof.
  induction ks as [|r ks IH]; intros Hnd Hin; [destruct Hin|].
  cbn [map] in Hnd. apply NoDup_cons_iff in Hnd. destruct Hnd as [Hr Hnd].
  cbn [filter]. destruct Hin as [->|Hin].
  - rewrite Z.eqb_refl. f_equal.
    clear IH Hnd. induction ks as [|r ks IH]; [reflexivity|]. cbn [filter].
    destruct (DbKey.id r =? DbKey.id k) eqn:E.
    + exfalso. apply Hr. left. now apply Z.eqb_eq.
    + apply IH. intros H. apply Hr. now right.
  - destruct (DbKey.id r =? DbKey.id k) eqn:E.
    + exfalso. apply Hr. apply Z.eqb_eq in E. rewrite E. now apply in_map.
    + now apply IH.
Qed.

Lemma balances_loop_total (d : list (Z * Z)) :
  forall (tot : Z) (self : HDWallet HDKey),
  NoDup (map DbKey.id (keys_table (_session self))) ->
  (forall i, In i (map fst d) -> In i (map DbKey.id (keys_table (_session self)))) ->
  exists tot' self', balances_loop d tot self = (Ok tot', self').
Proof.
  induction d as [|[i b] d IH]; intros tot self Hnd Hin.
  - now exists tot, self.
  - rewrite balances_loop_cons.
    assert (Hi : In i (map DbKey.id (keys_table (_session self)))) by (apply Hin; now left).
    apply in_map_iff in Hi. destruct Hi as (k & <- & Hk).
    rewrite (filter_unique_id _ k Hnd Hk). cbn [scalar].
    assert (Hids : forall ks,
               map DbKey.id (map (fun r => if DbKey.id r =? DbKey.id k
                                           then DbKey.set_balance b r else r) ks)
               = map DbKey.id ks).
    { intros ks. rewrite map_map. apply map_ext. intros r.
      now destruct (DbKey.id r =? DbKey.id k). }
    apply IH; cbn [_session set_session keys_table set_keys]; rewrite Hids.
    + assumption.
    + intros j Hj. apply Hin. now right.
Qed.

Lemma credit_keys (ks : list DbKey.row) (utxos : list utxo) :
  forall (d : list (Z * Z)) (i : Z),
  In i (map fst (credit ks d utxos)) ->
  In i (map fst d) \/ In i (map DbKey.id ks).
Proof.
  induction utxos as [|[a u] rest IH]; intros d i Hi; cbn [credit] in Hi; [now left|].
  apply IH in Hi. destruct Hi as [Hi|Hi]; [|now right].
  destruct (owner_id ks a) as [j|] eqn:Ho; [|now left].
  rewrite dict_add_keys in Hi.
  destruct (existsb (Z.eqb j) (map fst d)); [now left|].
  apply in_app_or in Hi. destruct Hi as [Hi|[<-|[]]]; [now left|].
  right. destruct (owner_id_scalar _ _ _ Ho) as (k & _ & <- & Hk). now apply in_map.
Qed.

(** X28. The synchronization returns when the chain service answers,
    every reported address is the address of one key, and the key ids
    are distinct. *)
Lemma updateutxos_returns (self : HDWallet HDKey) (account_id key_id : option Z)
      (utxos : list utxo) :
  getutxos (network self) (addresslist self account_id key_id) = Ok utxos ->
  Forall (fun au => owner_id (keys_table (_session self)) (fst au) <> None) utxos ->
  NoDup (map DbKey.id (keys_table (_session self))) ->
  exists self', updateutxos account_id key_id self = (Ok tt, self').
Proof.
  intros Hreply Hown Hnd. rewrite updateutxos_unfold, Hreply.
  destruct (utxos_loop_total utxos [] 0 self Hown) as (kb & cnt & s1 & Hloop).
  rewrite Hloop.
  destruct (utxos_loop_returns _ _ _ _ _ _ _ Hloop) as (Hk1 & _ & _ & Hkb & _).
  destruct (balances_loop_total kb 0 s1) as (total & s2 & Hbal).
  - now rewrite Hk1.
  - intros i Hi. rewrite Hkb in Hi. apply credit_keys in Hi.
    rewrite Hk1. destruct Hi as [[]|Hi]. exact Hi.
  - rewrite Hbal. eexists. reflexivity.
Qed.

(** C10. A synchronization that returns, on the outputs [utxos] that the
    chain service reports: (1) keeps every stored record and adds records
    whose transaction hashes were not stored and differ from one another,
    so that an output whose hash is stored, whatever its output index, is
    not recorded; (2) hence leaves at most one record per transaction hash
    when there was at most one; (3) sets the cached balance of every key
    that owns a reported address to the sum of the values of all the
    outputs reported for it, the skipped ones among them, and the balance
    of the wallet to the sum of all the reported values. *)
Theorem updateutxos_one_record_per_hash (self self' : HDWallet HDKey)
        (account_id key_id : option Z) (utxos : list utxo) :
  getutxos (network self) (addresslist self account_id key_id) = Ok utxos ->
  updateutxos account_id key_id self = (Ok tt, self') ->
  (exists new,
      transactions (_session self') = transactions (_session self) ++ new /\
      NoDup (map DbTransaction.tx_hash new) /\
      (forall t, In t new ->
         ~ In (DbTransaction.tx_hash t)
              (map DbTransaction.tx_hash (transactions (_session self)))) /\
      (forall t, In t new ->
         exists a u, In (a, u) utxos /\ DbTransaction.tx_hash t = DbTransaction.tx_hash u
                     /\ DbTransaction.output_n t = DbTransaction.output_n u
                     /\ DbTransaction.value t = DbTransaction.value u)) /\
  (NoDup (map DbTransaction.tx_hash (transactions (_session self))) ->
   NoDup (map DbTransaction.tx_hash (transactions (_session self')))) /\
  (forall i, (exists a u, In (a, u) utxos
                          /\ owner_id (keys_table (_session self)) a = Some i) ->
             forall k', In k' (keys_table (_session self')) -> DbKey.id k' = i ->
                        DbKey.balance k' = reported_for (keys_table (_session self)) i utxos) /\
  _balance self' = reported_total utxos.
Proof.
  intros Hreply H. rewrite updateutxos_unfold, Hreply in H.
  destruct (utxos_loop utxos [] 0 self) as [[[kb cnt]|e] s1] eqn:Hloop; [|discriminate].
  destruct (balances_loop kb 0 s1) as [[total|e] s2] eqn:Hbal; [|discriminate].
  injection H as <-.
  destruct (utxos_loop_returns _ _ _ _ _ _ _ Hloop)
    as (Hk1 & _ & _ & Hkb & Hown & new & Hts & Hnd & Hfresh & Hsrc).
  destruct (balances_loop_returns _ _ _ _ _ Hbal) as (Htot & Hk2 & Htr & _).
  cbn [_session set_wallet_balance set_session set_wallets transactions keys_table _balance].
  assert (Hledger : transactions (_session s2) = transactions (_session self) ++ new)
    by (now rewrite Htr).
  split; [|split; [|split]].
  - exists new. now repeat split.
  - intros Hold. rewrite Hledger, map_app. apply NoDup_app; [assumption | assumption |].
    intros h Hh1 Hh2. apply in_map_iff in Hh2. destruct Hh2 as (t & <- & Ht).
    now apply (Hfresh t Ht).
  - intros i Hi k' Hin Hid. rewrite Hk2, Hk1 in Hin.
    assert (Hget : dict_get i kb = Some (reported_for (keys_table (_session self)) i utxos)).
    { rewrite Hkb, credit_get by assumption. cbn. f_equal. }
    apply dict_get_In in Hget.
    eapply write_balances_balance; [|exact Hget|exact Hin|exact Hid].
    rewrite Hkb. apply credit_NoDup. constructor.
  - rewrite Htot, Hkb, credit_total by assumption. unfold dict_total. cbn. lia.
Qed.

End UpdateUtxos.

Section UpdateUtxosExamples.
Import Examples Funded.

Lemma updateutxos_one_record_per_hash_witness :
  map (fun t => (DbTransaction.tx_hash t, DbTransaction.output_n t))
      (transactions (_session funded)) = [("aa", 0)] /\
  NoDup (map DbTransaction.tx_hash (transactions (_session funded))) /\
  (forall k', In k' (keys_table (_session funded)) -> DbKey.id k' = 7 ->
              DbKey.balance k' = 150007) /\
  _balance funded = 150007.
Proof.
  assert (Hreply : getutxos (ext := E reply) (network before_sync)
                            (addresslist before_sync None None) = Ok reply)
    by reflexivity.
  assert (Hrun : updateutxos (ext := E reply) None None before_sync = (Ok tt, funded))
    by (vm_compute; reflexivity).
  destruct (updateutxos_one_record_per_hash (ext := E reply) before_sync funded None None reply
              Hreply Hrun)
    as (_ & Hnodup & Hkey & Hwallet).
  split; [vm_compute; reflexivity|]. split; [|split].
  - apply Hnodup. constructor.
  - intros k' Hin Hid. rewrite (Hkey 7); [reflexivity| |assumption|assumption].
    exists "addr:seed/44'/0'/0'/0/0", (unspent_record 0 0 "aa" 0 150000).
    split; [now left | vm_compute; reflexivity].
  - rewrite Hwallet. reflexivity.
Defined.

End UpdateUtxosExamples.

(* ------------------------------------------------------------------ *)
(** ** Strict paths *)

Section KeyForPath.
Context {HDKey : Type} {ext : Externals HDKey}.

(** A path that the validation rejects creates nothing: the exception
    leaves [key_for_path] before the database is read. *)
Lemma key_for_path_strict_raises (self : HDWallet HDKey) (path name : string)
      (account_id change : Z) (e : exn) :
  validate_key_path self path = Raise e ->
  key_for_path path name account_id change false self = (Raise e, self).
Proof.
  intros H. unfold key_for_path. unfold bind at 1, get. cbn [negb].
  unfold bind at 1, lift. now rewrite H.
Qed.

Lemma validate_purpose_mismatch (self : HDWallet HDKey) (path : string) (pd : pathdict) (p : Z) :
  parse_bip44_path path = Ok pd ->
  path_field_int (pd_purpose pd) = Ok p ->
  p <> purpose self ->
  validate_key_path self path = Raise (WalletError PurposeMismatch).
Proof.
  intros Hpd Hp Hne. unfold validate_key_path. rewrite Hpd, Hp.
  apply Z.eqb_neq in Hne. now rewrite Hne.
Qed.

Lemma validate_cointype_mismatch (self : HDWallet HDKey) (path : string) (pd : pathdict)
      (c : Z) :
  parse_bip44_path path = Ok pd ->
  path_field_int (pd_purpose pd) = Ok (purpose self) ->
  path_field_int (pd_cointype pd) = Ok c ->
  c <> bip44_cointype (network self) ->
  validate_key_path self path = Raise (WalletError CointypeMismatch).
Proof.
  intros Hpd Hp Hc Hne. unfold validate_key_path. rewrite Hpd, Hp, Z.eqb_refl, Hc.
  apply Z.eqb_neq in Hne. now rewrite Hne.
Qed.

(** With the three segments present, one of them without the marker is
    rejected as unhardened. *)
Lemma validate_unhardened (self : HDWallet HDKey) (path : string) (pd : pathdict)
      (c1 c2 c3 : ascii) :
  parse_bip44_path path = Ok pd ->
  path_field_int (pd_purpose pd) = Ok (purpose self) ->
  path_field_int (pd_cointype pd) = Ok (bip44_cointype (network self)) ->
  Py.last_char (pd_cointype pd) = Some c1 ->
  Py.last_char (pd_purpose pd) = Some c2 ->
  Py.last_char (pd_account pd) = Some c3 ->
  ~ (c1 = "'"%char /\ c2 = "'"%char /\ c3 = "'"%char) ->
  validate_key_path self path = Raise (WalletError UnhardenedPath).
Proof.
  intros Hpd Hp Hc H1 H2 H3 Hne. unfold validate_key_path, not_hardened.
  rewrite Hpd, Hp, Z.eqb_refl, Hc, Z.eqb_refl, H1, H2, H3. cbn [negb].
  destruct (Ascii.eqb_spec c1 "'"); [|reflexivity].
  destruct (Ascii.eqb_spec c2 "'"); [|reflexivity].
  destruct (Ascii.eqb_spec c3 "'"); [|reflexivity].
  tauto.
Qed.

(** With a hardened purpose and coin type and no account segment, the
    test of the account segment indexes the empty string. *)
Lemma validate_missing_account (self : HDWallet HDKey) (path : string) (pd : pathdict) :
  parse_bip44_path path = Ok pd ->
  path_field_int (pd_purpose pd) = Ok (purpose self) ->
  path_field_int (pd_cointype pd) = Ok (bip44_cointype (network self)) ->
  Py.last_char (pd_cointype pd) = Some "'"%char ->
  Py.last_char (pd_purpose pd) = Some "'"%char ->
  pd_account pd = "" ->
  validate_key_path self path = Raise IndexError.
Proof.
  intros Hpd Hp Hc H1 H2 H3. unfold validate_key_path, not_hardened.
  rewrite Hpd, Hp, Z.eqb_refl, Hc, Z.eqb_refl, H1, H2, H3. reflexivity.
Qed.

End KeyForPath.

Section KeyForPathExamples.
Import Examples Derived.

(** C6 at its failing inputs, on the wallet [wallet] (purpose 44, coin
    type 0).  The path [m/44'/0'] has no account segment: the strict check
    ends in IndexError, not in the UnhardenedPath error.  The purpose [x]
    of [m/x/0'/0'] differs from 44: the check ends in ValueError, not in
    PurposeMismatch.  Neither call creates a key; the other rejections are
    the ones of the claim. *)
Theorem key_for_path_strict_crashes :
  key_for_path (ext := E []) "m/44'/0'" "" 0 0 false wallet = (Raise IndexError, wallet) /\
  key_for_path (ext := E []) "m/x/0'/0'" "" 0 0 false wallet = (Raise ValueError, wallet) /\
  key_for_path (ext := E []) "m/45'/0'/0'" "" 0 0 false wallet
    = (Raise (WalletError PurposeMismatch), wallet) /\
  key_for_path (ext := E []) "m/44'/1'/0'" "" 0 0 false wallet
    = (Raise (WalletError CointypeMismatch), wallet) /\
  key_for_path (ext := E []) "m/44'/0'/0" "" 0 0 false wallet
    = (Raise (WalletError UnhardenedPath), wallet).
Proof.
  repeat split; apply key_for_path_strict_raises; vm_compute; reflexivity.
Qed.

End KeyForPathExamples.

(* ------------------------------------------------------------------ *)
(** ** The key tree *)

Section KeyTree.
Context {HDKey : Type} {ext : Externals HDKey}.

(** [from_key] on a key object, step by step. *)
Lemma from_key_object_steps (name : string) (wid : Z) (k : HDKey) (account_id : option Z)
      (nw : option string) (change purpose parent_id : Z) (path : string) (db : Db) :
  from_key name wid "" (Some k) account_id nw change purpose parent_id path db =
  match first (filter (fun r => String.eqb (DbKey.key_wif r) (extended_wif k))
                      (keys_table db)) with
  | Some keyexists => (HDWalletKey_init (DbKey.id keyexists) (Some k) db, db)
  | None =>
      match registered_path k account_id nw purpose path with
      | Raise e => (Raise e, db)
      | Ok path' =>
          match first (filter (fun r => String.eqb (DbKey.key r) (key_hex k)
                                        || String.eqb (DbKey.key_wif r) (extended_wif k))
                              (keys_table db)) with
          | Some wk => (HDWalletKey_init (DbKey.id wk) (Some k) db, db)
          | None =>
              let nk := key_row k name wid account_id change purpose parent_id path' db in
              let db' := set_keys (keys_table db ++ [nk])%list db in
              (HDWalletKey_init (DbKey.id nk) (Some k) db', db')
          end
      end
  end.
Proof.
  unfold from_key. unfold bind at 1, lift at 1. unfold bind at 1, get.
  destruct (first _) as [keyexists|]; [reflexivity|].
  unfold bind at 1, lift at 1. fold (registered_path k account_id nw purpose path).
  destruct (registered_path k account_id nw purpose path) as [path'|e]; [|reflexivity].
  destruct (first _) as [wk|]; [reflexivity|].
  reflexivity.
Qed.

(** A key whose serialized form is registered is not registered again:
    the node of the first row that has it is returned. *)
Lemma from_key_known (name : string) (wid : Z) (k : HDKey) (account_id : option Z)
      (nw : option string) (change purpose parent_id : Z) (path : string) (db : Db)
      (r : DbKey.row) :
  first (filter (fun r => String.eqb (DbKey.key_wif r) (extended_wif k)) (keys_table db))
    = Some r ->
  from_key name wid "" (Some k) account_id nw change purpose parent_id path db
    = (HDWalletKey_init (DbKey.id r) (Some k) db, db).
Proof. intros H. now rewrite from_key_object_steps, H. Qed.


(** The row that a registration adds carries the [parent_id] it was
    given. *)
Lemma from_key_parent_id (name : string) (wid : Z) (k : HDKey) (account_id : option Z)
      (nw : option string) (change purpose parent_id : Z) (path : string)
      (db db' : Db) (wk : HDWalletKey HDKey) :
  from_key name wid "" (Some k) account_id nw change purpose parent_id path db = (Ok wk, db') ->
  db' = db \/
  exists nk, keys_table db' = (keys_table db ++ [nk])%list /\ DbKey.parent_id nk = parent_id
             /\ DbKey.key_wif nk = extended_wif k /\ DbKey.id nk = key_id wk.
Proof.
  rewrite from_key_object_steps.
  destruct (first _) as [keyexists|]; [intros [= _ <-]; now left|].
  destruct (registered_path k account_id nw purpose path) as [path'|e]; [|discriminate].
  destruct (first _) as [wk0|]; [intros [= _ <-]; now left|].
  cbv zeta. intros [= Hi <-]. right.
  exists (key_row k name wid account_id change purpose parent_id path' db).
  repeat split. unfold HDWalletKey_init in Hi.
  destruct (first (filter _ _)) as [row|] eqn:Er; [|discriminate].
  destruct (first (filter _ (wallets _))); [|discriminate].
  injection Hi as <-. unfold key_id. cbn [_dbkey].
  unfold first in Er.
  destruct (filter _ _) as [|row0 l] eqn:Ef; [discriminate|]. cbn in Er. injection Er as ->.
  assert (In row (row :: l)) as Hin by now left. rewrite <- Ef in Hin.
  apply filter_In in Hin. destruct Hin as [_ Hid]. apply Z.eqb_eq in Hid. now rewrite Hid.
Qed.

(** One derivation step from the node [parent], when the closest
    ancestor of the new path is the base path itself. *)
Lemma create_keys_single_step (parent : HDWalletKey HDKey) (seg : string) (wid : Z)
      (account_id : option Z) (nw name basepath : string) (change purpose : Z)
      (self : HDWallet HDKey) :
  (forall r, closest_ancestor wid (with_slash basepath ++ seg) (_session self) = Some r ->
             DbKey.path r = with_slash basepath
             \/ DbKey.path r = Py.but_last (with_slash basepath)) ->
  _create_keys_from_path parent [seg] wid account_id nw name basepath change purpose self =
  match hdkey parent with
  | Raise e => (Raise e, self)
  | Ok ck0 =>
      match subkey_for_path ck0 seg with
      | Raise e => (Raise e, self)
      | Ok ck =>
          match from_key name wid "" (Some ck) account_id (Some nw) change purpose 0
                         (with_slash basepath ++ seg) (_session self) with
          | (Raise e, db) => (Raise e, set_session db self)
          | (Ok nk, db) =>
              (Ok nk, set_key_objects ((key_id nk, nk) :: _key_objects (set_session db self))
                                      (set_session db self))
          end
      end
  end.
Proof.
  intros Hroot. unfold _create_keys_from_path. fold (with_slash basepath).
  unfold bind at 1, lift at 1.
  destruct (hdkey parent) as [ck0|e]; [|reflexivity].
  unfold bind at 1, get. cbn [Py.join].
  assert (Hno : match closest_ancestor wid (with_slash basepath ++ seg) (_session self) with
                | Some r => negb (String.eqb (DbKey.path r) (with_slash basepath)
                                  || String.eqb (DbKey.path r)
                                                (Py.but_last (with_slash basepath)))
                | None => false
                end = false).
  { destruct (closest_ancestor _ _ _) as [r|] eqn:Er; [|reflexivity].
    destruct (Hroot r eq_refl) as [-> | ->].
    - now rewrite String.eqb_refl.
    - rewrite String.eqb_refl. now rewrite orb_true_r. }
  assert (Hpre :
    (match closest_ancestor wid (with_slash basepath ++ seg) (_session self) with
     | Some r =>
         if match closest_ancestor wid (with_slash basepath ++ seg) (_session self) with
            | Some r => negb (String.eqb (DbKey.path r) (with_slash basepath)
                              || String.eqb (DbKey.path r)
                                            (Py.but_last (with_slash basepath)))
            | None => false
            end
         then
           (bind (key (TermNum (DbKey.id r)))
              (fun nk => bind (lift (hdkey nk))
                 (fun ck => ret (Py.split "/" (Py.replace (DbKey.path r ++ "/") ""
                                                 (with_slash basepath ++ seg)),
                                 DbKey.path r ++ "/", nk, ck))))
         else ret ([seg], with_slash basepath, parent, ck0)
     | None => ret ([seg], with_slash basepath, parent, ck0)
     end) self = (Ok ([seg], with_slash basepath, parent, ck0), self)).
  { rewrite Hno. now destruct (closest_ancestor _ _ _). }
  unfold bind at 1. rewrite Hpre. cbn [create_keys_loop app Py.join].
  unfold bind at 1, lift at 1.
  destruct (subkey_for_path ck0 seg) as [ck|e]; [|reflexivity].
  unfold bind at 1, on_session, from_key_object.
  destruct (from_key _ _ _ _ _ _ _ _ _ _ _) as [[nk|e] db]; [|reflexivity].
  reflexivity.
Qed.

(** The node that one derivation step adds has parent id 0, whatever
    the id of the node it is derived from. *)
Lemma create_keys_single_step_parent_id (parent nk : HDWalletKey HDKey) (seg : string)
      (wid : Z) (account_id : option Z) (nw name basepath : string) (change purpose : Z)
      (self self' : HDWallet HDKey) :
  (forall r, closest_ancestor wid (with_slash basepath ++ seg) (_session self) = Some r ->
             DbKey.path r = with_slash basepath
             \/ DbKey.path r = Py.but_last (with_slash basepath)) ->
  _create_keys_from_path parent [seg] wid account_id nw name basepath change purpose self
    = (Ok nk, self') ->
  _session self' = _session self \/
  exists ck0 ck row,
    hdkey parent = Ok ck0 /\ subkey_for_path ck0 seg = Ok ck /\
    keys_table (_session self') = (keys_table (_session self) ++ [row])%list /\
    DbKey.key_wif row = extended_wif ck /\ DbKey.id row = key_id nk /\
    DbKey.parent_id row = 0.
Proof.
  intros Hroot. rewrite create_keys_single_step by assumption.
  destruct (hdkey parent) as [ck0|e]; [|discriminate].
  destruct (subkey_for_path ck0 seg) as [ck|e] eqn:Hck; [|discriminate].
  destruct (from_key _ _ _ _ _ _ _ _ _ _ _) as [[nk0|e] db] eqn:Hfk; [|discriminate].
  intros [= <- <-]. cbn [_session set_key_objects set_session].
  destruct (from_key_parent_id _ _ _ _ _ _ _ _ _ _ _ _ Hfk) as [->|(row & Hk & Hp & Hw & Hi)].
  - now left.
  - right. exists ck0, ck, row. repeat split; assumption.
Qed.

(** A string shorter than [old] has no occurrence of it to replace. *)
Lemma prefix_length (old s : string) :
  String.prefix old s = true -> (String.length old <= String.length s)%nat.
Proof.
  revert s. induction old as [|a old IH]; intros s H; cbn; [lia|].
  destruct s as [|b s]; [discriminate|]. cbn in H.
  destruct (Ascii.ascii_dec a b); [|discriminate].
  specialize (IH s H). cbn. lia.
Qed.

Lemma replace_shorter (old new s : string) :
  (String.length s < String.length old)%nat -> Py.replace old new s = s.
Proof.
  unfold Py.replace. induction s as [|a s IH]; intros H; [reflexivity|].
  cbn [Py.replace_go].
  destruct (String.prefix old (String a s)) eqn:E.
  - apply prefix_length in E. lia.
  - rewrite IH; [reflexivity|]. cbn in H. lia.
Qed.

Lemma length_append (s1 s2 : string) :
  String.length (s1 ++ s2) = (String.length s1 + String.length s2)%nat.
Proof. induction s1 as [|a s1 IH]; cbn; [reflexivity | now rewrite IH]. Qed.

Lemma replace_own_prefix (p : string) : Py.replace (p ++ "/") "" p = p.
Proof. apply replace_shorter. rewrite length_append. cbn. lia. Qed.

(** [HDWallet.key] reads, and leaves the wallet object as it is. *)
Lemma key_reads (t : term) (self : HDWallet HDKey) : snd (key t self) = self.
Proof.
  unfold key. unfold bind at 1, get. unfold bind at 1, lift at 1.
  destruct (match t with TermNum _ => _ | TermStr _ => _ end) as [dbkey|e]; [|reflexivity].
  destruct (or_else _ _) as [d|]; [|reflexivity].
  destruct (dict_get _ _); reflexivity.
Qed.

(** The chain asked for a path whose node exists does not return that
    node: it re-roots at it and takes the whole path, from its first
    level on, as the levels still to derive from it. *)
Lemma create_keys_on_existing_path (parent nk : HDWalletKey HDKey) (path : list string)
      (wid : Z) (account_id : option Z) (nw name basepath : string) (change purpose : Z)
      (self : HDWallet HDKey) (r : DbKey.row) (ck0 ck : HDKey) :
  closest_ancestor wid (with_slash basepath ++ Py.join "/" path) (_session self) = Some r ->
  DbKey.path r = with_slash basepath ++ Py.join "/" path ->
  DbKey.path r <> with_slash basepath ->
  DbKey.path r <> Py.but_last (with_slash basepath) ->
  hdkey parent = Ok ck0 ->
  fst (key (TermNum (DbKey.id r)) self) = Ok nk ->
  hdkey nk = Ok ck ->
  _create_keys_from_path parent path wid account_id nw name basepath change purpose self
  = create_keys_loop wid account_id nw name (DbKey.path r ++ "/") change purpose
                     [] (Py.split "/" (DbKey.path r)) 0 ck nk self.
Proof.
  intros Hc Hp Hn1 Hn2 Hk0 Hkey Hk.
  unfold _create_keys_from_path. fold (with_slash basepath).
  unfold bind at 1, lift at 1. rewrite Hk0.
  unfold bind at 1, get. rewrite Hc.
  apply String.eqb_neq in Hn1, Hn2. rewrite Hn1, Hn2. cbn [orb negb].
  unfold bind at 1. unfold bind at 1.
  pose proof (key_reads (TermNum (DbKey.id r)) self) as Hs.
  destruct (key (TermNum (DbKey.id r)) self) as [res s']. cbn in Hkey, Hs. subst res s'.
  unfold bind at 1, lift at 1. rewrite Hk. unfold ret.
  rewrite <- Hp, replace_own_prefix. reflexivity.
Qed.

(** [key_for_path] on a path given with other hardening markers than the
    stored ones: the node found for the normalized path is not returned,
    the chain is run for the whole normalized path below that node. *)
Lemma key_for_path_on_existing_node (self : HDWallet HDKey) (path name spath : string)
      (account_id change : Z) (disable_check : bool) (rkey : DbKey.row) :
  (disable_check = false -> validate_key_path self path = Ok tt) ->
  normalize_path path = Ok spath ->
  closest_ancestor (wallet_id self) spath (_session self) = Some rkey ->
  DbKey.path rkey = spath ->
  spath <> path ->
  key_for_path path name account_id change disable_check self
  = bind (if negb (String.eqb (DbKey.key_wif (_dbkey (main_key self))) (DbKey.key_wif rkey))
          then key (TermNum (DbKey.id rkey))
          else ret (main_key self))
         (fun parent_key =>
            _create_keys_from_path parent_key (Py.split "/" spath) (wallet_id self)
              (Some account_id) (network self)
              (if String.eqb name "" then _name self else name)
              spath change (purpose self)) self.
Proof.
  intros Hv Hn Hc Hp Hne. unfold key_for_path. unfold bind at 1, get.
  assert (Hcheck : (if negb disable_check then lift (validate_key_path self path) else ret tt)
                     self = (Ok tt, self)).
  { destruct disable_check; [reflexivity|]. cbn [negb]. unfold lift. now rewrite Hv. }
  unfold bind at 1. rewrite Hcheck. unfold bind at 1, lift at 1. rewrite Hn, Hc.
  rewrite Hp. apply String.eqb_neq in Hne. rewrite Hne.
  unfold bind at 1, lift at 1. rewrite replace_own_prefix. reflexivity.
Qed.

(** [closest_ancestor] is the loop of the source: the loop on the string
    does what [walk_up] does on the list of its segments, and as many
    rounds as the path has segments are enough. *)
Lemma walk_up_is_loop (wid : Z) (db : Db) (l : list string) :
  Forall sep_free l ->
  walk_up wid db (rev l) = ancestor_loop (List.length l) wid db (Py.join "/" l).
Proof.
  induction l as [|x l IH] using rev_ind; intros Hf; [reflexivity|].
  rewrite rev_unit, length_app, Nat.add_comm. cbn [List.length Nat.add].
  cbn [walk_up ancestor_loop]. rewrite <- (rev_unit l x), rev_involutive.
  destruct (String.eqb (Py.join "/" (l ++ [x])%list) ""); [reflexivity|].
  destruct (key_at_path wid (Py.join "/" (l ++ [x])%list) db); [reflexivity|].
  apply Forall_app in Hf as Hf'. destruct Hf' as [Hl _].
  rewrite split_join; [|now destruct l|assumption].
  unfold Py.list_but_last. rewrite removelast_last. now apply IH.
Qed.

Lemma ancestor_loop_enough (wid : Z) (db : Db) (l : list string) (n : nat) :
  Forall sep_free l ->
  ancestor_loop (n + List.length l) wid db (Py.join "/" l)
  = ancestor_loop (List.length l) wid db (Py.join "/" l).
Proof.
  induction l as [|x l IH] using rev_ind; intros Hf.
  - cbn. rewrite Nat.add_0_r. now destruct n.
  - rewrite length_app. cbn [List.length]. rewrite (Nat.add_comm (List.length l) 1).
    rewrite Nat.add_succ_r. cbn [Nat.add ancestor_loop].
    destruct (String.eqb (Py.join "/" (l ++ [x])%list) ""); [reflexivity|].
    destruct (key_at_path wid (Py.join "/" (l ++ [x])%list) db); [reflexivity|].
    apply Forall_app in Hf as Hf'. destruct Hf' as [Hl _].
    rewrite split_join; [|now destruct l|assumption].
    unfold Py.list_but_last. rewrite removelast_last. now apply IH.
Qed.

Lemma closest_ancestor_is_loop (wid : Z) (db : Db) (spath : string) (n : nat) :
  closest_ancestor wid spath db
  = ancestor_loop (n + List.length (Py.split "/" spath)) wid db spath.
Proof.
  unfold closest_ancestor. rewrite walk_up_is_loop by apply split_sep_free.
  rewrite <- (ancestor_loop_enough wid db _ n) by apply split_sep_free.
  now rewrite join_split.
Qed.

(** [key_for_path] on a path whose node is found under the very string
    given returns that node. *)
Lemma key_for_path_existing (self : HDWallet HDKey) (path name spath : string)
      (account_id change : Z) (disable_check : bool) (rkey : DbKey.row) :
  (disable_check = false -> validate_key_path self path = Ok tt) ->
  normalize_path path = Ok spath ->
  closest_ancestor (wallet_id self) spath (_session self) = Some rkey ->
  DbKey.path rkey = path ->
  key_for_path path name account_id change disable_check self
    = key (TermNum (DbKey.id rkey)) self.
Proof.
  intros Hv Hn Hc Hp. unfold key_for_path. unfold bind at 1, get.
  assert (Hcheck : (if negb disable_check then lift (validate_key_path self path) else ret tt)
                     self = (Ok tt, self)).
  { destruct disable_check; [reflexivity|]. cbn [negb]. unfold lift. now rewrite Hv. }
  unfold bind at 1. rewrite Hcheck. unfold bind at 1, lift at 1. rewrite Hn, Hc.
  rewrite Hp, String.eqb_refl. reflexivity.
Qed.

End KeyTree.

(* ------------------------------------------------------------------ *)
(** ** Accounts *)

Section Accounts.
Context {HDKey : Type} {ext : Externals HDKey}.

(** [keys] with an account id keeps the rows deeper than 3, so that the
    rows of depth 3 of an account are never listed. *)
Lemma keys_account_depth_3 (self : HDWallet HDKey) (account_id : Z)
      (name : option string) (key_id change : option Z) :
  keys self (Some account_id) name key_id change (Some 3) = [].
Proof.
  unfold keys.
  set (q0 := filter (fun k => (DbKey.wallet_id k =? wallet_id self)
                              && (DbKey.purpose k =? purpose self))
                    (keys_table (_session self))).
  set (q1 := filter (fun k => DbKey.depth k >? 3)
                    (filter (fun k => col_eq (DbKey.account_id k) account_id) q0)).
  assert (H1 : forall k, In k q1 -> DbKey.depth k > 3).
  { intros k Hk. apply filter_In in Hk. destruct Hk as [_ Hk]. now apply Z.gtb_gt. }
  set (q2 := match change with
             | Some c => filter (fun k => DbKey.depth k >? 4)
                           (filter (fun k => DbKey.change k =? c) q1)
             | None => q1
             end).
  assert (H2 : forall k, In k q2 -> DbKey.depth k > 3).
  { intros k Hk. apply H1. unfold q2 in Hk. destruct change; [|assumption].
    apply filter_In in Hk. destruct Hk as [Hk _]. apply filter_In in Hk. tauto. }
  assert (H3 : filter (fun k => DbKey.depth k =? 3) q2 = []).
  { clearbody q2. clear - H2. induction q2 as [|k q IH]; [reflexivity|]. cbn.
    assert (DbKey.depth k > 3) by (apply H2; now left).
    destruct (DbKey.depth k =? 3) eqn:E; [apply Z.eqb_eq in E; lia|].
    apply IH. intros k' Hk'. apply H2. now right. }
  rewrite H3. destruct name, key_id; reflexivity.
Qed.

(** Without a row for the wallet and its purpose, the omitted account id
    is read from [None]. *)
Lemma new_account_no_keys (self : HDWallet HDKey) (name : string) :
  filter (fun k => (DbKey.wallet_id k =? wallet_id self) && (DbKey.purpose k =? purpose self))
         (keys_table (_session self)) = [] ->
  new_account name None self = (Raise AttributeError, self).
Proof.
  intros H. unfold new_account. unfold bind at 1, get. now rewrite H.
Qed.

Lemma null_geb_total (a b : option Z) : null_geb a b = false -> null_geb b a = true.
Proof.
  destruct a as [x|], b as [y|]; cbn; try congruence.
  rewrite !Z.geb_leb. intros H. apply Z.leb_gt in H. apply Z.leb_le. lia.
Qed.

Lemma null_geb_trans (a b c : option Z) :
  null_geb a b = true -> null_geb b c = true -> null_geb a c = true.
Proof.
  destruct a as [x|], b as [y|], c as [z|]; cbn; try congruence.
  rewrite !Z.geb_le. lia.
Qed.

(** With rows for the wallet and its purpose, the omitted account id is
    one more than the largest account id of these rows: the call is the
    call with that id. *)
Lemma new_account_omitted_id (self : HDWallet HDKey) (name : string)
      (last : DbKey.row) (m : Z) :
  let rows := filter (fun k => (DbKey.wallet_id k =? wallet_id self)
                               && (DbKey.purpose k =? purpose self))
                     (keys_table (_session self)) in
  first (order_by_desc_nullable DbKey.account_id rows) = Some last ->
  DbKey.account_id last = Some m ->
  In last rows /\
  (forall r a, In r rows -> DbKey.account_id r = Some a -> a <= m) /\
  new_account name None self = new_account name (Some (m + 1)) self.
Proof.
  intros rows Hfirst Hm.
  destruct (first_sort_by (fun x y => null_geb (DbKey.account_id x) (DbKey.account_id y))
                          rows last) as [Hin Hmax].
  - intros x y. apply null_geb_total.
  - intros x y z. apply null_geb_trans.
  - exact Hfirst.
  - split; [exact Hin|]. split.
    + intros r a Hr Ha. specialize (Hmax r Hr). rewrite Hm, Ha in Hmax. cbn in Hmax.
      apply Z.geb_le in Hmax. lia.
    + unfold new_account. unfold bind at 1 3, get. fold rows. rewrite Hfirst, Hm.
      reflexivity.
Qed.

End Accounts.

(** *** No AccountExists *)

Section NoAccountExists.
Context {HDKey : Type} {ext : Externals HDKey}.
Context {S : Type}.

Lemma no_AE_ret {A} (a : A) : no_AccountExists (ret (S := S) a).
Proof. intros s. discriminate. Qed.

Lemma no_AE_get : no_AccountExists (get (S := S)).
Proof. intros s. discriminate. Qed.

Lemma no_AE_put (s0 : S) : no_AccountExists (put s0).
Proof. intros s. discriminate. Qed.

Lemma no_AE_raise {A} (e : exn) :
  e <> WalletError AccountExists -> no_AccountExists (raise (S := S) (A := A) e).
Proof. intros H s. cbn. congruence. Qed.

Lemma no_AE_lift {A} (r : result A) :
  r <> Raise (WalletError AccountExists) -> no_AccountExists (lift (S := S) r).
Proof. intros H s. exact H. Qed.

Lemma no_AE_bind {A B} (m : SE S A) (k : A -> SE S B) :
  no_AccountExists m -> (forall a, no_AccountExists (k a)) -> no_AccountExists (bind m k).
Proof.
  intros Hm Hk s. unfold bind. specialize (Hm s).
  destruct (m s) as [[a|e] s']; [apply Hk|]. cbn in *.
  intros [= ->]. now apply Hm.
Qed.

Lemma external_no_AE {A} (r : option A) : external r <> Raise (WalletError AccountExists).
Proof. destruct r; discriminate. Qed.

Lemma scalar_no_AE {A} (q : list A) : scalar q <> Raise (WalletError AccountExists).
Proof. destruct q as [|x [|y q]]; discriminate. Qed.

End NoAccountExists.

Section NoAccountExistsWallet.
Context {HDKey : Type} {ext : Externals HDKey}.

Lemma HDWalletKey_init_no_AE (i : Z) (o : option HDKey) (db : Db) :
  HDWalletKey_init i o db <> Raise (WalletError AccountExists).
Proof.
  unfold HDWalletKey_init. destruct (first _); [|discriminate].
  destruct (first _); discriminate.
Qed.

Lemma hdkey_no_AE (k : HDWalletKey HDKey) : hdkey k <> Raise (WalletError AccountExists).
Proof. unfold hdkey. destruct (_hdkey_object k); [discriminate | apply external_no_AE]. Qed.

Lemma registered_path_no_AE (k : HDKey) (account_id : option Z) (nw : option string)
      (purpose : Z) (path : string) :
  registered_path k account_id nw purpose path <> Raise (WalletError AccountExists).
Proof.
  unfold registered_path, account_path.
  destruct (negb _); [|discriminate].
  destruct (_ && _); [|discriminate].
  destruct nw; [|discriminate]. destruct account_id; discriminate.
Qed.

Lemma from_key_no_AE (name : string) (wid : Z) (k : HDKey) (account_id : option Z)
      (nw : option string) (change purpose parent_id : Z) (path : string) :
  no_AccountExists (from_key name wid "" (Some k) account_id nw change purpose parent_id path).
Proof.
  intros db. rewrite from_key_object_steps.
  destruct (first _); [apply HDWalletKey_init_no_AE|].
  pose proof (registered_path_no_AE k account_id nw purpose path) as Hp.
  destruct (registered_path _ _ _ _ _) as [path'|e].
  - destruct (first _); apply HDWalletKey_init_no_AE.
  - cbn [fst]. intros [= ->]. now apply Hp.
Qed.

Lemma on_session_no_AE {A} (m : SE Db A) :
  no_AccountExists m -> no_AccountExists (on_session (HDKey := HDKey) m).
Proof.
  intros H self. unfold on_session. specialize (H (_session self)).
  now destruct (m (_session self)).
Qed.

Lemma key_no_AE (t : term) : no_AccountExists (key (HDKey := HDKey) t).
Proof.
  unfold key. apply no_AE_bind; [apply no_AE_get | intros self].
  apply no_AE_bind.
  - apply no_AE_lift. destruct t; [apply scalar_no_AE | discriminate].
  - intros dbkey. destruct (or_else _ _) as [d|]; [|apply no_AE_raise; discriminate].
    destruct (dict_get _ _); [apply no_AE_ret|].
    apply no_AE_lift, HDWalletKey_init_no_AE.
Qed.

Lemma create_keys_loop_no_AE (wid : Z) (account_id : option Z) (nw name basepath : string)
      (change purpose : Z) (todo : list string) :
  forall (done : list string) (parent_id : Z) (ck : HDKey) (nk : HDWalletKey HDKey),
  no_AccountExists
    (create_keys_loop wid account_id nw name basepath change purpose done todo
                      parent_id ck nk).
Proof.
  induction todo as [|seg todo IH]; intros done parent_id ck nk; cbn [create_keys_loop].
  - apply no_AE_ret.
  - apply no_AE_bind; [apply no_AE_lift, external_no_AE | intros ck'].
    apply no_AE_bind; [apply on_session_no_AE, from_key_no_AE | intros nk'].
    apply no_AE_bind; [apply no_AE_get | intros self].
    apply no_AE_bind; [apply no_AE_put | intros _]. apply IH.
Qed.

Lemma create_keys_from_path_no_AE (parent : HDWalletKey HDKey) (path : list string)
      (wid : Z) (account_id : option Z) (nw name basepath : string) (change purpose : Z) :
  no_AccountExists
    (_create_keys_from_path parent path wid account_id nw name basepath change purpose).
Proof.
  unfold _create_keys_from_path.
  apply no_AE_bind; [apply no_AE_lift, hdkey_no_AE | intros ck].
  apply no_AE_bind; [apply no_AE_get | intros self].
  apply no_AE_bind.
  - destruct (closest_ancestor _ _ _) as [r|]; [|apply no_AE_ret].
    destruct (negb _); [|apply no_AE_ret].
    apply no_AE_bind; [apply key_no_AE | intros nk].
    apply no_AE_bind; [apply no_AE_lift, hdkey_no_AE | intros ck']. apply no_AE_ret.
  - intros [[[path' basepath'] nk] ck']. apply create_keys_loop_no_AE.
Qed.

(** [new_account] with an account id never ends in AccountExists,
    whether the account exists or not. *)
Lemma new_account_no_AE (name : string) (account_id : Z) :
  no_AccountExists (new_account (HDKey := HDKey) name (Some account_id)).
Proof.
  unfold new_account.
  apply no_AE_bind; [apply no_AE_get | intros self].
  apply no_AE_bind; [apply no_AE_ret | intros a].
  rewrite keys_account_depth_3.
  apply no_AE_bind; [apply no_AE_lift, scalar_no_AE | intros accrootkey].
  destruct accrootkey as [accrootkey|]; [|apply no_AE_raise; discriminate].
  apply no_AE_bind; [apply key_no_AE | intros accrootkey_obj].
  apply no_AE_bind; [apply create_keys_from_path_no_AE | intros acckey].
  apply no_AE_bind; [apply create_keys_from_path_no_AE | intros _].
  apply no_AE_bind; [apply create_keys_from_path_no_AE | intros _].
  apply no_AE_ret.
Qed.

End NoAccountExistsWallet.

Section AccountsExamples.
Import Examples Orphan Derived.

(** C3 at its failing input.  The test [self.keys(account_id, depth=3)]
    that guards the AccountExists error selects no row, in any wallet, so
    that [new_account] with an account id never ends in AccountExists,
    whatever the implementation of the key derivation.  The wallet
    [wallet] has the node [m/44'/0'/0'] of depth 3 for account 0, and
    [new_account(account_id=0)] goes on to derive: it ends in the
    DepthMismatch error, and adds no key. *)
Theorem new_account_existing_id :
  (forall HDKey (ext : Externals HDKey) (self : HDWallet HDKey) name account_id,
      keys self (Some account_id) None None None (Some 3) = [] /\
      fst (new_account name (Some account_id) self) <> Raise (WalletError AccountExists)) /\
  In (4, 0, "m/44'/0'/0'", Some 0, 3) (key_rows wallet) /\
  fst (new_account (ext := E []) "" (Some 0) wallet) = Raise (WalletError DepthMismatch) /\
  keys_table (_session (after (new_account (ext := E []) "" (Some 0)) wallet))
    = keys_table (_session wallet).
Proof.
  split; [|split; [|split]].
  - intros HDKey ext self name account_id. split.
    + apply keys_account_depth_3.
    + apply new_account_no_AE.
  - vm_compute. tauto.
  - vm_compute. reflexivity.
  - vm_compute. reflexivity.
Qed.

(** C4 at its failing input.  Creating a second wallet from the key of
    [wallet] registers the wallet W2 and no key for it; on that wallet
    [new_account()] does not assign account 0, it ends in AttributeError. *)
Theorem new_account_without_keys :
  fst created2 = Raise (WalletError MissingMasterKey) /\
  HDWallet_init (WalletName "W2") None (snd created2) = Ok orphan /\
  keys orphan None None None None None = [] /\
  new_account (ext := E []) "" None orphan = (Raise AttributeError, orphan).
Proof.
  split; [vm_compute; reflexivity|]. split; [vm_compute; reflexivity|].
  split; [vm_compute; reflexivity|].
  apply new_account_no_keys. vm_compute. reflexivity.
Qed.

(** On the wallet [wallet], whose largest account id is 0, the omitted
    id is 1, and 2 for the call that follows. *)
Example new_account_next_id :
  new_account (ext := E []) "" None wallet = new_account (ext := E []) "" (Some 1) wallet /\
  returned_id (new_account (ext := E []) "" None wallet) = Ok 7 /\
  In (7, 0, "m/44'/0'/1'", Some 1, 3)
     (key_rows (after (new_account (ext := E []) "" None) wallet)) /\
  In (10, 0, "m/44'/0'/2'", Some 2, 3)
     (key_rows (after (new_account (ext := E []) "" None)
                      (after (new_account (ext := E []) "" None) wallet))).
Proof.
  split; [|split; [|split]].
  - apply (new_account_omitted_id (ext := E []) wallet ""
             (nth 0 (keys_table (_session wallet)) blank_key) 0); reflexivity.
  - vm_compute. reflexivity.
  - vm_compute. tauto.
  - vm_compute. tauto.
Qed.

End AccountsExamples.

(* ------------------------------------------------------------------ *)
(** ** The key tree, on concrete wallets *)

Section KeyTreeExamples.
Import Examples Derived.

Lemma wallet_created : fst created = Ok wallet.
Proof. vm_compute. reflexivity. Qed.

(** C8 at its failing input: the wallet that
    [HDWallet.create('W', key='seed')] builds on an empty database.  The
    nodes [m/44'], [m/44'/0'/0'], [m/44'/0'/0'/0] and [m/44'/0'/0'/1] are
    not roots and are derived from the keys of the nodes 1, 3, 4 and 4;
    the parent id stored on each of them is 0, and no node has the id 0. *)
Theorem bootstrap_parent_ids :
  fst created = Ok wallet /\
  key_rows wallet =
    [ (1, 0, "m", Some 0, 0);
      (2, 0, "m/44'", Some 0, 1);
      (3, 2, "m/44'/0'", Some 0, 2);
      (4, 0, "m/44'/0'/0'", Some 0, 3);
      (5, 0, "m/44'/0'/0'/0", Some 0, 4);
      (6, 0, "m/44'/0'/0'/1", Some 0, 4) ] /\
  (forall k, In k (keys_table (_session wallet)) -> DbKey.id k <> 0).
Proof.
  split; [exact wallet_created|]. split; [reflexivity|].
  intros k Hk. cbn in Hk.
  repeat (destruct Hk as [<-|Hk]; [discriminate|]). destruct Hk.
Qed.

(** C2 at its failing inputs, on the wallet [wallet].  The first
    [key_for_path("m/44h/0h/0h/0/0")] registers the node 7 under the
    normalized path; the second call with the same string does not return
    that node, it ends in the DepthMismatch error (and adds no row).  The
    derive-and-register chain for [m/44'/0'/1'] registers the node 7; run
    again with the same arguments it does not return that node either. *)
Theorem derivation_twice :
  returned_id (key_for_path (ext := E []) "m/44h/0h/0h/0/0" "" 0 0 false wallet) = Ok 7 /\
  after (key_for_path (ext := E []) "m/44h/0h/0h/0/0" "" 0 0 false) wallet = with_leaf /\
  In (7, 0, "m/44'/0'/0'/0/0", Some 0, 5) (key_rows with_leaf) /\
  returned_id (key_for_path (ext := E []) "m/44h/0h/0h/0/0" "" 0 0 false with_leaf)
    = Raise (WalletError DepthMismatch) /\
  key_rows (after (key_for_path (ext := E []) "m/44h/0h/0h/0/0" "" 0 0 false) with_leaf)
    = key_rows with_leaf /\
  returned_id (chain wallet) = Ok 7 /\
  after chain wallet = with_account /\
  In (7, 0, "m/44'/0'/1'", Some 1, 3) (key_rows with_account) /\
  returned_id (chain with_account) = Raise (WalletError DepthMismatch) /\
  key_rows (after chain with_account) = key_rows with_account.
Proof.
  repeat split; vm_compute; (reflexivity || tauto).
Qed.

(** The same node asked for by its normalized path is found, and no row
    is added. *)
Example key_for_path_normalized_twice :
  returned_id (key_for_path (ext := E []) "m/44'/0'/0'/0/0" "" 0 0 false with_leaf) = Ok 7 /\
  key_rows (after (key_for_path (ext := E []) "m/44'/0'/0'/0/0" "" 0 0 false) with_leaf)
    = key_rows with_leaf.
Proof. split; vm_compute; reflexivity. Qed.

End KeyTreeExamples.

(* ------------------------------------------------------------------ *)
(** ** Paths: errors, levels, fixed points *)

Section PathErrors.

Lemma nonempty_levels_dec (l : list string) :
  {Forall (fun s => s <> "") l} + {In "" l}.
Proof.
  induction l as [|a l [IH|IH]].
  - left. constructor.
  - destruct (string_dec a "") as [->|Ha].
    + right. now left.
    + left. now constructor.
  - right. now right.
Qed.

Lemma empty_level_not_all (l : list string) :
  In "" l -> ~ Forall (fun s => s <> "") l.
Proof. intros Hin Hf. rewrite Forall_forall in Hf. now apply (Hf "" Hin). Qed.

Lemma normalized_levels (p : string) :
  Forall (fun s => s <> "") (Py.split "/" p) ->
  Py.split "/" (Py.join "/" (map normalize_level (Py.split "/" p)))
  = map normalize_level (Py.split "/" p).
Proof.
  intros Hf. apply split_join.
  - pose proof (split_not_nil "/" p). destruct (Py.split "/" p); [congruence | discriminate].
  - apply Forall_map. eapply Forall_impl; [|apply split_sep_free].
    intros a. apply normalize_level_sep_free.
Qed.

Lemma normalize_path_empty_level (p : string) :
  In "" (Py.split "/" p) -> normalize_path p = Raise (WalletError InvalidPath).
Proof.
  intros Hin. unfold normalize_path.
  now rewrite normalize_loop_raises by now apply empty_level_not_all.
Qed.

Lemma normalize_path_returns (p : string) :
  ~ In "" (Py.split "/" p) -> exists n, normalize_path p = Ok n.
Proof.
  intros Hn. destruct (nonempty_levels_dec (Py.split "/" p)) as [Hf|Hin]; [|contradiction].
  eexists. now apply normalize_path_ok.
Qed.

(** The levels of the path that [normalize_path] returns. *)
Lemma normalize_path_Ok_levels (p n : string) :
  normalize_path p = Ok n ->
  Forall (fun s => s <> "") (Py.split "/" p) /\
  n = Py.join "/" (map normalize_level (Py.split "/" p)) /\
  Py.split "/" n = map normalize_level (Py.split "/" p).
Proof.
  intros H. destruct (nonempty_levels_dec (Py.split "/" p)) as [Hf|Hin].
  - rewrite normalize_path_ok in H by assumption. injection H as <-.
    split; [assumption|]. split; [reflexivity|]. now apply normalized_levels.
  - rewrite normalize_path_empty_level in H by assumption. discriminate.
Qed.

(** X1. [normalize_path] raises the InvalidPath error exactly on the
    paths that have an empty level (the empty path, a leading, a trailing
    or a doubled '/'); it raises nothing else, the IndexError of
    [npath[-1]] included, and returns a path in every other case. *)
Theorem normalize_path_raises_iff (p : string) :
  (normalize_path p = Raise (WalletError InvalidPath) <-> In "" (Py.split "/" p)) /\
  (forall e, normalize_path p = Raise e -> e = WalletError InvalidPath) /\
  (~ In "" (Py.split "/" p) -> exists n, normalize_path p = Ok n).
Proof.
  split; [|split].
  - split; [|apply normalize_path_empty_level].
    destruct (nonempty_levels_dec (Py.split "/" p)) as [Hf|Hin]; [|trivial].
    rewrite normalize_path_ok by assumption. discriminate.
  - intros e. destruct (nonempty_levels_dec (Py.split "/" p)) as [Hf|Hin].
    + rewrite normalize_path_ok by assumption. discriminate.
    + rewrite normalize_path_empty_level by assumption. now intros [= <-].
  - apply normalize_path_returns.
Qed.

(** X2. The path that [normalize_path] returns has the levels of its
    argument, one for one: a level that ends in one of ', H, h, P, p has
    that last character replaced by ', every other level is unchanged; so
    no level of the result ends in H, h, P or p. *)
Theorem normalize_path_levels (p n : string) :
  normalize_path p = Ok n ->
  Forall2 (fun level nlevel =>
             exists c, Py.last_char level = Some c /\
                       nlevel = if Py.char_in c "'HhPp" then Py.but_last level ++ "'"
                                else level)
          (Py.split "/" p) (Py.split "/" n) /\
  Forall (fun nlevel => exists c, Py.last_char nlevel = Some c /\ Py.char_in c "HhPp" = false)
         (Py.split "/" n).
Proof.
  intros H. destruct (normalize_path_Ok_levels p n H) as (Hf & _ & ->).
  clear H. induction Hf as [|level l Hl Hf [IH1 IH2]]; cbn [map]; [split; constructor|].
  assert (Hc : exists c, Py.last_char level = Some c).
  { destruct (Py.last_char level) as [c|] eqn:E; [now exists c|].
    now apply last_char_None in E. }
  destruct Hc as (c & Hc).
  split; constructor; try assumption.
  - exists c. split; [assumption|]. unfold normalize_level. now rewrite Hc.
  - unfold normalize_level. rewrite Hc. unfold hardening_markers.
    destruct (Py.char_in c "'HhPp") eqn:Hm.
    + exists "'"%char. split; [apply last_char_snoc | reflexivity].
    + exists c. split; [assumption|].
      cbn in Hm |- *. rewrite !orb_false_iff in Hm. rewrite !orb_false_iff. tauto.
Qed.

Lemma normalize_path_levels_witness :
  Forall2 (fun level nlevel =>
             exists c, Py.last_char level = Some c /\
                       nlevel = if Py.char_in c "'HhPp" then Py.but_last level ++ "'"
                                else level)
          (Py.split "/" "m/44h/0H/7p/1") (Py.split "/" "m/44'/0'/7'/1") /\
  Forall (fun nlevel => exists c, Py.last_char nlevel = Some c /\ Py.char_in c "HhPp" = false)
         (Py.split "/" "m/44'/0'/7'/1").
Proof. exact (normalize_path_levels "m/44h/0H/7p/1" "m/44'/0'/7'/1" eq_refl). Defined.

(** X3. A path whose levels are not empty and do not end in H, h, P or
    p is returned as it is. *)
Theorem normalize_path_fixed_point (p : string) :
  Forall (fun level => exists c, Py.last_char level = Some c /\ Py.char_in c "HhPp" = false)
         (Py.split "/" p) ->
  normalize_path p = Ok p.
Proof.
  intros Hf. rewrite normalize_path_ok.
  - f_equal. rewrite <- (join_split p) at 2. f_equal.
    induction Hf as [|level l (c & Hc & Hm) Hf IH]; [reflexivity|]. cbn [map].
    f_equal; [|exact IH].
    unfold normalize_level. rewrite Hc. unfold hardening_markers.
    destruct (Py.char_in c "'HhPp") eqn:Hq; [|reflexivity].
    cbn in Hq, Hm. rewrite !orb_false_iff in Hm. destruct Hm as (H1 & H2 & H3 & H4 & _).
    rewrite H1, H2, H3, H4 in Hq. cbn in Hq. rewrite orb_false_r in Hq.
    apply Ascii.eqb_eq in Hq. subst c. symmetry. now apply last_char_decompose.
  - eapply Forall_impl; [|exact Hf]. intros a (c & Hc & _) ->. discriminate.
Qed.

Lemma normalize_path_fixed_point_witness :
  normalize_path "m/44'/0'/7'/1/20" = Ok "m/44'/0'/7'/1/20".
Proof.
  apply normalize_path_fixed_point. cbn.
  repeat constructor; eexists; split; reflexivity.
Defined.

(** X4. [parse_bip44_path] reads a path and its normal form alike: the
    hardening marker that a level is written with makes no difference. *)
Theorem parse_bip44_path_normalized (p n : string) :
  normalize_path p = Ok n -> parse_bip44_path n = parse_bip44_path p.
Proof.
  intros H. destruct (normalize_path_Ok_levels p n H) as (Hf & Hn & Hs).
  assert (Hnn : normalize_path n = Ok n).
  { rewrite Hn. rewrite normalize_path_ok; rewrite normalized_levels by assumption.
    - f_equal. f_equal. rewrite map_map. apply map_ext. intros a. apply normalize_level_idem.
    - apply Forall_map. eapply Forall_impl; [|exact Hf].
      intros a. apply normalize_level_nonempty. }
  unfold parse_bip44_path. now rewrite Hnn, H.
Qed.

Lemma parse_bip44_path_normalized_witness :
  normalize_path "M/44H/1p/3h" = Ok "M/44'/1'/3'" /\
  parse_bip44_path "M/44'/1'/3'" = parse_bip44_path "M/44H/1p/3h".
Proof.
  split; [reflexivity | apply parse_bip44_path_normalized; reflexivity].
Defined.

(** X5. The three outcomes of [parse_bip44_path]: InvalidPath on a path
    with an empty level; InvalidPathLength on a path of more than six
    levels; and on every other path the dictionary whose [isprivate] says
    whether the first level is [m], and whose five other items are the
    levels 1 to 5 of the normalized path, the empty string for a level
    that the path does not have.  The test [0 < len(pathl)] never fails. *)
Theorem parse_bip44_path_cases (p : string) :
  let levels := Py.split "/" p in
  (In "" levels -> parse_bip44_path p = Raise (WalletError InvalidPath)) /\
  (~ In "" levels -> (6 < List.length levels)%nat ->
   parse_bip44_path p = Raise (WalletError InvalidPathLength)) /\
  (~ In "" levels -> (List.length levels <= 6)%nat ->
   exists n pd,
     normalize_path p = Ok n /\ parse_bip44_path p = Ok pd /\
     isprivate pd = String.eqb (nth 0 (Py.split "/" n) "") "m" /\
     [pd_purpose pd; pd_cointype pd; pd_account pd; pd_change pd; pd_address_index pd]
     = map (fun i => nth i (Py.split "/" n) "") [1; 2; 3; 4; 5]%nat).
Proof.
  cbv zeta. split; [|split].
  - intros Hin. unfold parse_bip44_path. now rewrite (normalize_path_empty_level p Hin).
  - intros Hn Hlen. destruct (normalize_path_returns p Hn) as (n & Hok).
    destruct (normalize_path_Ok_levels p n Hok) as (_ & _ & Hs).
    unfold parse_bip44_path. rewrite Hok. cbv zeta. rewrite Hs, length_map.
    destruct (Z.of_nat (List.length (Py.split "/" p)) <=? 6) eqn:E;
      [apply Z.leb_le in E; lia|].
    now rewrite andb_false_r.
  - intros Hn Hlen. destruct (normalize_path_returns p Hn) as (n & Hok).
    destruct (normalize_path_Ok_levels p n Hok) as (_ & _ & Hs).
    exists n. unfold parse_bip44_path. rewrite Hok. cbv zeta.
    assert (Hlen' : (List.length (Py.split "/" n) <= 6)%nat) by (now rewrite Hs, length_map).
    assert (Hpos : (0 < List.length (Py.split "/" n))%nat).
    { pose proof (split_not_nil "/" n). destruct (Py.split "/" n); [congruence | cbn; lia]. }
    clear Hs Hok. destruct (Py.split "/" n) as [|a [|b [|c [|d [|e [|f [|g l]]]]]]];
      cbn in Hlen', Hpos; try lia; (eexists; repeat split).
Qed.

End PathErrors.

(* ------------------------------------------------------------------ *)
(** ** Finding and deleting wallets *)

Section FindWallet.
Context {HDKey : Type}.

Lemma filter_nil_iff {A} (f : A -> bool) (l : list A) :
  filter f l = [] <-> forall x, In x l -> f x = false.
Proof.
  induction l as [|a l IH]; cbn [filter].
  - split; [intros _ x [] | reflexivity].
  - destruct (f a) eqn:E.
    + split; [discriminate|]. intros H. specialize (H a (or_introl eq_refl)). congruence.
    + rewrite IH. split.
      * intros H x [<-|Hx]; [assumption | now apply H].
      * intros H x Hx. apply H. now right.
Qed.

Lemma first_None_iff {A} (f : A -> bool) (l : list A) :
  first (filter f l) = None <-> forall x, In x l -> f x = false.
Proof.
  rewrite <- filter_nil_iff. unfold first. destruct (filter f l); cbn; split; congruence.
Qed.

Lemma existsb_map {A B} (f : B -> bool) (g : A -> B) (l : list A) :
  existsb f (map g l) = existsb (fun x => f (g x)) l.
Proof. induction l as [|a l IH]; cbn; [reflexivity | now rewrite IH]. Qed.

Lemma check_balances_unfunded (force : bool) (ks : list DbKey.row) :
  (forall k, In k ks -> DbKey.balance k = 0) -> check_balances force ks = Ok tt.
Proof.
  induction ks as [|k ks IH]; intros H; [reflexivity|]. cbn [check_balances].
  rewrite (H k (or_introl eq_refl)). cbn. rewrite andb_false_r.
  apply IH. intros k' Hk'. apply H. now right.
Qed.

Lemma delete_wallet_raise_cases (wallet : wallet_ref) (force : bool) (db : Db) (e : exn) :
  fst (delete_wallet wallet force db) = Raise e ->
  snd (delete_wallet wallet force db) = db /\
  (e = WalletError WalletNotFound -> wallet_query wallet db = []).
Proof.
  unfold delete_wallet. destruct (first (wallet_query wallet db)) as [w0|] eqn:Hw.
  - destruct (check_balances _ _) as [[]|e'] eqn:Hc; [discriminate|].
    cbn [fst snd]. intros [= <-]. split; [reflexivity|]. intros ->. exfalso.
    clear Hw. induction (filter _ (keys_table db)) as [|k ks IH]; [discriminate|].
    cbn [check_balances] in Hc. destruct (_ && _); [discriminate | auto].
  - cbn [fst snd]. intros _. split; [reflexivity|]. intros _.
    unfold first in Hw. now destruct (wallet_query wallet db).
Qed.

(** X6. [delete_wallet] raises WalletNotFound exactly when no wallet row
    matches the reference, and whatever it raises it leaves the database
    as it was. *)
Theorem delete_wallet_not_found (wallet : wallet_ref) (force : bool) (db : Db) :
  (fst (delete_wallet wallet force db) = Raise (WalletError WalletNotFound)
   <-> wallet_query wallet db = []) /\
  (forall e, fst (delete_wallet wallet force db) = Raise e ->
             snd (delete_wallet wallet force db) = db).
Proof.
  split.
  - split.
    + intros H. now apply (delete_wallet_raise_cases _ _ _ _ H).
    + intros H. unfold delete_wallet. now rewrite H.
  - intros e H. now apply (delete_wallet_raise_cases _ _ _ _ H).
Qed.

(** X7. A deletion that returns gives the number of wallet rows that
    matched, at least one; after it no wallet row matches the reference,
    so that deleting again and opening the wallet both raise
    WalletNotFound. *)
Theorem delete_wallet_then_absent (wallet : wallet_ref) (force : bool) (db : Db) (n : Z) :
  fst (delete_wallet wallet force db) = Ok n ->
  let db' := snd (delete_wallet wallet force db) in
  1 <= n /\ n = count (wallet_query wallet db) /\
  wallet_query wallet db' = [] /\
  (forall force', delete_wallet wallet force' db' = (Raise (WalletError WalletNotFound), db')) /\
  (forall o : option HDKey, HDWallet_init wallet o db' = Raise (WalletError WalletNotFound)).
Proof.
  unfold delete_wallet.
  destruct (first (wallet_query wallet db)) as [w0|] eqn:Hw; [|discriminate].
  destruct (check_balances _ _) as [[]|e']; [|discriminate].
  cbn [fst snd]. intros [= <-].
  set (db' := set_wallets _ _).
  assert (Hq : wallet_query wallet db' = []).
  { unfold wallet_query, db'. cbn [wallets set_wallets set_keys]. apply filter_nil_iff.
    intros x Hx. apply filter_In in Hx. destruct Hx as [_ Hx]. now apply negb_true_iff in Hx. }
  split; [|split; [reflexivity|split; [exact Hq|split]]].
  - unfold count, first in *. destruct (wallet_query wallet db); [discriminate|].
    cbn [List.length]. lia.
  - intros force'. now rewrite Hq.
  - intros o. unfold HDWallet_init. now rewrite Hq.
Qed.

(** X8. The force flag matters only for a wallet that has a key with a
    nonzero cached balance: when every key of the wallet has balance 0,
    the deletion without the flag does what the forced one does. *)
Theorem delete_wallet_unfunded (wallet : wallet_ref) (db : Db) :
  (forall w0 k, first (wallet_query wallet db) = Some w0 -> In k (keys_table db) ->
                DbKey.wallet_id k = DbWallet.id w0 -> DbKey.balance k = 0) ->
  delete_wallet wallet false db = delete_wallet wallet true db.
Proof.
  intros H. unfold delete_wallet.
  destruct (first (wallet_query wallet db)) as [w0|] eqn:Hw; [|reflexivity].
  rewrite check_balances_force, check_balances_unfunded; [reflexivity|].
  intros k Hk. apply filter_In in Hk. destruct Hk as [Hk Hid].
  apply (H w0 k eq_refl Hk). now apply Z.eqb_eq.
Qed.


(** X10. A wallet whose name is a string of digits that is the id of no
    wallet exists for [wallet_exists], which compares names, and can be
    neither deleted nor opened by its name, which [delete_wallet] and
    [HDWallet.__init__] take for an id. *)
Theorem wallet_exists_digit_name (s : string) (db : Db) :
  Py.isdigit s = true ->
  In s (map DbWallet.name (wallets db)) ->
  ~ In (Py.digits_value 0 s) (map DbWallet.id (wallets db)) ->
  wallet_exists (WalletName s) db = true /\
  (forall force, delete_wallet (WalletName s) force db
                 = (Raise (WalletError WalletNotFound), db)) /\
  (forall o : option HDKey,
      HDWallet_init (WalletName s) o db = Raise (WalletError WalletNotFound)).
Proof.
  intros Hd Hin Hid.
  assert (Hq : wallet_query (WalletName s) db = []).
  { unfold wallet_query. apply filter_nil_iff. intros x Hx. cbn. rewrite Hd.
    apply Z.eqb_neq. intros Heq. apply Hid. rewrite <- Heq. now apply in_map. }
  split; [|split].
  - unfold wallet_exists, list_wallets. rewrite existsb_map. cbn [wi_name].
    apply in_map_iff in Hin. destruct Hin as (w & Hn & Hw).
    assert (E : existsb (fun x => String.eqb s (DbWallet.name x)) (wallets db) = true).
    { apply existsb_exists. exists w. split; [assumption|]. now apply String.eqb_eq. }
    now rewrite E.
  - intros force. unfold delete_wallet. now rewrite Hq.
  - intros o. unfold HDWallet_init. now rewrite Hq.
Qed.

End FindWallet.

Section FindWalletExamples.
Import Examples MoreExamples.

Lemma delete_wallet_then_absent_witness :
  fst (delete_wallet (WalletName "W") true (_session wallet)) = Ok 1 /\
  forall force',
    delete_wallet (WalletName "W") force'
                  (snd (delete_wallet (WalletName "W") true (_session wallet)))
    = (Raise (WalletError WalletNotFound),
       snd (delete_wallet (WalletName "W") true (_session wallet))).
Proof.
  assert (H : fst (delete_wallet (WalletName "W") true (_session wallet)) = Ok 1)
    by (vm_compute; reflexivity).
  split; [exact H|].
  destruct (delete_wallet_then_absent (HDKey := Toy.toykey) _ _ _ _ H) as (_ & _ & _ & Hd & _).
  exact Hd.
Defined.

Lemma delete_wallet_unfunded_witness :
  delete_wallet (WalletName "W") false (_session wallet)
  = delete_wallet (WalletName "W") true (_session wallet).
Proof.
  apply delete_wallet_unfunded. intros w0 k _ Hk _. revert k Hk. apply Forall_forall.
  vm_compute. repeat constructor.
Defined.


Lemma wallet_exists_digit_name_witness :
  wallet_exists (WalletName "7") digits_db = true /\
  (forall force, delete_wallet (WalletName "7") force digits_db
                 = (Raise (WalletError WalletNotFound), digits_db)) /\
  (forall o : option Toy.toykey,
      HDWallet_init (WalletName "7") o digits_db = Raise (WalletError WalletNotFound)).
Proof.
  apply wallet_exists_digit_name.
  - reflexivity.
  - vm_compute. now left.
  - vm_compute. intros [H|[]]. discriminate.
Defined.

End FindWalletExamples.

(* ------------------------------------------------------------------ *)
(** ** What the registration of keys keeps *)

Section Keeps.
Context {HDKey : Type} {ext : Externals HDKey}.
Variable P : HDWallet HDKey -> Prop.

Lemma keeps_ret {A} (a : A) : keeps P (ret a).
Proof. intros self H. exact H. Qed.

Lemma keeps_raise {A} (e : exn) : keeps P (raise (A := A) e).
Proof. intros self H. exact H. Qed.

Lemma keeps_lift {A} (r : result A) : keeps P (lift r).
Proof. intros self H. exact H. Qed.

Lemma keeps_get : keeps P get.
Proof. intros self H. exact H. Qed.

Lemma keeps_bind {A B} (m : SE (HDWallet HDKey) A) (k : A -> SE (HDWallet HDKey) B) :
  keeps P m -> (forall a, keeps P (k a)) -> keeps P (bind m k).
Proof.
  intros Hm Hk self H. unfold bind. specialize (Hm self H).
  destruct (m self) as [[a|e] s']; [apply Hk|]; exact Hm.
Qed.

Lemma keeps_key (t : term) : keeps P (key t).
Proof. intros self H. now rewrite key_reads. Qed.

Hypothesis registration :
  forall self name wid k account_id nw change purpose parent_id path,
    P self ->
    P (set_session (snd (from_key name wid "" (Some k) account_id nw change purpose
                                  parent_id path (_session self))) self).
Hypothesis caching :
  forall self (nk : HDWalletKey HDKey),
    P self -> P (set_key_objects ((key_id nk, nk) :: _key_objects self) self).

Lemma keeps_from_key_object (name : string) (wid : Z) (k : HDKey) (account_id : option Z)
      (nw : option string) (change purpose parent_id : Z) (path : string) :
  keeps P (on_session (from_key name wid "" (Some k) account_id nw change purpose
                                parent_id path)).
Proof.
  intros self H. unfold on_session.
  specialize (registration self name wid k account_id nw change purpose parent_id path H).
  now destruct (from_key _ _ _ _ _ _ _ _ _ _ _).
Qed.

Lemma from_key_import (name : string) (wid : Z) (key : string) (account_id : option Z)
      (nw : string) (change purpose parent_id : Z) (path : string) (db : Db) :
  from_key name wid key None account_id (Some nw) change purpose parent_id path db =
  match HDKey_import key (Some nw) with
  | Raise e => (Raise e, db)
  | Ok k => from_key name wid "" (Some k) account_id (Some nw) change purpose parent_id path db
  end.
Proof.
  unfold from_key. unfold bind at 1, lift at 1.
  destruct (HDKey_import key (Some nw)) as [k|e]; reflexivity.
Qed.

Lemma keeps_from_key (name : string) (wid : Z) (key : string) (account_id : option Z)
      (nw : string) (change purpose parent_id : Z) (path : string) :
  keeps P (on_session (from_key name wid key None account_id (Some nw) change purpose
                                parent_id path)).
Proof.
  intros self H. unfold on_session. rewrite from_key_import.
  destruct (HDKey_import key (Some nw)) as [k|e].
  - now apply (keeps_from_key_object name wid k account_id (Some nw) change purpose
                                     parent_id path self).
  - cbn [snd]. now destruct self.
Qed.

Lemma keeps_create_keys_loop (wid : Z) (account_id : option Z) (nw name basepath : string)
      (change purpose : Z) (todo : list string) :
  forall (done : list string) (parent_id : Z) (ck : HDKey) (nk : HDWalletKey HDKey),
  keeps P (create_keys_loop wid account_id nw name basepath change purpose done todo
                            parent_id ck nk).
Proof.
  induction todo as [|seg todo IH]; intros done parent_id ck nk; cbn [create_keys_loop].
  - apply keeps_ret.
  - apply keeps_bind; [apply keeps_lift | intros ck'].
    apply keeps_bind; [apply keeps_from_key_object | intros nk'].
    intros self H. unfold bind at 1, get. unfold bind at 1, put.
    apply IH, caching, H.
Qed.

Lemma keeps_create_keys_from_path (parent : HDWalletKey HDKey) (path : list string)
      (wid : Z) (account_id : option Z) (nw name basepath : string) (change purpose : Z) :
  keeps P (_create_keys_from_path parent path wid account_id nw name basepath change purpose).
Proof.
  unfold _create_keys_from_path.
  apply keeps_bind; [apply keeps_lift | intros ck].
  apply keeps_bind; [apply keeps_get | intros self].
  apply keeps_bind.
  - destruct (closest_ancestor _ _ _) as [r|]; [|apply keeps_ret].
    destruct (negb _); [|apply keeps_ret].
    apply keeps_bind; [apply keeps_key | intros nk].
    apply keeps_bind; [apply keeps_lift | intros ck']. apply keeps_ret.
  - intros [[[path' basepath'] nk] ck']. apply keeps_create_keys_loop.
Qed.

Lemma keeps_new_account (name : string) (account_id : option Z) :
  keeps P (new_account name account_id).
Proof.
  unfold new_account.
  apply keeps_bind; [apply keeps_get | intros self].
  apply keeps_bind.
  { destruct account_id; [apply keeps_ret|].
    destruct (first _) as [last|]; [|apply keeps_raise].
    destruct (DbKey.account_id last); [apply keeps_ret | apply keeps_raise]. }
  intros a. destruct (keys _ _ _ _ _ _); [|apply keeps_raise].
  apply keeps_bind; [apply keeps_lift | intros accrootkey].
  destruct accrootkey as [accrootkey|]; [|apply keeps_raise].
  apply keeps_bind; [apply keeps_key | intros accrootkey_obj].
  apply keeps_bind; [apply keeps_create_keys_from_path | intros acckey].
  apply keeps_bind; [apply keeps_create_keys_from_path | intros _].
  apply keeps_bind; [apply keeps_create_keys_from_path | intros _].
  apply keeps_ret.
Qed.

Lemma keeps_new_key (name : string) (account_id : option Z) (change max_depth : Z) :
  keeps P (new_key name account_id change max_depth).
Proof.
  unfold new_key.
  apply keeps_bind; [apply keeps_get | intros self].
  apply keeps_bind; [apply keeps_lift | intros acckey].
  apply keeps_bind.
  { destruct acckey; [apply keeps_ret|].
    apply keeps_bind; [apply keeps_new_account | intros hk]. apply keeps_ret. }
  intros acckey'.
  apply keeps_bind; [apply keeps_key | intros main_acc_key].
  apply keeps_bind; [apply keeps_get | intros self'].
  apply keeps_create_keys_from_path.
Qed.

Lemma keeps_key_for_path (path name : string) (account_id change : Z) (disable_check : bool) :
  keeps P (key_for_path path name account_id change disable_check).
Proof.
  unfold key_for_path.
  apply keeps_bind; [apply keeps_get | intros self].
  apply keeps_bind; [destruct (negb _); [apply keeps_lift | apply keeps_ret] | intros _].
  apply keeps_bind; [apply keeps_lift | intros spath].
  destruct (closest_ancestor _ _ _) as [rkey|]; [|apply keeps_raise].
  destruct (String.eqb _ _); [apply keeps_key|].
  apply keeps_bind; [apply keeps_lift | intros npath].
  apply keeps_bind; [destruct (negb _); [apply keeps_key | apply keeps_ret] | intros parent_key].
  apply keeps_create_keys_from_path.
Qed.

(** Every call that registers keys keeps what each registration and each
    entry added to the cache of key objects keep. *)
Lemma keeps_run_call (c : key_call HDKey) : keeps P (run_call c).
Proof.
  destruct c; cbn [run_call].
  - apply keeps_new_account.
  - apply keeps_new_key.
  - apply keeps_new_key.
  - apply keeps_key_for_path.
  - unfold import_key. apply keeps_bind; [apply keeps_get | intros self]. apply keeps_from_key.
  - unfold import_hdkey_object, from_key_object.
    apply keeps_bind; [apply keeps_get | intros self]. apply keeps_from_key_object.
  - apply keeps_create_keys_from_path.
Qed.

End Keeps.

Section Registration.
Context {HDKey : Type} {ext : Externals HDKey}.

(** What a registration does to the database: nothing, or one row at the
    end of the keys table, for a key whose serialized form no row has. *)
Lemma from_key_effect (name : string) (wid : Z) (k : HDKey) (account_id : option Z)
      (nw : option string) (change purpose parent_id : Z) (path : string) (db : Db) :
  let db' := snd (from_key name wid "" (Some k) account_id nw change purpose parent_id path db) in
  db' = db \/
  exists path',
    registered_path k account_id nw purpose path = Ok path' /\
    (forall r, In r (keys_table db) -> DbKey.key_wif r <> extended_wif k) /\
    db' = set_keys (keys_table db
                      ++ [key_row k name wid account_id change purpose parent_id path' db])%list
                   db.
Proof.
  cbv zeta. rewrite from_key_object_steps.
  destruct (first (filter (fun r => String.eqb (DbKey.key_wif r) (extended_wif k))
                          (keys_table db))) as [keyexists|] eqn:E1; [now left|].
  destruct (registered_path k account_id nw purpose path) as [path'|e]; [|now left].
  destruct (first (filter (fun r => String.eqb (DbKey.key r) (key_hex k)
                                    || String.eqb (DbKey.key_wif r) (extended_wif k))
                          (keys_table db))) as [wk0|]; [now left|].
  right. exists path'. split; [reflexivity|]. split; [|reflexivity].
  intros r Hr Heq. unfold first in E1.
  destruct (filter _ _) as [|x l] eqn:Ef; [|discriminate].
  assert (In r []) as []. rewrite <- Ef. apply filter_In. split; [assumption|].
  now apply String.eqb_eq.
Qed.

Lemma next_id_above (l : list Z) (x : Z) : In x l -> x < next_id l.
Proof.
  unfold next_id. induction l as [|a l IH]; intros []; cbn [fold_right].
  - subst. lia.
  - specialize (IH H). lia.
Qed.

Lemma next_id_positive (l : list Z) : 1 <= next_id l.
Proof. unfold next_id. induction l as [|a l IH]; cbn [fold_right]; lia. Qed.

Lemma uint_sep_free (d : Decimal.uint) : sep_free (NilEmpty.string_of_uint d).
Proof.
  induction d; cbn [NilEmpty.string_of_uint]; [reflexivity|..];
    (apply sep_free_cons; split; [reflexivity | assumption]).
Qed.

Lemma str_sep_free (n : Z) : sep_free (Py.str n).
Proof.
  unfold Py.str, NilZero.string_of_int.
  assert (H : forall d, sep_free (NilZero.string_of_uint d)).
  { intros d. destruct d; try reflexivity; apply uint_sep_free. }
  destruct (Z.to_int n) as [d|d]; [apply H|].
  apply sep_free_cons. split; [reflexivity | apply H].
Qed.



Lemma grows_refl (db : Db) : grows db db.
Proof. repeat split. exists []. now rewrite app_nil_r. Qed.

Lemma grows_trans (db1 db2 db3 : Db) : grows db1 db2 -> grows db2 db3 -> grows db1 db3.
Proof.
  intros (Hw1 & Ht1 & n1 & Hk1) (Hw2 & Ht2 & n2 & Hk2). repeat split; try congruence.
  exists (n1 ++ n2)%list. now rewrite Hk2, Hk1, app_assoc.
Qed.

Lemma from_key_grows (name : string) (wid : Z) (k : HDKey) (account_id : option Z)
      (nw : option string) (change purpose parent_id : Z) (path : string) (db : Db) :
  grows db (snd (from_key name wid "" (Some k) account_id nw change purpose parent_id path db)).
Proof.
  destruct (from_key_effect name wid k account_id nw change purpose parent_id path db)
    as [->|(path' & _ & _ & ->)]; [apply grows_refl|].
  repeat split. eexists. reflexivity.
Qed.

(** X11. Whatever a call that registers keys returns or raises
    ([new_account], [new_key], [new_key_change], [key_for_path],
    [import_key], [import_hdkey_object], [_create_keys_from_path]), it
    leaves the wallets table and the ledger as they were, leaves every
    key row that was there in its place and unchanged, adding rows at the
    end of the keys table only, and changes no attribute of the wallet
    object but the session and the cache of key objects. *)
Theorem key_calls_append_only (c : key_call HDKey) (self : HDWallet HDKey) :
  grows (_session self) (_session (snd (run_call c self))) /\
  same_wallet self (snd (run_call c self)).
Proof.
  apply (keeps_run_call (fun s => grows (_session self) (_session s) /\ same_wallet self s)).
  - intros s name wid k account_id nw change purpose parent_id path [Hg Hs]. split.
    + cbn [_session set_session]. eapply grows_trans; [exact Hg | apply from_key_grows].
    + exact Hs.
  - intros s nk [Hg Hs]. split; assumption.
  - split; [apply grows_refl | repeat split].
Qed.




(** The calls that register keys keep the cache of key objects sound:
    every node is filed under its own key id. *)
Theorem key_calls_keep_cache (c : key_call HDKey) (self : HDWallet HDKey) :
  cache_ok self -> cache_ok (snd (run_call c self)).
Proof.
  apply (keeps_run_call cache_ok).
  - intros s name wid k account_id nw change purpose parent_id path H. exact H.
  - intros s nk H i o [[= <- <-]|Hin]; [reflexivity | now apply H].
Qed.

End Registration.

Section RegistrationExamples.
Import Examples MoreExamples.





Lemma wallet_cache_ok : cache_ok wallet.
Proof.
  intros i o Hin. vm_compute in Hin.
  repeat (destruct Hin as [Hin|Hin]; [injection Hin as <- <-; reflexivity|]).
  destruct Hin.
Qed.

Lemma key_calls_keep_cache_witness :
  cache_ok (snd (run_call (ext := E []) (CallImportKey "other" None) wallet)).
Proof. apply key_calls_keep_cache. exact wallet_cache_ok. Defined.

End RegistrationExamples.

(* ------------------------------------------------------------------ *)
(** ** Creating and opening a wallet *)

Section CreateFacts.
Context {HDKey : Type} {ext : Externals HDKey}.
Local Open Scope list_scope.

Lemma from_key_import_grows (name : string) (wid : Z) (key : string) (account_id : option Z)
      (nw : string) (change purpose parent_id : Z) (path : string) (db : Db) :
  grows db (snd (from_key name wid key None account_id (Some nw) change purpose parent_id
                          path db)).
Proof.
  rewrite from_key_import. destruct (HDKey_import key (Some nw)) as [k|e].
  - apply from_key_grows.
  - apply grows_refl.
Qed.

Lemma frame_registration (self s : HDWallet HDKey) (name : string) (wid : Z) (k : HDKey)
      (account_id : option Z) (nw : option string) (change purpose parent_id : Z)
      (path : string) :
  grows (_session self) (_session s) /\ same_wallet self s ->
  grows (_session self)
        (_session (set_session (snd (from_key name wid "" (Some k) account_id nw change
                                              purpose parent_id path (_session s))) s)) /\
  same_wallet self (set_session (snd (from_key name wid "" (Some k) account_id nw change
                                               purpose parent_id path (_session s))) s).
Proof.
  intros [Hg Hs]. split; [|exact Hs].
  cbn [_session set_session]. eapply grows_trans; [exact Hg | apply from_key_grows].
Qed.

Lemma frame_caching (self s : HDWallet HDKey) (nk : HDWalletKey HDKey) :
  grows (_session self) (_session s) /\ same_wallet self s ->
  grows (_session self) (_session (set_key_objects ((key_id nk, nk) :: _key_objects s) s)) /\
  same_wallet self (set_key_objects ((key_id nk, nk) :: _key_objects s) s).
Proof. intros [Hg Hs]. split; assumption. Qed.

Lemma same_wallet_refl (w : HDWallet HDKey) : same_wallet w w.
Proof. repeat split. Qed.

Lemma map_main_key_id (ws : list DbWallet.row) (w : DbWallet.row) (k : Z) :
  DbWallet.id w = next_id (map DbWallet.id ws) ->
  map (fun x => if DbWallet.id x =? DbWallet.id w then DbWallet.set_main_key_id k x else x)
      (ws ++ [w])
  = ws ++ [DbWallet.set_main_key_id k w].
Proof.
  intros Hid. rewrite map_app. cbn [map]. rewrite Z.eqb_refl. f_equal.
  rewrite <- (map_id ws) at 2. apply map_ext_in. intros x Hx.
  destruct (DbWallet.id x =? DbWallet.id w) eqn:E; [|reflexivity].
  apply Z.eqb_eq in E. assert (DbWallet.id x < next_id (map DbWallet.id ws));
    [apply next_id_above; now apply in_map | lia].
Qed.

(** The course of [create], read from its result. *)
Lemma create_inv (name key owner : string) (nw : option string) (account_id purpose : Z)
      (db db' : Db) (r : result (HDWallet HDKey)) :
  create name key owner nw account_id purpose db = (r, db') ->
  (r = Raise (WalletError DuplicateWalletName) /\ db' = db /\
   In name (map DbWallet.name (wallets db)))
  \/
  (~ In name (map DbWallet.name (wallets db)) /\
   ((db' = db /\ exists e, r = Raise e)
    \/
    exists network,
      let row := new_wallet_row name owner network purpose db in
      (grows (set_wallets (wallets db ++ [row]) db) db' /\ exists e, r = Raise e)
      \/
      exists mk db2,
        from_key name (DbWallet.id row) key None (Some account_id) (Some network) 0 purpose
                 0 "m" (set_wallets (wallets db ++ [row]) db) = (Ok mk, db2) /\
        let db3 := set_wallets (wallets db ++ [DbWallet.set_main_key_id (key_id mk) row]) db2 in
        ((grows db3 db' /\ exists e, r = Raise e)
         \/
         exists mko w0 w,
           hdkey mk = Ok mko /\
           HDWallet_init (WalletId (DbWallet.id row)) (Some mko) db3 = Ok w0 /\
           r = Ok w /\ _session w = db' /\ grows db3 db' /\ same_wallet w0 w))).
Proof.
  unfold create.
  destruct (count (filter (fun w => String.eqb (DbWallet.name w) name) (wallets db)) =? 0)
    eqn:Hdup; cbn [negb].
  2:{ intros [= <- <-]. left. split; [reflexivity|]. split; [reflexivity|].
      unfold count in Hdup.
      destruct (filter _ (wallets db)) as [|x l] eqn:Ef; [discriminate|].
      assert (Hx : In x (filter (fun w => String.eqb (DbWallet.name w) name) (wallets db)))
        by (rewrite Ef; now left).
      apply filter_In in Hx. destruct Hx as [Hx Hn]. apply String.eqb_eq in Hn.
      rewrite <- Hn. now apply in_map. }
  intros H. right. split.
  { intros Hin. apply in_map_iff in Hin. destruct Hin as (x & Hn & Hx).
    unfold count in Hdup.
    destruct (filter _ (wallets db)) as [|y l] eqn:Ef; [|cbn in Hdup; lia].
    assert (In x []) as []. rewrite <- Ef. apply filter_In. split; [assumption|].
    now apply String.eqb_eq. }
  destruct (if negb (String.eqb key "") then check_network_and_key key nw
            else match nw with None => Ok DEFAULT_NETWORK | Some n => Ok n end)
    as [network|e]; [|injection H as <- <-; left; split; [reflexivity | now exists e]].
  right. exists network. cbv zeta.
  fold (new_wallet_row name owner network purpose db) in H.
  set (row := new_wallet_row name owner network purpose db) in *.
  set (db1 := set_wallets (wallets db ++ [row]) db) in *.
  pose proof (from_key_import_grows name (DbWallet.id row) key (Some account_id) network 0
                                    purpose 0 "m" db1) as Hg1.
  destruct (from_key name (DbWallet.id row) key None (Some account_id) (Some network) 0
                     purpose 0 "m" db1) as [[mk|e] db2] eqn:Hfk; cbn [snd] in Hg1.
  2:{ injection H as <- <-. left. split; [assumption | now exists e]. }
  destruct (DbKey.depth (_dbkey mk) >? 4).
  { injection H as <- <-. left. split; [assumption | eexists; reflexivity]. }
  right. exists mk, db2. split; [reflexivity|].
  assert (Hw2 : wallets db2 = wallets db ++ [row]) by apply Hg1.
  rewrite Hw2 in H.
  change (DbWallet.id (new_wallet_row name owner network purpose db)) with (DbWallet.id row) in H.
  rewrite (map_main_key_id (wallets db) row (key_id mk) eq_refl) in H.
  set (db3 := set_wallets (wallets db ++ [DbWallet.set_main_key_id (key_id mk) row]) db2) in *.
  destruct (hdkey mk) as [mko|e].
  2:{ injection H as <- <-. left. split; [apply grows_refl | now exists e]. }
  destruct (HDWallet_init (WalletId (DbWallet.id row)) (Some mko) db3) as [w0|e] eqn:Hinit.
  2:{ injection H as <- <-. left. split; [apply grows_refl | now exists e]. }
  assert (Hs0 : _session w0 = db3).
  { unfold HDWallet_init in Hinit. destruct (scalar _) as [[x|]|]; try discriminate.
    destruct (match DbWallet.main_key_id x with Some _ => _ | None => _ end); [|discriminate].
    now injection Hinit as <-. }
  destruct (DbKey.depth (_dbkey mk) =? 0).
  - pose proof (keeps_bind
                  (fun s => grows (_session w0) (_session s) /\ same_wallet w0 s)
                  (_create_keys_from_path mk [Py.str purpose ++ "'";
                                                Py.str (bip44_cointype network) ++ "'"]%string
                     (DbWallet.id row) (Some account_id) network name "m" 0 purpose)
                  (fun _ => new_account "" (Some account_id))
                  (keeps_create_keys_from_path _ (frame_registration w0) (frame_caching w0)
                     _ _ _ _ _ _ _ _ _)
                  (fun _ => keeps_new_account _ (frame_registration w0) (frame_caching w0) _ _)
                  w0 (conj (grows_refl _) (same_wallet_refl w0))) as [Hg Hs].
    rewrite Hs0 in Hg.
    destruct (bind _ _ w0) as [[x|e] w]; cbn [snd] in Hg, Hs; injection H as <- <-.
    + right. exists mko, w0, w.
      split; [reflexivity|]. split; [exact Hinit|]. split; [reflexivity|].
      split; [reflexivity|]. split; assumption.
    + left. split; [assumption | now exists e].
  - injection H as <- <-. right. exists mko, w0, w0.
    split; [reflexivity|]. split; [exact Hinit|]. split; [reflexivity|].
    split; [assumption|]. split; [apply grows_refl | apply same_wallet_refl].
Qed.




(** What [create] does to the three tables, whatever it returns or
    raises. *)
Lemma create_effect (name key owner : string) (nw : option string)
        (account_id purpose : Z) (db : Db) :
  let db' := snd (create name key owner nw account_id purpose db) in
  transactions db' = transactions db /\
  (exists new, keys_table db' = keys_table db ++ new) /\
  (wallets db' = wallets db \/
   ~ In name (map DbWallet.name (wallets db)) /\
   exists w, wallets db' = wallets db ++ [w] /\
             DbWallet.id w = next_id (map DbWallet.id (wallets db)) /\
             DbWallet.name w = name /\ DbWallet.owner w = owner /\
             DbWallet.purpose w = purpose /\ DbWallet.balance w = 0).
Proof.
  cbv zeta.
  destruct (create name key owner nw account_id purpose db) as [r db'] eqn:Hc.
  cbn [snd]. apply create_inv in Hc.
  destruct Hc as [(_ & -> & _)|(Hfresh & [(-> & _)|(network & Hc)])].
  - split; [reflexivity|]. split; [exists []; now rewrite app_nil_r | now left].
  - split; [reflexivity|]. split; [exists []; now rewrite app_nil_r | now left].
  - cbv zeta in Hc.
    destruct Hc as [((Hw & Ht & new & Hk) & _)|(mk & db2 & Hfk & Hc)].
    + cbn [wallets transactions keys_table set_wallets] in Hw, Ht, Hk.
      split; [assumption|]. split; [now exists new|]. right. split; [assumption|].
      eexists. split; [exact Hw|]. repeat split.
    + pose proof (from_key_import_grows name
                    (DbWallet.id (new_wallet_row name owner network purpose db)) key
                    (Some account_id) network 0 purpose 0 "m"
                    (set_wallets (wallets db ++ [new_wallet_row name owner network purpose db])
                                 db)) as (_ & Ht2 & new2 & Hk2).
      rewrite Hfk in Ht2, Hk2. cbn [snd transactions keys_table set_wallets] in Ht2, Hk2.
      assert (Hg : grows (set_wallets
                            (wallets db ++ [DbWallet.set_main_key_id (key_id mk)
                                              (new_wallet_row name owner network purpose db)])
                            db2) db').
      { destruct Hc as [(Hg & _)|(mko & w0 & w & _ & _ & _ & _ & Hg & _)]; exact Hg. }
      destruct Hg as (Hw & Ht & new & Hk).
      cbn [wallets transactions keys_table set_wallets] in Hw, Ht, Hk.
      split; [congruence|]. split.
      * exists (new2 ++ new). now rewrite Hk, Hk2, app_assoc.
      * right. split; [assumption|]. eexists. split; [exact Hw|]. repeat split.
Qed.

(** X16. Whatever [create] returns or raises, it leaves the ledger as
    it was, leaves every key row in its place, adding rows at the end of
    the keys table only, and leaves the wallets table as it was or adds
    one row at its end: a wallet with the name, owner and purpose asked
    for, balance 0, a name that no wallet had and an id above those of
    all the wallets.  Hence wallet names that were distinct stay
    distinct, and wallet ids too. *)
Theorem create_appends (name key owner : string) (nw : option string)
        (account_id purpose : Z) (db : Db) :
  let db' := snd (create name key owner nw account_id purpose db) in
  transactions db' = transactions db /\
  (exists new, keys_table db' = keys_table db ++ new) /\
  (wallets db' = wallets db \/
   ~ In name (map DbWallet.name (wallets db)) /\
   exists w, wallets db' = wallets db ++ [w] /\
             (forall x, In x (wallets db) -> DbWallet.id x < DbWallet.id w) /\
             DbWallet.name w = name /\ DbWallet.owner w = owner /\
             DbWallet.purpose w = purpose /\ DbWallet.balance w = 0) /\
  (NoDup (map DbWallet.name (wallets db)) -> NoDup (map DbWallet.name (wallets db'))) /\
  (NoDup (map DbWallet.id (wallets db)) -> NoDup (map DbWallet.id (wallets db'))).
Proof.
  cbv zeta.
  destruct (create_effect name key owner nw account_id purpose db) as (Ht & Hk & Hw).
  cbv zeta in Ht, Hk, Hw.
  split; [exact Ht|]. split; [exact Hk|].
  destruct Hw as [Hw|(Hfresh & w & Hw & Hid & Hname & Hrest)].
  - rewrite Hw. split; [now left|]. now split.
  - rewrite Hw, !map_app. cbn [map]. split; [|split].
    + right. split; [assumption|]. exists w. split; [reflexivity|]. split; [|now split].
      intros x Hx. rewrite Hid. apply next_id_above. now apply in_map.
    + intros Hn. apply NoDup_app; [assumption | repeat constructor; intros [] |].
      intros x Hx [<-|[]]. now rewrite Hname in Hx.
    + intros Hi. apply NoDup_app; [assumption | repeat constructor; intros [] |].
      intros x Hx [<-|[]]. rewrite Hid in Hx. apply next_id_above in Hx. lia.
Qed.

(** The wallet row of a [create] that returns. *)
Lemma create_returns_row (name key owner : string) (nw : option string)
      (account_id purpose : Z) (db db' : Db) (w : HDWallet HDKey) :
  create name key owner nw account_id purpose db = (Ok w, db') ->
  In name (map DbWallet.name (wallets db')).
Proof.
  intros Hc. apply create_inv in Hc.
  destruct Hc as [(Hr & _)|(Hfresh & [(_ & e & Hr)|(netw & Hc)])]; try discriminate.
  cbv zeta in Hc. destruct Hc as [(_ & e & Hr)|(mk & db2 & Hfk & Hc)]; [discriminate|].
  destruct Hc as [(_ & e & Hr)|(mko & w0 & w1 & _ & _ & _ & _ & (Hw & _) & _)];
    [discriminate|].
  rewrite Hw. cbn [wallets set_wallets]. rewrite map_app. apply in_or_app. right. now left.
Qed.



(** X18. Wallet names are taken once: [create] with the name of a
    wallet of the database raises DuplicateWalletName and leaves the
    database as it was; so does every [create] with the name of a wallet
    that a [create] has returned, whatever the other arguments. *)
Theorem create_name_taken (name key owner : string) (nw : option string)
        (account_id purpose : Z) (db : Db) :
  (In name (map DbWallet.name (wallets db)) ->
   create name key owner nw account_id purpose db
   = (Raise (WalletError DuplicateWalletName), db)) /\
  (forall w, fst (create name key owner nw account_id purpose db) = Ok w ->
     forall key' owner' nw' account_id' purpose',
       let db' := snd (create name key owner nw account_id purpose db) in
       create name key' owner' nw' account_id' purpose' db'
       = (Raise (WalletError DuplicateWalletName), db')).
Proof.
  assert (Htaken : forall key owner nw account_id purpose db,
             In name (map DbWallet.name (wallets db)) ->
             create name key owner nw account_id purpose db
             = (Raise (WalletError DuplicateWalletName), db)).
  { clear. intros key owner nw account_id purpose db Hin. unfold create.
    apply in_map_iff in Hin. destruct Hin as (x & Hn & Hx).
    destruct (filter (fun w => String.eqb (DbWallet.name w) name) (wallets db))
      as [|y l] eqn:Ef.
    - assert (In x []) as []. rewrite <- Ef. apply filter_In. split; [assumption|].
      now apply String.eqb_eq.
    - unfold count. cbn [List.length]. rewrite Nat2Z.inj_succ.
      destruct (Z.succ (Z.of_nat (List.length l)) =? 0) eqn:Z0; [apply Z.eqb_eq in Z0; lia|].
      reflexivity. }
  split; [apply Htaken|].
  intros w Hw key' owner' nw' account_id' purpose'. cbv zeta. apply Htaken.
  destruct (create name key owner nw account_id purpose db) as [r db'] eqn:Hc.
  cbn [fst snd] in *. subst r. now apply create_returns_row in Hc.
Qed.


End CreateFacts.

Section CreateExamples.
Import Examples MoreExamples.


End CreateExamples.

(* ------------------------------------------------------------------ *)
(** ** Looking up and importing keys *)

Section KeyLookup.
Context {HDKey : Type} {ext : Externals HDKey}.


Lemma HDWalletKey_init_not_KeyError (i : Z) (o : option HDKey) (db : Db) :
  HDWalletKey_init i o db <> Raise KeyError.
Proof.
  unfold HDWalletKey_init. destruct (first _); [|discriminate].
  destruct (first _); discriminate.
Qed.

(** X19. [HDWallet.key] raises KeyError exactly when no key row of the
    database, of whatever wallet, has the term as its id (for a number),
    its address, its serialized key or its name. *)
Theorem key_KeyError_iff (t : term) (self : HDWallet HDKey) :
  fst (key t self) = Raise KeyError
  <-> forall r, In r (keys_table (_session self)) -> term_matches t r = false.
Proof.
  unfold key. unfold bind at 1, get. unfold bind at 1, lift at 1.
  set (ks := keys_table (_session self)).
  split.
  - intros H r Hr. revert H.
    destruct (match t with
              | TermNum n => scalar (filter (fun r => DbKey.id r =? n) ks)
              | TermStr _ => Ok None
              end) as [dbkey|e] eqn:Hs.
    2:{ destruct t as [n|s]; [|discriminate]. unfold scalar in Hs.
        destruct (filter _ ks) as [|x [|y l]]; try discriminate.
        injection Hs as <-. discriminate. }
    destruct (or_else _ _) as [d|] eqn:Hd.
    { destruct (dict_get _ _); [discriminate|]. cbn [fst lift]. intros H. exfalso.
      now apply (HDWalletKey_init_not_KeyError (DbKey.id d) None (_session self)). }
    intros _. unfold or_else in Hd.
    destruct dbkey as [d|]; [discriminate|].
    destruct (first (filter (fun r => String.eqb (DbKey.address r) (term_text t)) ks))
      eqn:E1; [discriminate|].
    destruct (first (filter (fun r => String.eqb (DbKey.key_wif r) (term_text t)) ks))
      eqn:E2; [discriminate|].
    rewrite first_None_iff in E1, E2, Hd.
    unfold term_matches. rewrite (E1 r Hr), (E2 r Hr), (Hd r Hr).
    destruct t as [n|s]; [|reflexivity].
    unfold scalar in Hs. destruct (filter _ ks) as [|x [|y l]] eqn:Ef; try discriminate.
    rewrite (proj1 (filter_nil_iff _ _) Ef r Hr). reflexivity.
  - intros H.
    assert (Hid : match t with
                  | TermNum n => scalar (filter (fun r => DbKey.id r =? n) ks)
                  | TermStr _ => Ok None
                  end = Ok None).
    { destruct t as [n|s]; [|reflexivity].
      rewrite (proj2 (filter_nil_iff (fun r => DbKey.id r =? n) ks)); [reflexivity|].
      intros x Hx. specialize (H x Hx). unfold term_matches in H.
      rewrite !orb_false_iff in H. tauto. }
    rewrite Hid. cbn [or_else].
    rewrite (proj2 (first_None_iff (fun r => String.eqb (DbKey.address r) (term_text t)) ks)).
    2:{ intros x Hx. specialize (H x Hx). unfold term_matches in H.
        rewrite !orb_false_iff in H. tauto. }
    rewrite (proj2 (first_None_iff (fun r => String.eqb (DbKey.key_wif r) (term_text t)) ks)).
    2:{ intros x Hx. specialize (H x Hx). unfold term_matches in H.
        rewrite !orb_false_iff in H. tauto. }
    rewrite (proj2 (first_None_iff (fun r => String.eqb (DbKey.name r) (term_text t)) ks)).
    2:{ intros x Hx. specialize (H x Hx). unfold term_matches in H.
        rewrite !orb_false_iff in H. tauto. }
    reflexivity.
Qed.

Lemma dict_get_entry {V} (i : Z) (d : list (Z * V)) (o : V) :
  dict_get i d = Some o -> In (i, o) d.
Proof.
  induction d as [|[j v] d IH]; [discriminate|]. cbn [dict_get].
  destruct (j =? i) eqn:E.
  - intros [= ->]. apply Z.eqb_eq in E. subst. now left.
  - intros H. right. now apply IH.
Qed.

(** X20. Looking up a key by its id: when the ids of the key rows are
    distinct, the cache of key objects is sound and the wallet of the
    row exists, [key(id)] returns a node of that id and leaves the wallet
    object as it was; the node is built from the row, without key
    object, when the cache has no entry for the id. *)
Theorem key_by_id (self : HDWallet HDKey) (r : DbKey.row) :
  cache_ok self ->
  NoDup (map DbKey.id (keys_table (_session self))) ->
  In r (keys_table (_session self)) ->
  In (DbKey.wallet_id r) (map DbWallet.id (wallets (_session self))) ->
  exists k, key (TermNum (DbKey.id r)) self = (Ok k, self) /\
            key_id k = DbKey.id r /\
            (dict_get (DbKey.id r) (_key_objects self) = None ->
             _dbkey k = r /\ _hdkey_object k = None).
Proof.
  intros Hc Hnd Hr Hw. unfold key. unfold bind at 1, get. unfold bind at 1, lift at 1.
  rewrite (filter_unique_id _ r Hnd Hr). cbn [scalar or_else].
  destruct (dict_get (DbKey.id r) (_key_objects self)) as [o|] eqn:Hg.
  - exists o. split; [reflexivity|]. split; [|discriminate].
    apply Hc. now apply dict_get_entry.
  - unfold lift, HDWalletKey_init. rewrite (filter_unique_id _ r Hnd Hr). cbn [first hd_error].
    destruct (first (filter (fun w => DbWallet.id w =? DbKey.wallet_id r)
                            (wallets (_session self)))) as [w|] eqn:Ew.
    + eexists. split; [reflexivity|]. split; [reflexivity|]. intros _. split; reflexivity.
    + exfalso. rewrite first_None_iff in Ew. apply in_map_iff in Hw.
      destruct Hw as (w & Hid & Hin). specialize (Ew w Hin). apply Z.eqb_neq in Ew. congruence.
Qed.

Lemma HDWallet_init_cache_ok (wallet : wallet_ref) (o : option HDKey) (db : Db)
      (w : HDWallet HDKey) :
  HDWallet_init wallet o db = Ok w -> cache_ok w.
Proof.
  unfold HDWallet_init. destruct (scalar _) as [[x|]|]; try discriminate.
  destruct (DbWallet.main_key_id x) as [k|]; [|discriminate].
  destruct (HDWalletKey_init k o db) as [mk|] eqn:Hk; [|discriminate].
  intros [= <-] i o' [[= <- <-]|[]]. unfold HDWalletKey_init in Hk.
  destruct (first (filter _ (keys_table db))) as [row|] eqn:Er; [|discriminate].
  destruct (first (filter _ (wallets db))); [|discriminate].
  injection Hk as <-. unfold key_id. cbn [_dbkey]. unfold first in Er.
  destruct (filter _ _) as [|row0 l] eqn:Ef; [discriminate|]. cbn in Er. injection Er as ->.
  assert (In row (row :: l)) as Hin by now left. rewrite <- Ef in Hin.
  apply filter_In in Hin. destruct Hin as [_ Hid]. now apply Z.eqb_eq in Hid.
Qed.

End KeyLookup.

Section Imports.
Context {HDKey : Type} {ext : Externals HDKey}.
Local Open Scope list_scope.




(** X22. [import_hdkey_object] registers master keys and account keys
    only: for a key that no row has and whose depth is neither 0 nor 3 it
    raises DepthMismatch, for an account key (depth 3) without an
    [account_id] it raises a TypeError, and in both cases the wallet
    object stays as it was. *)
Theorem import_needs_master_or_account (k : HDKey) (account_id : option Z)
        (self : HDWallet HDKey) :
  (forall r, In r (keys_table (_session self)) -> DbKey.key_wif r <> extended_wif k) ->
  depth k <> 0 ->
  (depth k <> 3 ->
   import_hdkey_object k account_id self = (Raise (WalletError DepthMismatch), self)) /\
  (depth k = 3 ->
   import_hdkey_object k None self = (Raise TypeError, self)).
Proof.
  intros Hnew Hd.
  assert (Hf : first (filter (fun r => String.eqb (DbKey.key_wif r) (extended_wif k))
                             (keys_table (_session self))) = None).
  { apply first_None_iff. intros r Hr. apply String.eqb_neq. now apply Hnew. }
  split; intros H3;
    unfold import_hdkey_object, from_key_object, bind, get, on_session;
    rewrite from_key_object_steps, Hf; unfold registered_path;
    change (Z.of_nat (List.length (Py.split "/" "m")) - 1) with 0;
    change (String.eqb "m" "m") with true; cbn [andb].
  - destruct (depth k =? 0) eqn:E0; [apply Z.eqb_eq in E0; contradiction|].
    destruct (depth k =? 3) eqn:E3; [apply Z.eqb_eq in E3; contradiction|].
    cbn [negb]. now destruct self.
  - rewrite H3. cbn [Z.eqb Pos.eqb negb account_path]. now destruct self.
Qed.

End Imports.

Section AddressLists.
Context {HDKey : Type} {ext : Externals HDKey}.

Lemma filter_twice {A} (f g : A -> bool) (l : list A) :
  filter f (filter g l) = filter (fun x => g x && f x) l.
Proof.
  induction l as [|a l IH]; [reflexivity|]. cbn [filter].
  destruct (g a); cbn [filter andb]; [destruct (f a)|]; now rewrite IH.
Qed.

(** X23. The lists of keys by depth: [accounts] is empty for every
    wallet and account id ([keys] keeps depth > 3 for an account, and then
    depth = 3); [keys_addresses] is the list of the key rows of the
    wallet, its purpose and the account that have depth 5; and
    [keys_address_payment] and [keys_address_change] are the rows of
    [keys_addresses] with change 0 and change 1. *)
Theorem address_key_lists (self : HDWallet HDKey) (account_id : Z) :
  accounts self account_id = [] /\
  keys_address_payment self account_id
  = filter (fun k => DbKey.change k =? 0) (keys_addresses self account_id) /\
  keys_address_change self account_id
  = filter (fun k => DbKey.change k =? 1) (keys_addresses self account_id) /\
  (forall k, In k (keys_addresses self account_id) <->
             In k (keys_table (_session self)) /\
             DbKey.wallet_id k = wallet_id self /\ DbKey.purpose k = purpose self /\
             DbKey.account_id k = Some account_id /\ DbKey.depth k = 5).
Proof.
  split; [apply keys_account_depth_3|].
  assert (Hc : forall c,
             keys self (Some account_id) None None (Some c) (Some 5)
             = filter (fun k => DbKey.change k =? c) (keys_addresses self account_id)).
  { intros c. unfold keys_addresses, keys. rewrite !filter_twice. apply filter_ext.
    intros k. destruct (DbKey.depth k =? 5) eqn:E5.
    - apply Z.eqb_eq in E5. rewrite E5.
      change (5 >? 3) with true. change (5 >? 4) with true.
      destruct (DbKey.wallet_id k =? wallet_id self), (DbKey.purpose k =? purpose self),
        (col_eq (DbKey.account_id k) account_id), (DbKey.change k =? c); reflexivity.
    - destruct (DbKey.wallet_id k =? wallet_id self), (DbKey.purpose k =? purpose self),
        (col_eq (DbKey.account_id k) account_id), (DbKey.change k =? c),
        (DbKey.depth k >? 3), (DbKey.depth k >? 4); reflexivity. }
  split; [apply Hc|]. split; [apply Hc|].
  intros k. unfold keys_addresses, keys. rewrite !filter_In, !andb_true_iff.
  rewrite !Z.eqb_eq, Z.gtb_gt. unfold col_eq.
  destruct (DbKey.account_id k) as [a|].
  - rewrite Z.eqb_eq. split.
    + intros ((((Hin & Hw & Hp) & ->) & _) & H5). tauto.
    + intros (Hin & Hw & Hp & [= ->] & H5). repeat split; try assumption. lia.
  - split; [intros ((((_ & _) & Hf) & _) & _); discriminate | intros (_ & _ & _ & Hf & _); discriminate].
Qed.

(** X24. [HDWalletKey.parent]: the node it returns has the row whose id
    is the [parent_id] of the key, and carries the key object of the key
    itself, not one of the parent; when no key row has that id (as for
    parent_id 0 and ids from 1 on) it raises KeyIdNotFound. *)
Theorem parent_node (self : HDWalletKey HDKey) (session : Db) :
  (forall p, parent self session = Ok p ->
             key_id p = DbKey.parent_id (_dbkey self) /\
             In (_dbkey p) (keys_table session) /\
             exists o, hdkey self = Ok o /\ _hdkey_object p = Some o) /\
  ((forall r, In r (keys_table session) -> DbKey.id r <> DbKey.parent_id (_dbkey self)) ->
   forall o, hdkey self = Ok o -> parent self session = Raise (WalletError KeyIdNotFound)).
Proof.
  unfold parent. split.
  - intros p. destruct (hdkey self) as [o|e]; [|discriminate].
    unfold HDWalletKey_init.
    destruct (first (filter _ (keys_table session))) as [row|] eqn:Er; [|discriminate].
    destruct (first (filter _ (wallets session))); [|discriminate].
    intros [= <-]. unfold key_id. cbn [_dbkey _hdkey_object]. unfold first in Er.
    destruct (filter _ _) as [|row0 l] eqn:Ef; [discriminate|]. cbn in Er. injection Er as ->.
    assert (In row (row :: l)) as Hin by now left. rewrite <- Ef in Hin.
    apply filter_In in Hin. destruct Hin as [Hin Hid]. apply Z.eqb_eq in Hid.
    split; [assumption|]. split; [assumption|]. now exists o.
  - intros Hno o ->. unfold HDWalletKey_init.
    rewrite (proj2 (first_None_iff _ _)); [reflexivity|].
    intros r Hr. apply Z.eqb_neq. now apply Hno.
Qed.

End AddressLists.

Section LookupExamples.
Import Examples MoreExamples.

Lemma key_by_id_witness :
  exists k : HDWalletKey Toy.toykey,
    key (TermNum 5) wallet = (Ok k, wallet) /\ key_id k = 5.
Proof.
  destruct (key_by_id wallet (nth 4 (keys_table (_session wallet)) blank_key))
    as (k & Hk & Hid & _).
  - exact wallet_cache_ok.
  - vm_compute. repeat (constructor; [cbn; intuition discriminate|]). constructor.
  - vm_compute. tauto.
  - vm_compute. now left.
  - exists k. split; [exact Hk | exact Hid].
Defined.


Lemma import_needs_master_or_account_witness :
  import_hdkey_object (ext := E []) stray_key (Some 0) wallet
  = (Raise (WalletError DepthMismatch), wallet).
Proof.
  apply (import_needs_master_or_account (ext := E []) stray_key (Some 0) wallet).
  - apply Forall_forall. vm_compute. repeat (constructor; [discriminate|]). constructor.
  - vm_compute. discriminate.
  - vm_compute. discriminate.
Defined.

End LookupExamples.

(* ------------------------------------------------------------------ *)
(** ** Spending and synchronizing *)

Section Spending.
Context {HDKey : Type} {ext : Externals HDKey}.
Local Open Scope list_scope.

Lemma fold_left_amounts (output_arr : list (string * Z)) (a : Z) :
  fold_left (fun a o => a + snd o) output_arr a
  = a + fold_right Z.add 0 (map snd output_arr).
Proof.
  revert a. induction output_arr as [|o l IH]; intros a; cbn; [lia|]. rewrite IH. lia.
Qed.

Lemma In_firstn_list {A} (k : nat) (l : list A) (x : A) : In x (firstn k l) -> In x l.
Proof. intros H. rewrite <- (firstn_skipn k l). apply in_or_app. now left. Qed.

Lemma add_inputs_returns (db : Db) (input_arr : list (string * Z * Z)) :
  forall t t' : Transaction,
  add_inputs db input_arr t = Ok t' ->
  tx_network t' = tx_network t /\ tx_outputs t' = tx_outputs t /\
  map (fun i => (fst (fst i), snd (fst i))) (tx_inputs t')
  = map (fun i => (fst (fst i), snd (fst i))) (tx_inputs t)
    ++ map (fun a => (fst (fst a), snd (fst a))) input_arr.
Proof.
  induction input_arr as [|[[h n] kid] rest IH]; intros t t'; cbn [add_inputs].
  - intros [= <-]. now rewrite app_nil_r.
  - destruct (scalar _) as [[key|]|]; try discriminate.
    destruct (HDKey_import _ _) as [k|]; [|discriminate].
    intros H. apply IH in H. cbn [tx_network tx_outputs tx_inputs] in H.
    destruct H as (Hn & Ho & Hi). split; [assumption|]. split; [assumption|].
    rewrite Hi, map_app, <- app_assoc. reflexivity.
Qed.

(** [create_transaction] keeps what the registrations keep. *)
Lemma create_transaction_keeps (self : HDWallet HDKey) (output_arr : list (string * Z))
      (input_arr : option (list (string * Z * Z))) (account_id fee : option Z)
      (min_confirms : Z) :
  keeps (fun s => grows (_session self) (_session s) /\ same_wallet self s)
        (create_transaction output_arr input_arr account_id fee min_confirms).
Proof.
  unfold create_transaction.
  apply keeps_bind; [apply keeps_get | intros s]. cbv zeta.
  destruct (transactions (_session s)); [apply keeps_ret|].
  destruct input_arr; [apply keeps_raise|].
  destruct (_select_inputs _ _); [apply keeps_raise|].
  apply keeps_bind; [apply keeps_lift | intros t].
  apply keeps_bind.
  - destruct (negb _); [|apply keeps_ret].
    apply keeps_bind; [|intros ck; apply keeps_ret].
    apply keeps_new_key; [apply frame_registration | apply frame_caching].
  - intros t'. destruct (negb _); [apply keeps_raise | apply keeps_ret].
Qed.

(** X25. Whatever [create_transaction] returns or raises, it leaves the
    ledger as it was: no record is marked as spent or removed, even when
    a transaction that spends it is returned.  It leaves the wallets
    table as it was too, adds key rows at the end of the keys table only
    (those of the change key), and changes no attribute of the wallet
    object but the session and the cache of key objects. *)
Theorem create_transaction_frame (output_arr : list (string * Z))
        (input_arr : option (list (string * Z * Z))) (account_id fee : option Z)
        (min_confirms : Z) (self : HDWallet HDKey) :
  let self' := snd (create_transaction output_arr input_arr account_id fee min_confirms self) in
  grows (_session self) (_session self') /\ same_wallet self self'.
Proof.
  cbv zeta.
  exact (create_transaction_keeps self output_arr input_arr account_id fee min_confirms
           self (conj (grows_refl _) (same_wallet_refl _))).
Qed.

(** X26. A transaction that [create_transaction] returns is balanced:
    its inputs are the records that [_select_inputs] takes from the
    ledger for the amounts of the outputs plus the fee, all of them
    unspent; its outputs are those asked for, followed by at most one
    change output, whose amount is not 0; and the amounts of its outputs
    plus the fee are the sum of the values of its inputs. *)
Theorem create_transaction_balances (output_arr : list (string * Z))
        (account_id fee : option Z) (min_confirms : Z) (self self' : HDWallet HDKey)
        (t : Transaction) :
  create_transaction output_arr None account_id fee min_confirms self = (Ok (Some t), self') ->
  let selected := _select_inputs (amount_with_fee output_arr fee)
                                 (Some (transactions (_session self))) in
  selected <> [] /\
  Forall (fun u => In u (transactions (_session self))
                   /\ DbTransaction.spend u = Some false) selected /\
  map (fun i => (fst (fst i), snd (fst i))) (tx_inputs t)
  = map (fun u => (DbTransaction.tx_hash u, DbTransaction.output_n u)) selected /\
  (exists change_outputs,
      tx_outputs t = map (fun o => (snd o, fst o)) output_arr ++ change_outputs /\
      (List.length change_outputs <= 1)%nat /\
      Forall (fun o => fst o <> 0) change_outputs) /\
  outputs_total t + match fee with None => fallback_fee | Some f => f end
  = total_value selected.
Proof.
  unfold create_transaction. unfold bind at 1, get. cbv zeta.
  rewrite fold_left_amounts, Z.add_0_l. fold (amount_with_fee output_arr fee).
  destruct (transactions (_session self)) as [|u0 ts] eqn:Hts; [discriminate|].
  rewrite <- Hts. clear Hts u0 ts.
  set (selected := _select_inputs (amount_with_fee output_arr fee)
                                  (Some (transactions (_session self)))).
  assert (Hsub : Forall (fun u => In u (transactions (_session self))
                                  /\ DbTransaction.spend u = Some false) selected).
  { unfold selected, _select_inputs.
    set (amount := amount_with_fee output_arr fee).
    set (q := transactions (_session self)).
    assert (Hf : forall g (l : list DbTransaction.row),
               (forall u, In u l -> In u (filter (fun t => spend_IS_False t && g t) q)) ->
               Forall (fun u => In u q /\ DbTransaction.spend u = Some false) l).
    { intros g l Hl. apply Forall_forall. intros u Hu. apply Hl in Hu.
      apply filter_In in Hu. destruct Hu as [Hin Hu]. apply andb_true_iff in Hu.
      destruct Hu as [Hu _]. unfold spend_IS_False in Hu.
      split; [assumption|]. now destruct (DbTransaction.spend u) as [[]|]. }
    destruct (first (order_by _ _)) as [u|] eqn:E1.
    - apply (Hf (fun t => DbTransaction.value t >=? amount)).
      intros u' Hu'. cbn [In] in Hu'. destruct Hu' as [<-|[]]. unfold first, order_by in E1.
      destruct (sort_by _ _) as [|x l] eqn:Es; [discriminate|]. injection E1 as ->.
      eapply Permutation_in; [apply sort_by_perm|]. rewrite Es. now left.
    - destruct (accumulate_prefix amount
                  (order_by_desc DbTransaction.value
                     (filter (fun t => spend_IS_False t && (DbTransaction.value t <? amount)) q))
                  [] 0) as (k & _ & Heq & _).
      rewrite Heq. destruct (_ <? amount); [constructor|].
      apply (Hf (fun t => DbTransaction.value t <? amount)).
      intros u Hu. cbn [app] in Hu. apply In_firstn_list in Hu.
      eapply Permutation_in; [apply sort_by_perm | exact Hu]. }
  destruct selected as [|u1 sel] eqn:Hsel; [discriminate|].
  assert (Hne : selected <> []) by (rewrite Hsel; discriminate).
  rewrite <- Hsel in *. clear Hsel u1 sel.
  rewrite total_value_fold, Z.add_0_l.
  unfold bind at 1, lift at 1.
  destruct (add_inputs _ _ _) as [t1|e] eqn:Hadd; [|discriminate].
  apply add_inputs_returns in Hadd. cbn [tx_network tx_outputs tx_inputs map app] in Hadd.
  destruct Hadd as (_ & Ho1 & Hi1). rewrite map_map in Hi1. cbn [fst snd] in Hi1.
  unfold bind at 1.
  set (change := total_value selected - amount_with_fee output_arr fee).
  assert (Htot : fold_right Z.add 0 (map fst (map (fun o : string * Z => (snd o, fst o))
                                                  output_arr))
                 = fold_right Z.add 0 (map snd output_arr)).
  { rewrite map_map. reflexivity. }
  destruct (change =? 0) eqn:Ec; cbn [negb].
  - apply Z.eqb_eq in Ec. unfold ret at 1.
    destruct (negb _); [discriminate|]. intros [= <- <-].
    split; [assumption|]. split; [assumption|]. split; [assumption|]. split.
    + exists []. rewrite app_nil_r. split; [assumption|]. split; [cbn; lia | constructor].
    + unfold outputs_total. rewrite Ho1, Htot. unfold change, amount_with_fee in Ec. lia.
  - apply Z.eqb_neq in Ec. unfold bind at 1.
    destruct (new_key_change _ _ self) as [[ck|e] s1]; [|discriminate].
    unfold ret at 1. cbn [tx_outputs tx_inputs tx_signed].
    destruct (negb _); [discriminate|]. intros [= <- <-].
    cbn [tx_outputs tx_inputs].
    split; [assumption|]. split; [assumption|]. split; [assumption|]. split.
    + exists [(change, DbKey.address (_dbkey ck))]. rewrite Ho1.
      split; [reflexivity|]. split; [cbn; lia|]. constructor; [exact Ec | constructor].
    + unfold outputs_total. cbn [tx_outputs]. rewrite Ho1, map_app, fold_right_app.
      cbn [map fold_right fst].
      assert (Hacc : forall (l : list Z) (a : Z),
                 fold_right Z.add a l = fold_right Z.add 0 l + a).
      { induction l as [|x l IH]; intros a; cbn; [lia|]. rewrite IH. lia. }
      rewrite Hacc, Htot. unfold change, amount_with_fee. lia.
Qed.

(** X27. [send], when the service object is built: on an empty ledger
    it raises an AttributeError (the [t.raw()] of the None that
    [create_transaction] returns); when it returns a transaction id, the
    id is not empty and is the one that the service gave for the
    transaction that [create_transaction] built.  And whatever it returns
    or raises, with or without service, it leaves the ledger as it was:
    the records spent by a transaction that was sent stay unspent. *)
Theorem send_cases (service : result (Transaction -> result string))
        (to_address : string) (amount : Z) (account_id fee : option Z)
        (self : HDWallet HDKey) :
  let sent := send service to_address amount account_id fee self in
  (forall srv, service = Ok srv -> transactions (_session self) = [] ->
               sent = (Raise AttributeError, self)) /\
  transactions (_session (snd sent)) = transactions (_session self) /\
  (forall txid, fst sent = Ok txid ->
     txid <> "" /\
     exists srv t,
       service = Ok srv /\
       fst (create_transaction [(to_address, amount)] None account_id fee 4 self)
       = Ok (Some t)
       /\ srv t = Ok txid).
Proof.
  cbv zeta. unfold send.
  pose proof (create_transaction_keeps self [(to_address, amount)] None account_id fee 4
                self (conj (grows_refl _) (same_wallet_refl _))) as [(_ & Ht & _) _].
  split; [|split].
  - intros srv -> Hempty. unfold bind at 1.
    unfold create_transaction, bind, get. cbv zeta. now rewrite Hempty.
  - unfold bind at 1.
    destruct (create_transaction _ _ _ _ _ self) as [[t|e] s1]; cbn [snd] in Ht |- *;
      [|exact Ht].
    unfold bind at 1, lift at 1. destruct service as [srv|e]; [|exact Ht].
    destruct t as [t|]; [|exact Ht].
    unfold bind, lift. destruct (srv t) as [txid|e]; [|exact Ht].
    destruct (String.eqb txid ""); exact Ht.
  - intros txid. unfold bind at 1.
    destruct (create_transaction _ _ _ _ _ self) as [[t|e] s1]; [|discriminate].
    unfold bind at 1, lift at 1. destruct service as [srv|e]; [|discriminate].
    destruct t as [t|]; [|discriminate].
    unfold bind, lift. destruct (srv t) as [txid'|e] eqn:Hp; [|discriminate].
    destruct (String.eqb txid' "") eqn:E; [discriminate|].
    intros [= <-]. split; [now apply String.eqb_neq|]. exists srv, t. now split.
Qed.

(** *** What a synchronization keeps *)

Lemma write_balances_columns (d : list (Z * Z)) :
  forall ks : list DbKey.row,
  map (DbKey.set_balance 0) (write_balances d ks) = map (DbKey.set_balance 0) ks.
Proof.
  induction d as [|[i b] d IH]; intros ks; cbn [write_balances]; [reflexivity|].
  rewrite IH, map_map. apply map_ext. intros k. now destruct (DbKey.id k =? i).
Qed.

Lemma utxos_loop_object (utxos : list utxo) :
  forall (kb : list (Z * Z)) (cnt : Z) (self self' : HDWallet HDKey) (r : list (Z * Z) * Z),
  utxos_loop utxos kb cnt self = (Ok r, self') ->
  same_wallet self self' /\ _key_objects self' = _key_objects self.
Proof.
  induction utxos as [|[a u] rest IH]; intros kb cnt self self' r H.
  - cbn in H. injection H as _ <-. split; [apply same_wallet_refl | reflexivity].
  - rewrite utxos_loop_cons in H.
    destruct (scalar _) as [[key|]|e]; try discriminate.
    destruct (negb _); apply IH in H; exact H.
Qed.

Lemma balances_loop_object (d : list (Z * Z)) :
  forall (tot : Z) (self self' : HDWallet HDKey) (tot' : Z),
  balances_loop d tot self = (Ok tot', self') ->
  wallets (_session self') = wallets (_session self) /\
  same_wallet self self' /\ _key_objects self' = _key_objects self.
Proof.
  induction d as [|[i b] d IH]; intros tot self self' tot' H.
  - cbn in H. injection H as _ <-. split; [reflexivity|].
    split; [apply same_wallet_refl | reflexivity].
  - rewrite balances_loop_cons in H.
    destruct (scalar _) as [[key|]|e]; try discriminate.
    apply IH in H. exact H.
Qed.

(** X29. A synchronization that returns changes balances only: the key
    rows are those that were there, in their places, equal to what they
    were in every column but [balance]; so are the wallet rows; and the
    wallet object has the attributes it had, but for its session and its
    balance. *)
Theorem updateutxos_keeps_rows (self self' : HDWallet HDKey) (account_id key_id : option Z) :
  updateutxos account_id key_id self = (Ok tt, self') ->
  map (DbKey.set_balance 0) (keys_table (_session self'))
  = map (DbKey.set_balance 0) (keys_table (_session self)) /\
  map (DbWallet.set_balance 0) (wallets (_session self'))
  = map (DbWallet.set_balance 0) (wallets (_session self)) /\
  same_wallet (set_wallet_balance 0 self) (set_wallet_balance 0 self').
Proof.
  rewrite updateutxos_unfold.
  destruct (getutxos _ _) as [utxos|e]; [|discriminate].
  destruct (utxos_loop utxos [] 0 self) as [[[kb cnt]|e] s1] eqn:Hloop; [|discriminate].
  destruct (balances_loop kb 0 s1) as [[total|e] s2] eqn:Hbal; [|discriminate].
  intros [= <-].
  destruct (utxos_loop_returns _ _ _ _ _ _ _ Hloop) as (Hk1 & Hw1 & _).
  destruct (utxos_loop_object _ _ _ _ _ _ Hloop) as (Hs1 & _).
  destruct (balances_loop_returns _ _ _ _ _ Hbal) as (_ & Hk2 & _).
  destruct (balances_loop_object _ _ _ _ _ Hbal) as (Hw2 & Hs2 & _).
  cbn [_session set_wallet_balance set_session set_wallets keys_table wallets].
  split; [|split].
  - now rewrite Hk2, write_balances_columns, Hk1.
  - rewrite map_map, Hw2, Hw1. apply map_ext. intros w.
    now destruct (DbWallet.id w =? wallet_id s2).
  - destruct Hs1 as (A1 & A2 & A3 & A4 & A5 & A6 & A7 & A8 & A9).
    destruct Hs2 as (B1 & B2 & B3 & B4 & B5 & B6 & B7 & B8 & B9).
    unfold same_wallet.
    cbn [wallet_id _name _owner network purpose _balance main_key_id main_key
         default_account_id set_wallet_balance set_session].
    repeat split; congruence.
Qed.

End Spending.

Section SpendingExamples.
Import Examples Funded MoreExamples.

Lemma create_transaction_balances_witness :
  map (fun i => (fst (fst i), snd (fst i))) (tx_inputs payment) = [("aa", 0)] /\
  outputs_total payment + 30000 = 150000.
Proof.
  assert (H : create_transaction (ext := E reply) [("to", 100000)] None (Some 0)
                                 (Some 30000) 4 funded
              = (Ok (Some payment), after_payment)) by (vm_compute; reflexivity).
  destruct (create_transaction_balances (ext := E reply) _ _ _ _ _ _ _ H)
    as (_ & _ & Hin & _ & Hsum).
  split; [rewrite Hin | rewrite Hsum]; vm_compute; reflexivity.
Defined.

Lemma updateutxos_returns_witness :
  exists self', updateutxos (ext := E reply) None None before_sync = (Ok tt, self').
Proof.
  apply (updateutxos_returns (ext := E reply) before_sync None None reply).
  - reflexivity.
  - vm_compute. repeat (constructor; [discriminate|]). constructor.
  - vm_compute. repeat (constructor; [cbn; intuition discriminate|]). constructor.
Defined.

Lemma updateutxos_keeps_rows_witness :
  map (DbKey.set_balance 0) (keys_table (_session funded))
  = map (DbKey.set_balance 0) (keys_table (_session before_sync)).
Proof.
  assert (H : updateutxos (ext := E reply) None None before_sync = (Ok tt, funded))
    by (vm_compute; reflexivity).
  exact (proj1 (updateutxos_keeps_rows (ext := E reply) _ _ _ _ H)).
Defined.

End SpendingExamples.

(* ------------------------------------------------------------------ *)
(** ** The path of a key, the name of a wallet *)

Section FullPath.
Context {HDKey : Type} {ext : Externals HDKey}.

Lemma normalize_level_plain (level : string) (c : ascii) :
  Py.last_char level = Some c -> Py.char_in c "HhPp" = false ->
  normalize_level level = level.
Proof.
  intros Hc Hm. unfold normalize_level. rewrite Hc. unfold hardening_markers.
  destruct (Py.char_in c "'HhPp") eqn:Hq; [|reflexivity].
  cbn in Hq, Hm. rewrite !orb_false_iff in Hm. destruct Hm as (H1 & H2 & H3 & H4 & _).
  rewrite H1, H2, H3, H4 in Hq. cbn in Hq. rewrite orb_false_r in Hq.
  apply Ascii.eqb_eq in Hq. subst c. symmetry. now apply last_char_decompose.
Qed.

(** Joined levels that have no separator, are not empty and do not end
    in H, h, P or p make a path in normal form, which splits into them. *)
Lemma normalize_path_plain_join (l : list string) :
  l <> [] -> Forall sep_free l ->
  Forall (fun level => exists c, Py.last_char level = Some c /\ Py.char_in c "HhPp" = false) l ->
  normalize_path (Py.join "/" l) = Ok (Py.join "/" l) /\
  Py.split "/" (Py.join "/" l) = l.
Proof.
  intros Hn Hs Hp. rewrite normalize_path_ok; rewrite (split_join l Hn Hs).
  - split; [|reflexivity]. f_equal. f_equal.
    induction Hp as [|level l' (c & Hc & Hm) Hp IH]; [reflexivity|]. cbn [map]. f_equal.
    + now apply (normalize_level_plain level c).
    + destruct l' as [|x l'']; [reflexivity|]. apply IH; [discriminate|].
      now inversion Hs.
  - eapply Forall_impl; [|exact Hp]. intros a (c & Hc & _) ->. discriminate.
Qed.

Lemma last_char_cons (a : ascii) (s : string) (c : ascii) :
  Py.last_char s = Some c -> Py.last_char (String a s) = Some c.
Proof. destruct s; [discriminate|]. intros H. exact H. Qed.

Lemma uint_ends_in_digit (d : Decimal.uint) :
  d <> Decimal.Nil ->
  exists c, Py.last_char (NilEmpty.string_of_uint d) = Some c /\ Py.char_in c "HhPp" = false.
Proof.
  induction d as [|d IH|d IH|d IH|d IH|d IH|d IH|d IH|d IH|d IH|d IH]; intros Hd;
    [congruence|..];
    (destruct (Decimal.uint_eq_dec d Decimal.Nil) as [->|Hn];
     [eexists; split; reflexivity
     |destruct (IH Hn) as (c & Hc & Hm); exists c; split; [|exact Hm];
      cbn [NilEmpty.string_of_uint]; now apply last_char_cons]).
Qed.

Lemma str_ends_in_digit (n : Z) :
  exists c, Py.last_char (Py.str n) = Some c /\ Py.char_in c "HhPp" = false.
Proof.
  unfold Py.str, NilZero.string_of_int.
  assert (H : forall d, exists c, Py.last_char (NilZero.string_of_uint d) = Some c
                                  /\ Py.char_in c "HhPp" = false).
  { intros d. destruct (Decimal.uint_eq_dec d Decimal.Nil) as [->|Hn].
    - eexists. split; reflexivity.
    - destruct (uint_ends_in_digit d Hn) as (c & Hc & Hm). exists c. split; [|exact Hm].
      now destruct d. }
  destruct (Z.to_int n) as [d|d]; [apply H|].
  destruct (H d) as (c & Hc & Hm). exists c. split; [|exact Hm]. now apply last_char_cons.
Qed.

Lemma Forall_firstn {A} (P : A -> Prop) (k : nat) (l : list A) :
  Forall P l -> Forall P (firstn k l).
Proof.
  intros H. apply Forall_forall. intros x Hx. rewrite Forall_forall in H. apply H.
  rewrite <- (firstn_skipn k l). apply in_or_app. now left.
Qed.

(** X30. [HDWalletKey.fullpath]: for a [max_depth] that is not negative
    it has [max_depth] levels, and no more than six; with the default
    [max_depth] of 5 the address index is not among them, whatever it is;
    and for a [max_depth] of 1 or more its levels, joined by '/', make a
    path that [normalize_path] returns as it is and that splits into
    these levels again. *)
Theorem fullpath_shape (self : HDWalletKey HDKey) (change address_index : option Z)
        (max_depth : Z) :
  (0 <= max_depth ->
   List.length (fullpath self change address_index max_depth) = Z.to_nat (Z.min max_depth 6)) /\
  (forall address_index',
      fullpath self change address_index' 5 = fullpath self change address_index 5) /\
  (1 <= max_depth ->
   let path := Py.join "/" (fullpath self change address_index max_depth) in
   normalize_path path = Ok path /\
   Py.split "/" path = fullpath self change address_index max_depth).
Proof.
  unfold fullpath, list_up_to. cbv zeta.
  set (root := if negb (String.eqb (DbKey.key (_dbkey self)) "") then ["m"] else ["M"]).
  assert (Hroot : exists r, root = [r] /\ (r = "m" \/ r = "M")).
  { unfold root. destruct (negb _); eexists; split; eauto. }
  destruct Hroot as (r & -> & Hr). cbn [app].
  split; [|split].
  - intros H0. destruct (max_depth <? 0) eqn:E; [apply Z.ltb_lt in E; lia|].
    rewrite length_firstn. cbn [List.length]. lia.
  - intros address_index'. reflexivity.
  - intros H1. destruct (max_depth <? 0) eqn:E; [apply Z.ltb_lt in E; lia|].
    apply normalize_path_plain_join.
    + destruct (Z.to_nat max_depth) as [|k] eqn:Ek; [lia | discriminate].
    + apply Forall_firstn.
      assert (Hq : forall s, sep_free s -> sep_free (s ++ "'"))
        by (intros s Hs; apply sep_free_app; split; [exact Hs | reflexivity]).
      repeat constructor; try (apply Hq); try apply str_sep_free.
      * destruct Hr as [-> | ->]; reflexivity.
      * destruct (DbKey.account_id (_dbkey self)); [apply str_sep_free | reflexivity].
    + apply Forall_firstn.
      assert (Hq : forall s, exists c, Py.last_char (s ++ "'") = Some c
                                       /\ Py.char_in c "HhPp" = false).
      { intros s. exists "'"%char. split; [apply last_char_snoc | reflexivity]. }
      repeat constructor; try (apply Hq); try apply str_ends_in_digit.
      destruct Hr as [-> | ->]; eexists; split; reflexivity.
Qed.

End FullPath.

Section RenameWallet.
Context {HDKey : Type}.




End RenameWallet.

Section RenameExamples.
Import Examples MoreExamples.


End RenameExamples.
